(** * GodEye dashboard: search page (app.js) and results page (results.js)

    A shallow embedding of the two page controllers of
    [dashboard/static/js] and of the parts of the JavaScript runtime they
    call (strings, numbers, regular expressions, JSON, localStorage),
    followed by the properties of the search-to-results pipeline.

    Conventions.
    - A JavaScript string is its sequence of UTF-16 code units, [list N].
      [js "text"] turns a literal into code units.
    - A JavaScript number is an IEEE-754 binary64 value, [float].
    - [undefined] is [None] wherever a property is read; values that come
      out of [JSON.parse] are the inductive type [value].
    - The browser's [localStorage] is a finite map from keys to strings
      together with a policy saying which writes the browser accepts
      (a refused write raises QuotaExceededError in the source). *)

From Stdlib Require Import ZArith NArith List String Ascii Bool Lia Floats.
From stdpp Require Import gmap strings.

Set Warnings "-inexact-float,-register-all".
Local Open Scope N_scope.

(* ================================================================== *)
(** * Part I. The embedding                                            *)
(* ================================================================== *)

(** ** Code units and strings *)

Abbreviation jsstring := (list N).

Definition ch (a : ascii) : N := N_of_ascii a.

Definition js (s : string) : jsstring := map N_of_ascii (list_ascii_of_string s).
Arguments js s%_string.

Definition jsstring_eqb (a b : jsstring) : bool := bool_decide (a = b).

(** Markup is written with apostrophes for its double quotes:
    [html "<p class='a'>"] is the text with every apostrophe turned into a
    double quote. *)
Definition html (s : string) : jsstring :=
  map (fun c => if c =? 39 then 34 else c) (js s).
Arguments html s%_string.

(** WhiteSpace and LineTerminator code units (ECMA-262 StrWhiteSpaceChar);
    the same set is what [\s] matches and what [String.prototype.trim]
    removes. *)
Definition isWhiteSpace (c : N) : bool :=
  (c =? 9) || (c =? 10) || (c =? 11) || (c =? 12) || (c =? 13) || (c =? 32)
  || (c =? 160) || (c =? 5760) || ((8192 <=? c) && (c <=? 8202))
  || (c =? 8232) || (c =? 8233) || (c =? 8239) || (c =? 8287)
  || (c =? 12288) || (c =? 65279).

Fixpoint trimStart (s : jsstring) : jsstring :=
  match s with
  | [] => []
  | c :: r => if isWhiteSpace c then trimStart r else s
  end.

Fixpoint trimEnd (s : jsstring) : jsstring :=
  match s with
  | [] => []
  | c :: r =>
      match trimEnd r with
      | [] => if isWhiteSpace c then [] else [c]
      | r' => c :: r'
      end
  end.

(** [String.prototype.trim]. *)
Definition trim (s : jsstring) : jsstring := trimEnd (trimStart s).

(** [String.prototype.toUpperCase] on Basic Latin and Latin-1 code units;
    code units above U+00FF are left as they are (the full Unicode case
    tables are not part of this development). *)
Definition upperUnit (c : N) : jsstring :=
  if (97 <=? c) && (c <=? 122) then [c - 32]
  else if c =? 181 then [924]
  else if c =? 223 then [83; 83]
  else if (224 <=? c) && (c <=? 254) && negb (c =? 247) then [c - 32]
  else if c =? 255 then [376]
  else [c].

Definition toUpperCase (s : jsstring) : jsstring := flat_map upperUnit s.

(** [Array.prototype.join] on strings. *)
Fixpoint join (sep : jsstring) (parts : list jsstring) : jsstring :=
  match parts with
  | [] => []
  | [p] => p
  | p :: rest => p ++ sep ++ join sep rest
  end.

(** ** Numbers *)

Definition isDigit (c : N) : bool := (48 <=? c) && (c <=? 57).

Fixpoint takeDigits (s : jsstring) : jsstring * jsstring :=
  match s with
  | c :: r =>
      if isDigit c then let '(ds, rest) := takeDigits r in (c :: ds, rest)
      else ([], s)
  | [] => ([], [])
  end.

(** The mathematical value of a run of decimal digits. *)
Definition digitsValue (ds : jsstring) : Z :=
  fold_left (fun acc c => (10 * acc + (Z.of_N c - 48))%Z) ds 0%Z.

(** The Number value (round to nearest, ties to even) of [m * 10^e10],
    negated when [neg]. *)
Definition decimalToNumber (neg : bool) (m : Z) (e10 : Z) : float :=
  match m with
  | Z.pos p =>
      if (0 <=? e10)%Z
      then SF2Prim (binary_normalize prec emax
                      ((if neg then -1 else 1) * (m * 10 ^ e10)) 0 false)
      else SF2Prim (SFdiv prec emax (S754_finite neg p 0)
                      (S754_finite false (Z.to_pos (10 ^ (- e10))) 0))
  | _ => if neg then neg_zero else zero
  end.

(** Longest prefix of [s] that is a StrDecimalLiteral
    ([(+|-)? (Infinity | digits (. digits?)? exp? | . digits exp?)]),
    its Number value and what follows it. *)
Definition scanSign (s : jsstring) : bool * jsstring :=
  match s with
  | c :: r => if c =? ch "-" then (true, r)
              else if c =? ch "+" then (false, r) else (false, s)
  | [] => (false, s)
  end.

Definition scanExponent (s : jsstring) : Z * jsstring :=
  match s with
  | c :: r =>
      if (c =? ch "e") || (c =? ch "E") then
        let '(neg, r1) := scanSign r in
        match takeDigits r1 with
        | ([], _) => (0%Z, s)
        | (ds, rest) => ((if neg then - digitsValue ds else digitsValue ds)%Z, rest)
        end
      else (0%Z, s)
  | [] => (0%Z, s)
  end.

Fixpoint stripPrefix (p s : jsstring) : option jsstring :=
  match p, s with
  | [], _ => Some s
  | a :: p', b :: s' => if a =? b then stripPrefix p' s' else None
  | _ :: _, [] => None
  end.

Definition scanDecimal (s : jsstring) : option (float * jsstring) :=
  let '(neg, s1) := scanSign s in
  match stripPrefix (js "Infinity") s1 with
  | Some rest => Some (if neg then neg_infinity else infinity, rest)
  | None =>
      let '(ip, s2) := takeDigits s1 in
      let '(fp, s3) :=
        match s2 with
        | c :: r =>
            if c =? ch "." then
              let '(ds, r') := takeDigits r in
              match ip, ds with
              | [], [] => ([], s2)
              | _, _ => (ds, r')
              end
            else ([], s2)
        | [] => ([], s2)
        end in
      match ip, fp with
      | [], [] => None
      | _, _ =>
          let '(e, rest) := scanExponent s3 in
          Some (decimalToNumber neg (digitsValue (ip ++ fp))
                  (e - Z.of_nat (length fp)), rest)
      end
  end.

(** [parseFloat] applied to a string. *)
Definition parseFloatString (s : jsstring) : float :=
  match scanDecimal (trimStart s) with
  | Some (x, _) => x
  | None => nan
  end.

(** Digits of a non-decimal integer literal ([0x], [0o], [0b]). *)
Definition radixDigit (radix c : N) : option N :=
  let d := if isDigit c then Some (c - 48)
           else if (97 <=? c) && (c <=? 102) then Some (c - 87)
           else if (65 <=? c) && (c <=? 70) then Some (c - 55)
           else None in
  match d with
  | Some v => if v <? radix then Some v else None
  | None => None
  end.

Fixpoint radixValue (radix : N) (s : jsstring) (acc : Z) : option Z :=
  match s with
  | [] => Some acc
  | c :: r =>
      match radixDigit radix c with
      | Some d => radixValue radix r (Z.of_N radix * acc + Z.of_N d)%Z
      | None => None
      end
  end.

Definition radixLiteral (t : jsstring) : option float :=
  match t with
  | z :: x :: (_ :: _) as ds =>
      if z =? ch "0" then
        let radix :=
          if (x =? ch "x") || (x =? ch "X") then Some 16
          else if (x =? ch "o") || (x =? ch "O") then Some 8
          else if (x =? ch "b") || (x =? ch "B") then Some 2
          else None in
        match radix with
        | Some rx =>
            Some match radixValue rx ds 0%Z with
                 | Some v => decimalToNumber false v 0
                 | None => nan
                 end
        | None => None
        end
      else None
  | _ => None
  end.

(** StringToNumber (ECMA-262 7.1.4.1.1): the Number a string converts to. *)
Definition StringToNumber (s : jsstring) : float :=
  match trim s with
  | [] => zero
  | t =>
      match radixLiteral t with
      | Some x => x
      | None =>
          match scanDecimal t with
          | Some (x, []) => x
          | _ => nan
          end
      end
  end.

(** Truthiness of a Number: [+0], [-0] and [NaN] are falsy. *)
Definition truthyNumber (x : float) : bool := negb (is_zero x || is_nan x).

Fixpoint uintUnits (u : Decimal.uint) : jsstring :=
  match u with
  | Decimal.Nil => []
  | Decimal.D0 r => 48 :: uintUnits r
  | Decimal.D1 r => 49 :: uintUnits r
  | Decimal.D2 r => 50 :: uintUnits r
  | Decimal.D3 r => 51 :: uintUnits r
  | Decimal.D4 r => 52 :: uintUnits r
  | Decimal.D5 r => 53 :: uintUnits r
  | Decimal.D6 r => 54 :: uintUnits r
  | Decimal.D7 r => 55 :: uintUnits r
  | Decimal.D8 r => 56 :: uintUnits r
  | Decimal.D9 r => 57 :: uintUnits r
  end.

(** Decimal digits of a non-negative integer, no leading zeros ("0" for 0). *)
Definition decimalDigits (z : Z) : jsstring := uintUnits (N.to_uint (Z.to_N z)).

(** The exact value of a positive finite Number as a fraction [num / den]. *)
Definition exactFraction (m : positive) (e : Z) : Z * Z :=
  if (0 <=? e)%Z then (Z.pos m * 2 ^ e, 1)%Z else (Z.pos m, 2 ^ (- e))%Z.

(** [v < 10^n] for [v = num / den]. *)
Definition belowPow10 (num den n : Z) : bool :=
  if (0 <=? n)%Z then (num <? 10 ^ n * den)%Z else (num * 10 ^ (- n) <? den)%Z.

(** The [n] with [10^(n-1) <= v < 10^n], searched upwards from [n]. *)
Fixpoint decimalExponent (fuel : nat) (num den n : Z) : Z :=
  match fuel with
  | O => n
  | S f => if belowPow10 num den n then n else decimalExponent f num den (n + 1)
  end.

(** The shortest digit string [s] (with [k] digits) and exponent [n] such
    that [s * 10^(n-k)] converts back to [x], closest to [x] among those
    (Number::toString, step 5). [k] runs upwards from its given value. *)
Fixpoint shortestDigits (fuel : nat) (x : float) (num den n0 k : Z) : Z * Z * Z :=
  let '(a, b) := if (0 <=? n0 - k)%Z then (num, den * 10 ^ (n0 - k))%Z
                 else (num * 10 ^ (k - n0), den)%Z in
  let lo := (a / b)%Z in
  let hi := (lo + 1)%Z in
  let back s := (decimalToNumber false s (n0 - k) =? x)%float in
  let loOk := (0 <? lo)%Z && back lo in
  let hiOk := back hi in
  let hiCloser := ((2 * lo + 1) * b <? 2 * a)%Z
                  || (((2 * lo + 1) * b =? 2 * a)%Z && Z.odd lo) in
  let pickHi := if (hi =? 10 ^ k)%Z then (10 ^ (k - 1), n0 + 1, k)%Z
                else (hi, n0, k) in
  match fuel with
  | O => (lo, n0, k)
  | S f =>
      if loOk && hiOk then (if hiCloser then pickHi else (lo, n0, k))
      else if loOk then (lo, n0, k)
      else if hiOk then pickHi
      else shortestDigits f x num den n0 (k + 1)
  end.

Definition zeros (n : Z) : jsstring := repeat 48 (Z.to_nat n).

(** Number::toString for radix 10 (ECMA-262 6.1.6.1.20). *)
Definition NumberToString (x : float) : jsstring :=
  match Prim2SF x with
  | S754_nan => js "NaN"
  | S754_zero _ => js "0"
  | S754_infinity s => (if s then js "-" else []) ++ js "Infinity"
  | S754_finite sg m e =>
      let '(num, den) := exactFraction m e in
      let est := ((Z.log2 (Z.pos m) + e) * 30103 / 100000 - 1)%Z in
      let n0 := decimalExponent 8 num den est in
      let '(s, n, k) := shortestDigits 17 (abs x) num den n0 1 in
      let ds := decimalDigits s in
      let body :=
        if (Z.of_nat (length ds) <=? n)%Z && (n <=? 21)%Z then
          ds ++ zeros (n - Z.of_nat (length ds))
        else if (0 <? n)%Z && (n <=? 21)%Z then
          firstn (Z.to_nat n) ds ++ js "." ++ skipn (Z.to_nat n) ds
        else if (-6 <? n)%Z && (n <=? 0)%Z then
          js "0." ++ zeros (- n) ++ ds
        else
          let ex := (n - 1)%Z in
          let exs := (if (ex <? 0)%Z then js "-" else js "+")
                     ++ decimalDigits (Z.abs ex) in
          match ds with
          | [d] => [d] ++ js "e" ++ exs
          | d :: more => [d] ++ js "." ++ more ++ js "e" ++ exs
          | [] => []
          end in
      (if sg then js "-" else []) ++ body
  end.

(** [Math.round]: nearest integer, ties towards +Infinity. *)
Definition Math_round (x : float) : float :=
  match Prim2SF x with
  | S754_finite sg m e =>
      if (0 <=? e)%Z then x
      else
        let den := (2 ^ (- e))%Z in
        let num := (if sg then - Z.pos m else Z.pos m)%Z in
        let r := ((2 * num + den) / (2 * den))%Z in
        SF2Prim (binary_normalize prec emax r 0 sg)
  | _ => x
  end.

(** ** Values

    The values [JSON.parse] can produce. An object is the list of its own
    properties in enumeration order (integer-like keys, which JavaScript
    enumerates first, get no special treatment); a property that is not
    there reads as [undefined], here [None]. *)

Inductive value : Type :=
| VNull
| VBool (b : bool)
| VNum (x : float)
| VStr (s : jsstring)
| VArr (elems : list value)
| VObj (props : list (jsstring * value)).

(** ToBoolean. *)
Definition truthy (v : value) : bool :=
  match v with
  | VNull => false
  | VBool b => b
  | VNum x => truthyNumber x
  | VStr s => match s with [] => false | _ => true end
  | VArr _ | VObj _ => true
  end.

(** ToBoolean of a value that may be [undefined]. *)
Definition truthyOpt (o : option value) : bool :=
  match o with Some v => truthy v | None => false end.

(** [typeof v === 'object'] (which holds of [null], too). *)
Definition typeofObject (v : value) : bool :=
  match v with
  | VNull | VArr _ | VObj _ => true
  | _ => false
  end.

(** [a || d] where [a] may be [undefined]. *)
Definition orElse (a : option value) (d : value) : value :=
  match a with
  | Some v => if truthy v then v else d
  | None => d
  end.

Fixpoint assoc (k : jsstring) (props : list (jsstring * value)) : option value :=
  match props with
  | [] => None
  | (k', v) :: rest => if jsstring_eqb k k' then Some v else assoc k rest
  end.

(** A canonical array index: decimal digits without a leading zero. *)
Definition arrayIndex (k : jsstring) : option nat :=
  match k with
  | [] => None
  | c :: r =>
      if forallb isDigit k && (negb (c =? 48) || match r with [] => true | _ => false end)
      then Some (Z.to_nat (digitsValue k)) else None
  end.

Definition numberOfNat (n : nat) : float :=
  SF2Prim (binary_normalize prec emax (Z.of_nat n) 0 false).

(** [v.k] for a data property [k] of a non-null value. Inherited methods
    ([map], [toString], ...) are not values of this model and read as
    [None]; none of the names the two pages read is one of them. *)
Definition getProp (v : value) (k : jsstring) : option value :=
  match v with
  | VObj props => assoc k props
  | VArr elems =>
      if jsstring_eqb k (js "length") then Some (VNum (numberOfNat (length elems)))
      else match arrayIndex k with
           | Some i => nth_error elems i
           | None => None
           end
  | VStr s =>
      if jsstring_eqb k (js "length") then Some (VNum (numberOfNat (length s)))
      else match arrayIndex k with
           | Some i => option_map (fun c => VStr [c]) (nth_error s i)
           | None => None
           end
  | _ => None
  end.

(** ToString (what a template literal or [+ ''] does to a value). *)
Fixpoint ToString (v : value) : jsstring :=
  match v with
  | VNull => js "null"
  | VBool true => js "true"
  | VBool false => js "false"
  | VNum x => NumberToString x
  | VStr s => s
  | VArr elems =>
      join (js ",")
        (map (fun e => match e with VNull => [] | _ => ToString e end) elems)
  | VObj _ => js "[object Object]"
  end.

(** ToNumber. *)
Definition ToNumber (v : value) : float :=
  match v with
  | VNull => zero
  | VBool true => one
  | VBool false => zero
  | VNum x => x
  | VStr s => StringToNumber s
  | VArr _ | VObj _ => StringToNumber (ToString v)
  end.

(** [v === 'text']. *)
Definition strictEqString (o : option value) (s : jsstring) : bool :=
  match o with
  | Some (VStr t) => jsstring_eqb t s
  | _ => false
  end.

(** ** JSON.stringify *)

Definition hexDigit (d : N) : N := if d <? 10 then 48 + d else 87 + d.

Definition unicodeEscape (c : N) : jsstring :=
  js "\u" ++ [hexDigit ((c / 4096) mod 16); hexDigit ((c / 256) mod 16);
              hexDigit ((c / 16) mod 16); hexDigit (c mod 16)].

Definition isLeadingSurrogate (c : N) : bool := (55296 <=? c) && (c <=? 56319).
Definition isTrailingSurrogate (c : N) : bool := (56320 <=? c) && (c <=? 57343).

(** The body of QuoteJSONString, between the two quotes. *)
Fixpoint quoteUnits (s : jsstring) : jsstring :=
  match s with
  | [] => []
  | c :: r =>
      if c =? 8 then js "\b" ++ quoteUnits r
      else if c =? 9 then js "\t" ++ quoteUnits r
      else if c =? 10 then js "\n" ++ quoteUnits r
      else if c =? 12 then js "\f" ++ quoteUnits r
      else if c =? 13 then js "\r" ++ quoteUnits r
      else if c =? 34 then [92; 34] ++ quoteUnits r
      else if c =? 92 then [92; 92] ++ quoteUnits r
      else if c <? 32 then unicodeEscape c ++ quoteUnits r
      else if isLeadingSurrogate c then
        match r with
        | l :: r' =>
            if isTrailingSurrogate l then c :: l :: quoteUnits r'
            else unicodeEscape c ++ quoteUnits r
        | [] => unicodeEscape c
        end
      else if isTrailingSurrogate c then unicodeEscape c ++ quoteUnits r
      else c :: quoteUnits r
  end.

Definition QuoteJSONString (s : jsstring) : jsstring := [34] ++ quoteUnits s ++ [34].

(** [JSON.stringify(v)] with no replacer and no indentation. *)
Fixpoint JSON_stringify (v : value) : jsstring :=
  match v with
  | VNull => js "null"
  | VBool true => js "true"
  | VBool false => js "false"
  | VNum x => if is_finite x then NumberToString x else js "null"
  | VStr s => QuoteJSONString s
  | VArr elems => js "[" ++ join (js ",") (map JSON_stringify elems) ++ js "]"
  | VObj props =>
      js "{" ++
      join (js ",")
        (map (fun p => QuoteJSONString (fst p) ++ js ":" ++ JSON_stringify (snd p))
           props) ++
      js "}"
  end.



(** ** JSON.parse *)

Definition isJsonWs (c : N) : bool :=
  (c =? 32) || (c =? 9) || (c =? 10) || (c =? 13).

Fixpoint skipWs (s : jsstring) : jsstring :=
  match s with
  | c :: r => if isJsonWs c then skipWs r else s
  | [] => []
  end.

Definition hexVal (c : N) : option N :=
  if isDigit c then Some (c - 48)
  else if (97 <=? c) && (c <=? 102) then Some (c - 87)
  else if (65 <=? c) && (c <=? 70) then Some (c - 55)
  else None.

Definition hex4Val (a b c d : N) : option N :=
  match hexVal a, hexVal b, hexVal c, hexVal d with
  | Some x, Some y, Some z, Some w => Some (4096 * x + 256 * y + 16 * z + w)
  | _, _, _, _ => None
  end.

Definition unescape (e : N) : option N :=
  if e =? 34 then Some 34
  else if e =? 92 then Some 92
  else if e =? ch "/" then Some 47
  else if e =? ch "b" then Some 8
  else if e =? ch "f" then Some 12
  else if e =? ch "n" then Some 10
  else if e =? ch "r" then Some 13
  else if e =? ch "t" then Some 9
  else None.

Definition consTo (c : N) (r : option (jsstring * jsstring)) : option (jsstring * jsstring) :=
  match r with
  | Some (str, rest) => Some (c :: str, rest)
  | None => None
  end.

(** The characters of a JSON string after its opening quote, up to and
    including the closing quote. *)
Fixpoint parseChars (s : jsstring) : option (jsstring * jsstring) :=
  match s with
  | [] => None
  | c :: r =>
      if c =? 34 then Some ([], r)
      else if c =? 92 then
        match r with
        | e :: r1 =>
            if e =? ch "u" then
              match r1 with
              | h1 :: h2 :: h3 :: h4 :: r2 =>
                  match hex4Val h1 h2 h3 h4 with
                  | Some u => consTo u (parseChars r2)
                  | None => None
                  end
              | _ => None
              end
            else
              match unescape e with
              | Some u => consTo u (parseChars r1)
              | None => None
              end
        | [] => None
        end
      else if c <? 32 then None
      else consTo c (parseChars r)
  end.

(** JSON number tokens: an optional minus, an integer part ([0], or a
    non-zero digit and more digits), an optional fraction (a dot and at
    least one digit) and an optional exponent ([e] or [E], an optional
    sign, at least one digit). *)
Definition lexInt (s : jsstring) : option (jsstring * jsstring) :=
  match s with
  | c :: r =>
      if c =? 48 then Some ([c], r)
      else if isDigit c then let '(ds, rest) := takeDigits r in Some (c :: ds, rest)
      else None
  | [] => None
  end.

Definition lexFrac (s : jsstring) : option (jsstring * jsstring) :=
  match s with
  | c :: r =>
      if c =? ch "." then
        match takeDigits r with
        | ([], _) => None
        | (ds, rest) => Some (c :: ds, rest)
        end
      else Some ([], s)
  | [] => Some ([], s)
  end.

Definition lexExpSign (s : jsstring) : jsstring * jsstring :=
  match s with
  | d :: r => if (d =? ch "+") || (d =? ch "-") then ([d], r) else ([], s)
  | [] => ([], s)
  end.

Definition lexExp (s : jsstring) : option (jsstring * jsstring) :=
  match s with
  | c :: r =>
      if (c =? ch "e") || (c =? ch "E") then
        let '(sg, r1) := lexExpSign r in
        match takeDigits r1 with
        | ([], _) => None
        | (ds, rest) => Some (c :: sg ++ ds, rest)
        end
      else Some ([], s)
  | [] => Some ([], s)
  end.

Definition lexMinus (s : jsstring) : jsstring * jsstring :=
  match s with
  | c :: r => if c =? ch "-" then ([c], r) else ([], s)
  | [] => ([], s)
  end.

Definition lexNumber (s : jsstring) : option (jsstring * jsstring) :=
  let '(sg, s1) := lexMinus s in
  match lexInt s1 with
  | None => None
  | Some (ip, s2) =>
      match lexFrac s2 with
      | None => None
      | Some (fp, s3) =>
          match lexExp s3 with
          | None => None
          | Some (ep, s4) => Some (sg ++ ip ++ fp ++ ep, s4)
          end
      end
  end.

(** [CreateDataProperty]: a repeated key keeps its place and takes the
    later value. *)
Fixpoint setProp (k : jsstring) (v : value) (props : list (jsstring * value))
  : list (jsstring * value) :=
  match props with
  | [] => [(k, v)]
  | (k', v') :: rest =>
      if jsstring_eqb k k' then (k, v) :: rest else (k', v') :: setProp k v rest
  end.

Definition literal (word : jsstring) (v : value) (s : jsstring)
  : option (value * jsstring) :=
  match stripPrefix word s with
  | Some rest => Some (v, rest)
  | None => None
  end.

(** One JSON value at the head of [s] (after optional whitespace), and
    what follows it. [fuel] bounds the nesting and the number of
    elements; the length of the text is always enough. *)
Fixpoint parseValue (fuel : nat) (s : jsstring) {struct fuel}
  : option (value * jsstring) :=
  match fuel with
  | O => None
  | S f =>
      match skipWs s with
      | [] => None
      | c :: r =>
          if c =? ch "{" then
            match skipWs r with
            | c' :: r' =>
                if c' =? ch "}" then Some (VObj [], r')
                else parseMembers f (c' :: r') []
            | [] => None
            end
          else if c =? ch "[" then
            match skipWs r with
            | c' :: r' =>
                if c' =? ch "]" then Some (VArr [], r')
                else parseElements f (c' :: r') []
            | [] => None
            end
          else if c =? 34 then
            match parseChars r with
            | Some (str, rest) => Some (VStr str, rest)
            | None => None
            end
          else if c =? ch "t" then literal (js "true") (VBool true) (c :: r)
          else if c =? ch "f" then literal (js "false") (VBool false) (c :: r)
          else if c =? ch "n" then literal (js "null") VNull (c :: r)
          else
            match lexNumber (c :: r) with
            | Some (tok, rest) => Some (VNum (StringToNumber tok), rest)
            | None => None
            end
      end
  end
with parseElements (fuel : nat) (s : jsstring) (acc : list value) {struct fuel}
  : option (value * jsstring) :=
  match fuel with
  | O => None
  | S f =>
      match parseValue f s with
      | Some (v, r) =>
          match skipWs r with
          | c :: r' =>
              if c =? ch "," then parseElements f r' (acc ++ [v])
              else if c =? ch "]" then Some (VArr (acc ++ [v]), r')
              else None
          | [] => None
          end
      | None => None
      end
  end
with parseMembers (fuel : nat) (s : jsstring) (acc : list (jsstring * value))
  {struct fuel} : option (value * jsstring) :=
  match fuel with
  | O => None
  | S f =>
      match skipWs s with
      | q :: r0 =>
          if q =? 34 then
            match parseChars r0 with
            | Some (k, r1) =>
                match skipWs r1 with
                | colon :: r2 =>
                    if colon =? ch ":" then
                      match parseValue f r2 with
                      | Some (v, r3) =>
                          match skipWs r3 with
                          | c :: r4 =>
                              if c =? ch "," then parseMembers f r4 (setProp k v acc)
                              else if c =? ch "}" then Some (VObj (setProp k v acc), r4)
                              else None
                          | [] => None
                          end
                      | None => None
                      end
                    else None
                | [] => None
                end
            | None => None
            end
          else None
      | [] => None
      end
  end.

(** [JSON.parse(text)]; [None] is the SyntaxError the source catches. *)
Definition JSON_parse (text : jsstring) : option value :=
  match parseValue (S (length text)) text with
  | Some (v, rest) => match skipWs rest with [] => Some v | _ => None end
  | None => None
  end.

(** ** Regular expressions

    The fragment of RegExp syntax the four validation patterns are written
    in. A pattern is matched by its Brzozowski derivatives; the derivative
    carries whether the previous code unit is a word character, which is
    what the assertion [\b] looks at. *)

Inductive citem : Type :=
| CChar (c : N)
| CRange (lo hi : N)
| CSpace.

Inductive regex : Type :=
| RFail
| REps
| RSet (negated : bool) (items : list citem)
| RCat (r1 r2 : regex)
| RAlt (r1 r2 : regex)
| RStar (r : regex)
| RRep (r : regex) (lo hi : nat)
| RWordB.

Definition RChr (a : ascii) : regex := RSet false [CChar (ch a)].
Definition ROpt (r : regex) : regex := RRep r 0 1.
Definition RPlus (r : regex) : regex := RCat r (RStar r).

Fixpoint RSeq (rs : list regex) : regex :=
  match rs with
  | [] => REps
  | [r] => r
  | r :: rest => RCat r (RSeq rest)
  end.

Definition RLit (s : string) : regex :=
  RSeq (map (fun c => RSet false [CChar c]) (js s)).

Definition swapCase (c : N) : N :=
  if (97 <=? c) && (c <=? 122) then c - 32
  else if (65 <=? c) && (c <=? 90) then c + 32
  else c.

Definition itemMatches (it : citem) (c : N) : bool :=
  match it with
  | CChar x => c =? x
  | CRange lo hi => (lo <=? c) && (c <=? hi)
  | CSpace => isWhiteSpace c
  end.

(** Membership in a character class; under the [i] flag a code unit also
    matches through its other-case form (the classes used here are ASCII,
    where Canonicalize identifies exactly the two cases of a letter). *)
Definition setMatches (icase negated : bool) (items : list citem) (c : N) : bool :=
  xorb negated
    (existsb (fun it => itemMatches it c || (icase && itemMatches it (swapCase c)))
       items).

Definition isWordChar (c : N) : bool :=
  isDigit c || ((65 <=? c) && (c <=? 90)) || ((97 <=? c) && (c <=? 122)) || (c =? 95).

(** Does [r] match the empty string at a position whose previous code unit
    is a word character iff [pw] and whose next one is iff [nw]? *)
Fixpoint nullable (pw nw : bool) (r : regex) : bool :=
  match r with
  | RFail => false
  | REps => true
  | RSet _ _ => false
  | RCat a b => nullable pw nw a && nullable pw nw b
  | RAlt a b => nullable pw nw a || nullable pw nw b
  | RStar _ => true
  | RRep a lo hi => (lo <=? hi)%nat && ((lo =? 0)%nat || nullable pw nw a)
  | RWordB => xorb pw nw
  end.

(** What is left of [r] after it has consumed [c]. *)
Fixpoint deriv (icase pw : bool) (c : N) (r : regex) : regex :=
  match r with
  | RFail | REps | RWordB => RFail
  | RSet negated items => if setMatches icase negated items c then REps else RFail
  | RCat a b =>
      if nullable pw (isWordChar c) a
      then RAlt (RCat (deriv icase pw c a) b) (deriv icase pw c b)
      else RCat (deriv icase pw c a) b
  | RAlt a b => RAlt (deriv icase pw c a) (deriv icase pw c b)
  | RStar a => RCat (deriv icase pw c a) (RStar a)
  | RRep a lo hi =>
      match hi with
      | O => RFail
      | S hi' => RCat (deriv icase pw c a) (RRep a (pred lo) hi')
      end
  end.

Fixpoint matches (icase pw : bool) (r : regex) (s : jsstring) : bool :=
  match s with
  | [] => nullable pw false r
  | c :: s' => matches icase (isWordChar c) (deriv icase pw c r) s'
  end.

(** A RegExp object whose pattern is anchored at both ends ([^...$], no
    [m] flag) and has no [g] or [y] flag, so that [test] is stateless and
    asks for a match of the whole string. *)
Record RegExp : Type := { source : regex; ignoreCase : bool }.

Definition test (p : RegExp) (s : jsstring) : bool :=
  matches (ignoreCase p) false (source p) s.

(** ** localStorage *)

Abbreviation store := (gmap jsstring jsstring).

(** Which writes the browser accepts, given what is stored. *)
Abbreviation quota := (store -> jsstring -> jsstring -> bool).

Definition getItem (ls : store) (key : jsstring) : option jsstring := ls !! key.

(** [localStorage.setItem]; [None] is the exception of a refused write. *)
Definition setItem (accepts : quota) (ls : store) (key item : jsstring) : option store :=
  if accepts ls key item then Some (<[key := item]> ls) else None.

(** ** Effects on the page *)

Inductive effect : Type :=
| DisableForm
| EnableForm
| ShowLoading
| HideLoading
| Notification (message kind : jsstring)
| Redirect (url : jsstring)
| Download (filename mime content : jsstring).

(** ** Text as markup

    Escaping a string, as the serialisation of a text node escapes its
    data (HTML, 13.3): ampersand, no-break space, less-than and
    greater-than. It is what [innerHTML] gives for an element whose
    [textContent] was set. *)
Definition escapeUnit (c : N) : jsstring :=
  if c =? 38 then js "&amp;"
  else if c =? 160 then js "&nbsp;"
  else if c =? 60 then js "&lt;"
  else if c =? 62 then js "&gt;"
  else [c].

Definition escapeString (s : jsstring) : jsstring := flat_map escapeUnit s.

(** ** The search page, app.js *)

Module App.

Module CONFIG.

Module STORAGE.
Definition RESULTS_KEY : jsstring := js "godeyeResults".
Definition QUERY_KEY : jsstring := js "lastQuery".
Definition TYPE_KEY : jsstring := js "lastQueryType".
Definition TIMESTAMP_KEY : jsstring := js "lastSearchTimestamp".
End STORAGE.

Module PATTERNS.

Definition alnum : regex := RSet false [CRange (ch "a") (ch "z"); CRange (ch "0") (ch "9")].
Definition alnumDash : regex :=
  RSet false [CRange (ch "a") (ch "z"); CRange (ch "0") (ch "9"); CChar (ch "-")].

(** [/^(?:[a-z0-9](?:[a-z0-9-]{0,61}[a-z0-9])?\.)+[a-z0-9][a-z0-9-]{0,61}[a-z0-9]$/i] *)
Definition DOMAIN : RegExp :=
  {| source :=
       RSeq [RPlus (RSeq [alnum; ROpt (RSeq [RRep alnumDash 0 61; alnum]); RChr "."]);
             alnum; RRep alnumDash 0 61; alnum];
     ignoreCase := true |}.

(** [25[0-5]|2[0-4][0-9]|[01]?[0-9][0-9]?] *)
Definition octet : regex :=
  RAlt (RSeq [RChr "2"; RChr "5"; RSet false [CRange (ch "0") (ch "5")]])
    (RAlt (RSeq [RChr "2"; RSet false [CRange (ch "0") (ch "4")];
                 RSet false [CRange (ch "0") (ch "9")]])
       (RSeq [ROpt (RSet false [CChar (ch "0"); CChar (ch "1")]);
              RSet false [CRange (ch "0") (ch "9")];
              ROpt (RSet false [CRange (ch "0") (ch "9")])])).

(** [/^(?:(?:25[0-5]|2[0-4][0-9]|[01]?[0-9][0-9]?)\.){3}(?:25[0-5]|2[0-4][0-9]|[01]?[0-9][0-9]?)$/] *)
Definition IP : RegExp :=
  {| source := RCat (RRep (RCat octet (RChr ".")) 3 3) octet;
     ignoreCase := false |}.

Definition notSpaceAt : regex := RSet true [CSpace; CChar (ch "@")].

(** [/^[^\s@]+@[^\s@]+\.[^\s@]+$/] *)
Definition EMAIL : RegExp :=
  {| source := RSeq [RPlus notSpaceAt; RChr "@"; RPlus notSpaceAt; RChr ".";
                     RPlus notSpaceAt];
     ignoreCase := false |}.

Definition letters : list citem :=
  [CRange (ch "a") (ch "z"); CRange (ch "A") (ch "Z"); CRange (ch "0") (ch "9")].

(** [/^https?:\/\/(www\.)?[-a-zA-Z0-9@:%._\+~#=]{1,256}\.[a-zA-Z0-9()]{1,6}\b(PATH)$/]
    where PATH is the class [[-a-zA-Z0-9()@:%_\+.~#?&//=]] under a star. *)
Definition URL : RegExp :=
  {| source :=
       RSeq [RLit "http"; ROpt (RChr "s"); RLit "://"; ROpt (RLit "www.");
             RRep (RSet false (CChar (ch "-") :: letters ++
                     map (fun a => CChar (ch a))
                       ["@"; ":"; "%"; "."; "_"; "+"; "~"; "#"; "="]%char)) 1 256;
             RChr ".";
             RRep (RSet false (letters ++ [CChar (ch "("); CChar (ch ")")])) 1 6;
             RWordB;
             RStar (RSet false (CChar (ch "-") :: letters ++
                      map (fun a => CChar (ch a))
                        ["("; ")"; "@"; ":"; "%"; "_"; "+"; "."; "~"; "#"; "?";
                         "&"; "/"; "/"; "="]%char))];
     ignoreCase := false |}.

(** [CONFIG.PATTERNS[name]]. *)
Definition lookup (name : jsstring) : option RegExp :=
  if jsstring_eqb name (js "DOMAIN") then Some DOMAIN
  else if jsstring_eqb name (js "IP") then Some IP
  else if jsstring_eqb name (js "EMAIL") then Some EMAIL
  else if jsstring_eqb name (js "URL") then Some URL
  else None.

End PATTERNS.
Module UPLOAD.
(** [10 * 1024 * 1024] *)
Definition MAX_SIZE : float := (10 * 1024 * 1024)%float.
Definition ALLOWED_TYPES : list jsstring :=
  [js "image/png"; js "image/jpeg"; js "image/jpg"; js "image/gif"; js "image/webp"].
End UPLOAD.

End CONFIG.

Module StorageManager.

(** [set(key, value)]: the flag it returns and the storage afterwards. *)
Definition set (accepts : quota) (ls : store) (key : jsstring) (v : value)
  : bool * store :=
  let serialized := JSON_stringify v in
  match setItem accepts ls key serialized with
  | Some ls' => (true, ls')
  | None => (false, ls)
  end.

Definition get (ls : store) (key : jsstring) (defaultValue : value) : value :=
  match getItem ls key with
  | Some ((_ :: _) as item) =>
      match JSON_parse item with
      | Some v => v
      | None => defaultValue
      end
  | _ => defaultValue
  end.


(** [remove(key)]; [removeItem] raises nothing. *)
Definition remove (ls : store) (key : jsstring) : bool * store :=
  (true, delete key ls).

(** [clearAll]: [Object.values(CONFIG.STORAGE).forEach(key => removeItem(key))]. *)
Definition clearAll (ls : store) : bool * store :=
  (true,
   fold_left (fun st key => delete key st)
     [CONFIG.STORAGE.RESULTS_KEY; CONFIG.STORAGE.QUERY_KEY; CONFIG.STORAGE.TYPE_KEY;
      CONFIG.STORAGE.TIMESTAMP_KEY] ls).

End StorageManager.

Module Validator.

(** [{ valid: true, query }] or [{ valid: false, error }]. *)
Inductive validation : Type :=
| Valid (query : jsstring)
| Invalid (error : jsstring).

Definition valid (r : validation) : bool :=
  match r with Valid _ => true | Invalid _ => false end.

Definition validateQuery (query type : jsstring) : validation :=
  match query with
  | [] => Invalid (js "Query must be a non-empty string")
  | _ =>
      let trimmedQuery := trim query in
      if (length trimmedQuery =? 0)%nat then Invalid (js "Query cannot be empty")
      else if (500 <? length trimmedQuery)%nat
      then Invalid (js "Query is too long (max 500 characters)")
      else if jsstring_eqb type (js "auto") then Valid trimmedQuery
      else
        match CONFIG.PATTERNS.lookup (toUpperCase type) with
        | Some pattern =>
            if negb (test pattern trimmedQuery)
            then Invalid (js "Invalid " ++ type ++ js " format")
            else Valid trimmedQuery
        | None => Valid trimmedQuery
        end
  end.

Definition detectQueryType (query : jsstring) : jsstring :=
  if test CONFIG.PATTERNS.IP query then js "ip"
  else if test CONFIG.PATTERNS.EMAIL query then js "email"
  else if test CONFIG.PATTERNS.DOMAIN query then js "domain"
  else if test CONFIG.PATTERNS.URL query then js "url"
  else js "unknown".


(** The properties of a [File] the page reads. *)
Record File : Type := { fileName : jsstring; fileSize : float; fileType : jsstring }.

(** [{ valid: true }] or [{ valid: false, error }]. *)
Inductive fileValidation : Type :=
| FileValid
| FileInvalid (error : jsstring).

(** [validateFile(file)]; [None] is a missing file. *)
Definition validateFile (file : option File) : fileValidation :=
  match file with
  | None => FileInvalid (js "No file provided")
  | Some f =>
      if (CONFIG.UPLOAD.MAX_SIZE <? fileSize f)%float then
        let maxSizeMB := (CONFIG.UPLOAD.MAX_SIZE / (1024 * 1024))%float in
        FileInvalid (js "File size exceeds " ++ NumberToString maxSizeMB ++ js "MB limit")
      else if negb (existsb (jsstring_eqb (fileType f)) CONFIG.UPLOAD.ALLOWED_TYPES)
      then FileInvalid (js "Invalid file type. Only images are allowed.")
      else FileValid
  end.

End Validator.

Module UIManager.

(** [escapeHtml(text)]; setting [textContent] to [null] empties the
    element. *)
Definition escapeHtml (text : value) : jsstring :=
  match text with
  | VNull => []
  | _ => escapeString (ToString text)
  end.

(** [icons[type]] for the four kinds of notification the pages show. *)
Definition icons (type : jsstring) : option jsstring :=
  if jsstring_eqb type (js "success") then Some [10003]
  else if jsstring_eqb type (js "error") then Some [10005]
  else if jsstring_eqb type (js "warning") then Some [9888]
  else if jsstring_eqb type (js "info") then Some [8505]
  else None.

(** The markup [showNotification(message, type)] gives the toast, for a
    kind that has an icon. *)
Definition showNotification (message : value) (type : jsstring) : option jsstring :=
  match icons type with
  | Some icon =>
      Some (html "
                <span class='toast-icon'>" ++ icon ++ html "</span>
                <span class='toast-message'>" ++ escapeHtml message ++ html "</span>
            ")
  | None => None
  end.

End UIManager.

Module APIClient.

(** What [fetch] came to within the timeout window: the promise rejected
    with an error of some name ('AbortError' when the timeout aborted the
    request), or a response arrived. *)
Inductive fetched : Type :=
| FetchRejected (name message : jsstring)
| FetchResponse (ok : bool) (status : float) (statusText body : jsstring).

(** The messages of the two errors the engine itself raises here. *)
Record engine : Type := {
  nullPropertyError : jsstring;  (* TypeError: reading a property of null *)
  jsonSyntaxError : jsstring     (* SyntaxError of response.json() *)
}.

(** [request(endpoint, options)]: [inl message] is the Error it throws,
    [inr data] the parsed body it returns. *)
Definition request (eng : engine) (f : fetched) : jsstring + value :=
  match f with
  | FetchRejected name message =>
      if jsstring_eqb name (js "AbortError")
      then inl (js "Request timeout. Please try again.")
      else inl message
  | FetchResponse false status statusText errorText =>
      let errorData :=
        match JSON_parse errorText with
        | Some v => v
        | None =>
            VObj [(js "message",
                   VStr match errorText with [] => statusText | _ => errorText end)]
        end in
      match errorData with
      | VNull => inl (nullPropertyError eng)
      | _ =>
          inl (ToString
                 (orElse (getProp errorData (js "message"))
                    (VStr (js "HTTP " ++ NumberToString status ++ js ": " ++ statusText))))
      end
  | FetchResponse true _ _ body =>
      match JSON_parse body with
      | Some data => inr data
      | None => inl (jsonSyntaxError eng)
      end
  end.

(** [healthCheck()]: a failure is answered, not thrown. *)
Definition healthCheck (eng : engine) (f : fetched) : value :=
  match request eng f with
  | inr data => data
  | inl _ => VObj [(js "status", VStr (js "unhealthy"))]
  end.

End APIClient.

Module SearchHandler.

(** What [await APIClient.search(...)] does: it throws an Error with a
    message, or yields the parsed response body. *)
Inductive apiOutcome : Type :=
| Rejected (message : jsstring)
| Resolved (body : value).

(** What one submission of the form sees of the world. *)
Record submission : Type := {
  searchInput : option jsstring;   (* the value of #q, if the element exists *)
  typeSelector : option jsstring;  (* the value of #typeSelector, if it exists *)
  timestamp : jsstring;            (* new Date().toISOString() *)
  response : apiOutcome;
  accepts : quota
}.

(** [typeSelector ? typeSelector.value : 'auto'] *)
Definition selectedType (sub : submission) : jsstring :=
  match typeSelector sub with Some t => t | None => js "auto" end.

(** The body of the [try] block: [inl message] is a thrown Error. *)
Definition trySearch (sub : submission) (ls : store) : (jsstring + unit) * store :=
  match response sub with
  | Rejected message => (inl message, ls)
  | Resolved results =>
      if negb (truthy results) || negb (typeofObject results)
      then (inl (js "Invalid response format from server"), ls)
      else if negb (strictEqString (getProp results (js "status")) (js "success"))
      then (inl (ToString (orElse (getProp results (js "message"))
                             (VStr (js "Analysis failed")))), ls)
      else
        let '(stored, ls') :=
          StorageManager.set (accepts sub) ls CONFIG.STORAGE.RESULTS_KEY results in
        if negb stored
        then (inl (js "Failed to store results. Check browser storage."), ls')
        else (inr tt, ls')
  end.

(** [handleSubmit]: the storage afterwards and what the page showed. *)
Definition handleSubmit (sub : submission) (ls : store) : store * list effect :=
  match searchInput sub with
  | None => (ls, [Notification (js "Form error: Search input not found") (js "error")])
  | Some input =>
      let query := trim input in
      let type := selectedType sub in
      match Validator.validateQuery query type with
      | Validator.Invalid error => (ls, [Notification error (js "error")])
      | Validator.Valid vquery =>
          let ls1 := snd (StorageManager.set (accepts sub) ls
                            CONFIG.STORAGE.QUERY_KEY (VStr vquery)) in
          let ls2 := snd (StorageManager.set (accepts sub) ls1
                            CONFIG.STORAGE.TYPE_KEY (VStr type)) in
          let ls3 := snd (StorageManager.set (accepts sub) ls2
                            CONFIG.STORAGE.TIMESTAMP_KEY (VStr (timestamp sub))) in
          match trySearch sub ls3 with
          | (inr _, ls4) =>
              (ls4, [DisableForm; ShowLoading;
                     Notification (js "Analysis complete! Redirecting...") (js "success");
                     Redirect (js "results.html")])
          | (inl message, ls4) =>
              let errorMessage :=
                match message with
                | [] => js "Analysis failed. Please try again."
                | _ => message
                end in
              (ls4, [DisableForm; ShowLoading; HideLoading; EnableForm;
                     Notification errorMessage (js "error")])
          end
      end
  end.

(** A submission has failed when it ended in the [catch] block. *)
Definition searchFailed (sub : submission) (ls : store) : bool :=
  match searchInput sub with
  | None => false
  | Some input =>
      match Validator.validateQuery (trim input) (selectedType sub) with
      | Validator.Invalid _ => false
      | Validator.Valid _ => negb (existsb (fun e => match e with Redirect _ => true | _ => false end)
                                     (snd (handleSubmit sub ls)))
      end
  end.


(** [await APIClient.search(query, type)] over what [fetch] came to. *)
Definition awaitSearch (eng : APIClient.engine) (f : APIClient.fetched) : apiOutcome :=
  match APIClient.request eng f with
  | inl message => Rejected message
  | inr data => Resolved data
  end.

End SearchHandler.

Module ImageUploadHandler.

(** [handleFileSelect(file, previewElement)] on the handler's
    [selectedFile]: the new [selectedFile], whether a preview is read, and
    the notification shown. *)
Definition handleFileSelect (file : Validator.File) (hasPreview : bool)
  (selectedFile : option Validator.File)
  : option Validator.File * bool * effect :=
  match Validator.validateFile (Some file) with
  | Validator.FileInvalid error => (selectedFile, false, Notification error (js "error"))
  | Validator.FileValid =>
      (Some file, hasPreview, Notification (js "Image loaded successfully") (js "success"))
  end.

(** The [selectedFile] after a series of selections. *)
Definition selectAll (files : list Validator.File) (selectedFile : option Validator.File)
  : option Validator.File :=
  fold_left (fun sel file => fst (fst (handleFileSelect file true sel))) files selectedFile.

End ImageUploadHandler.

(** [window.GodEyeSearch.getState()] *)
Record state : Type := { lastQuery : value; lastType : value; hasResults : bool }.

Definition getState (ls : store) : state :=
  {| lastQuery := StorageManager.get ls CONFIG.STORAGE.QUERY_KEY VNull;
     lastType := StorageManager.get ls CONFIG.STORAGE.TYPE_KEY VNull;
     hasResults := truthy (StorageManager.get ls CONFIG.STORAGE.RESULTS_KEY VNull) |}.

End App.

(** ** The results page, results.js *)

Module Results.

Module CONFIG.

Module STORAGE.
Definition RESULTS_KEY : jsstring := js "godeyeResults".
Definition QUERY_KEY : jsstring := js "lastQuery".
Definition TYPE_KEY : jsstring := js "lastQueryType".
Definition TIMESTAMP_KEY : jsstring := js "lastSearchTimestamp".
End STORAGE.

Module EXPORT.
Definition CSV_FILENAME_PREFIX : jsstring := js "godeye-indicators".
End EXPORT.

End CONFIG.

Module StorageManager.

Definition get (ls : store) (key : jsstring) (defaultValue : value) : value :=
  match getItem ls key with
  | Some ((_ :: _) as item) =>
      match JSON_parse item with
      | Some v => v
      | None => defaultValue
      end
  | _ => defaultValue
  end.

Definition hasResults (ls : store) : bool :=
  match getItem ls CONFIG.STORAGE.RESULTS_KEY with
  | Some (_ :: _) => true
  | _ => false
  end.


(** [remove(key)]; [removeItem] raises nothing. *)
Definition remove (ls : store) (key : jsstring) : bool * store :=
  (true, delete key ls).

End StorageManager.

Module UIUtils.

(** [typeof confidence === 'number' ? confidence : parseFloat(confidence) || 0] *)
Definition confidenceValue (confidence : value) : float :=
  match confidence with
  | VNum x => x
  | _ =>
      let parsed := parseFloatString (ToString confidence) in
      if truthyNumber parsed then parsed else zero
  end.

Definition getConfidenceClass (confidence : value) : jsstring :=
  let value := confidenceValue confidence in
  if (0.8 <=? value)%float then js "high"
  else if (0.5 <=? value)%float then js "medium"
  else js "low".


(** [escapeHtml(text)]: the [innerHTML] of an element whose [textContent]
    was set to [text]; [None] is [undefined]. *)
Definition escapeHtml (text : option value) : jsstring :=
  match text with
  | None => []
  | Some v => if negb (truthy v) then [] else escapeString (ToString v)
  end.

(** [animateCounter(element, start, end, duration, suffix)] for an element
    that exists and a Number [start]: the state of the closure and the
    text of the element. After [current = end] the field [current] holds
    the Number that [Math.round] makes of [end]. *)
Record counter : Type := {
  current : float;
  cleared : bool;                 (* clearInterval(timer) has run *)
  textContent : option jsstring   (* None: not written yet *)
}.

Definition animateCounter (start : float) : counter :=
  {| current := start; cleared := false; textContent := None |}.

(** One run of the interval callback; a cleared interval runs no more. *)
Definition tick (start : float) (end_ : value) (duration : float) (suffix : jsstring)
  (st : counter) : counter :=
  if cleared st then st
  else
    let range := (ToNumber end_ - start)%float in
    let increment := (range / (duration / 16))%float in
    let current := (current st + increment)%float in
    if ((0 <? increment)%float && (ToNumber end_ <=? current)%float)
       || ((increment <? 0)%float && (current <=? ToNumber end_)%float)
    then {| current := ToNumber end_; cleared := true;
            textContent := Some (NumberToString (Math_round (ToNumber end_)) ++ suffix) |}
    else {| current := current; cleared := false;
            textContent := Some (NumberToString (Math_round current) ++ suffix) |}.

(** The counter after [n] periods of 16 ms. *)
Definition ticks (start : float) (end_ : value) (duration : float) (suffix : jsstring)
  (n : nat) : counter :=
  Nat.iter n (tick start end_ duration suffix) (animateCounter start).

End UIUtils.

Module DataManager.

(** [loadResults]: the stored value, or [null]. *)
Definition loadResults (ls : store) : value :=
  let results := StorageManager.get ls CONFIG.STORAGE.RESULTS_KEY VNull in
  if negb (truthy results) then VNull else results.

(** [{ valid: true }] or [{ valid: false, error }]. *)
Inductive validation : Type :=
| Valid
| Invalid (error : value).

Definition valid (r : validation) : bool :=
  match r with Valid => true | Invalid _ => false end.

Definition validateResults (results : value) : validation :=
  if negb (truthy results) || negb (typeofObject results)
  then Invalid (VStr (js "Invalid results format"))
  else if negb (strictEqString (getProp results (js "status")) (js "success"))
  then Invalid (orElse (getProp results (js "message")) (VStr (js "Analysis failed")))
  else if negb (truthyOpt (getProp results (js "analytics")))
          || negb (truthyOpt (getProp results (js "results")))
  then Invalid (VStr (js "Incomplete results data"))
  else Valid.


(** [a || b] where both may be [undefined]. *)
Definition orUndefined (a b : option value) : option value :=
  match a with
  | Some v => if truthy v then Some v else b
  | None => b
  end.

(** [a?.k] *)
Definition optionalChain (a : option value) (k : jsstring) : option value :=
  match a with
  | None | Some VNull => None
  | Some v => getProp v k
  end.

Record queryInfo : Type := { query : value; type : value; timestamp : value }.

(** [getQueryInfo(results)] at a time when [new Date().toISOString()] is
    [now]; [None] is the TypeError of reading a property of [null]. *)
Definition getQueryInfo (now : jsstring) (ls : store) (results : value)
  : option queryInfo :=
  match results with
  | VNull => None
  | _ =>
      Some
        {| query :=
             orElse (orUndefined (Some (StorageManager.get ls CONFIG.STORAGE.QUERY_KEY VNull))
                       (optionalChain (getProp results (js "query_info")) (js "query")))
               (VStr (js "Unknown"));
           type :=
             orElse (orUndefined (Some (StorageManager.get ls CONFIG.STORAGE.TYPE_KEY VNull))
                       (optionalChain (getProp results (js "query_info")) (js "type")))
               (VStr (js "auto"));
           timestamp :=
             orElse (orUndefined (getProp results (js "timestamp"))
                       (Some (StorageManager.get ls CONFIG.STORAGE.TIMESTAMP_KEY VNull)))
               (VStr now) |}
  end.

End DataManager.

Module Renderer.

(** The risk level [renderAnalytics] writes into #riskLevel, and the CSS
    class it gives the element. *)
Definition riskLevel (analytics : value) : jsstring * jsstring :=
  let confidence := ToNumber (orElse (getProp analytics (js "avg_confidence")) (VNum zero)) in
  if (0.8 <=? confidence)%float then (js "High", js "risk-high")
  else if (0.5 <=? confidence)%float then (js "Medium", js "risk-medium")
  else (js "Low", js "risk-low").


(** The text [renderHeader] writes into #queryInfo. *)
Definition queryText (now : jsstring) (ls : store) (results : value) : option jsstring :=
  option_map (fun info => js "Query: " ++ ToString (DataManager.query info))
    (DataManager.getQueryInfo now ls results).

(** The three counters [renderAnalytics] starts, after [n] periods. *)
Definition totalEntities (analytics : value) (n : nat) : UIUtils.counter :=
  UIUtils.ticks zero (orElse (getProp analytics (js "total_entities")) (VNum zero))
    1000 [] n.

Definition avgConfidence (analytics : value) (n : nat) : UIUtils.counter :=
  let percentage :=
    Math_round (ToNumber (orElse (getProp analytics (js "avg_confidence")) (VNum zero))
                * 100)%float in
  UIUtils.ticks zero (VNum percentage) 1000 (js "%") n.

Definition sourceCount (analytics : value) (n : nat) : UIUtils.counter :=
  UIUtils.ticks zero (orElse (getProp analytics (js "source_count")) (VNum zero))
    1000 [] n.

(** The markup [renderSummary] gives the summary element. *)
Definition summaryHtml (summary : option value) : jsstring :=
  let summary := orElse summary (VStr (js "No summary available for this analysis.")) in
  html "
                <div class='summary-content'>
                    <p>" ++ UIUtils.escapeHtml (Some summary) ++ html "</p>
                </div>
            ".

End Renderer.

Module ExportManager.

Definition headers : list value :=
  [VStr (js "Indicator"); VStr (js "Type"); VStr (js "Confidence");
   VStr (js "Connections"); VStr (js "Source")].

(** The array one indicator is mapped to. *)
Definition row (item : value) : list value :=
  [orElse (getProp item (js "indicator")) (VStr (js "unknown"));
   orElse (getProp item (js "type")) (VStr (js "unknown"));
   VStr (NumberToString
           (Math_round (ToNumber (orElse (getProp item (js "confidence")) (VNum zero))
                        * 100)%float)
         ++ js "%");
   orElse (getProp item (js "connections")) (VNum zero);
   orElse (getProp item (js "source")) (VStr (js "unknown"))].

(** [[headers, ...rows].map(row => row.map(cell => `"${cell}"`).join(',')).join('\n')] *)
Definition csvText (rows : list (list value)) : jsstring :=
  join [10]
    (map (fun r => join (js ",") (map (fun cell => [34] ++ ToString cell ++ [34]) r))
       (headers :: rows)).

Definition isNull (v : value) : bool :=
  match v with VNull => true | _ => false end.

(** [results.length === 0] *)
Definition lengthIsZero (results : value) : bool :=
  match results with
  | VArr [] | VStr [] => true
  | VArr _ | VStr _ => false
  | _ =>
      match getProp results (js "length") with
      | Some (VNum n) => (n =? 0)%float
      | _ => false
      end
  end.

(** [downloadCSV(results)], called at time [now] ([Date.now()]);
    [results] is [None] when the argument is [undefined]. Reading a
    property of a [null] item and calling [map] on what is not an array
    are the TypeErrors the [catch] block reports. *)
Definition downloadCSV (now : float) (results : option value) : list effect :=
  match results with
  | None => [Notification (js "No data to export") (js "warning")]
  | Some res =>
      if negb (truthy res) || lengthIsZero res
      then [Notification (js "No data to export") (js "warning")]
      else
        match res with
        | VArr items =>
            if existsb isNull items
            then [Notification (js "Failed to export table") (js "error")]
            else
              let csv := csvText (map row items) in
              let filename :=
                CONFIG.EXPORT.CSV_FILENAME_PREFIX ++ js "-" ++ NumberToString now
                ++ js ".csv" in
              [Download filename (js "text/csv") csv;
               Notification (js "Table exported to CSV") (js "success")]
        | _ => [Notification (js "Failed to export table") (js "error")]
        end
  end.

(** The CSV text an export handed to the browser, if it did. *)
Definition exportedCSV (effects : list effect) : option jsstring :=
  match effects with
  | Download _ _ content :: _ => Some content
  | _ => None
  end.


End ExportManager.

(** ** The indicator table

    [Renderer.createTableRow] and [Renderer.renderTable]: what the cells of
    a row hold. *)
Record tableRow : Type := {
  indicatorCell : jsstring;    (* textContent, and the title *)
  typeBadge : jsstring;        (* textContent of the badge *)
  confidenceCell : jsstring;   (* innerHTML *)
  connectionsCell : jsstring;  (* textContent *)
  sourceCell : jsstring        (* textContent, and the title *)
}.

Definition confidenceHtml (confClass confidence : jsstring) : jsstring :=
  html "
                <div class='confidence-bar'>
                    <div class='confidence-progress'>
                        <div class='confidence-fill " ++ confClass
  ++ html "' style='width: " ++ confidence ++ html "%'></div>
                    </div>
                    <span class='confidence-value " ++ confClass ++ html "'>"
  ++ confidence ++ html "%</span>
                </div>
            ".

(** [createTableRow(item, index)]; [None] is a TypeError: [item] is
    [null], or [item.type || 'unknown'] is not a string and has no
    [toLowerCase]. *)
Definition createTableRow (item : value) : option tableRow :=
  match item with
  | VNull => None
  | _ =>
      match orElse (getProp item (js "type")) (VStr (js "unknown")) with
      | VStr type =>
          let confidence :=
            Math_round (ToNumber (orElse (getProp item (js "confidence")) (VNum zero))
                        * 100)%float in
          let confClass :=
            UIUtils.getConfidenceClass
              (orElse (getProp item (js "confidence")) (VNum zero)) in
          Some
            {| indicatorCell :=
                 ToString (orElse (getProp item (js "indicator")) (VStr (js "unknown")));
               typeBadge := UIUtils.escapeHtml (Some (VStr type));
               confidenceCell := confidenceHtml confClass (NumberToString confidence);
               connectionsCell :=
                 ToString (orElse (getProp item (js "connections")) (VNum zero));
               sourceCell :=
                 ToString (orElse (getProp item (js "source")) (VStr (js "unknown"))) |}
      | _ => None
      end
  end.

(** What the table body holds: the "No indicators found" placeholder, or
    the rows appended so far. *)
Inductive tableBody : Type :=
| NoIndicators
| Rows (rows : list tableRow).

(** [results.forEach(...)]: the rows appended, and whether the loop ran to
    its end. *)
Fixpoint appendRows (items : list value) : list tableRow * bool :=
  match items with
  | [] => ([], true)
  | item :: rest =>
      match createTableRow item with
      | None => ([], false)
      | Some row => let '(rows, completed) := appendRows rest in (row :: rows, completed)
      end
  end.

(** [renderTable(results)] on a page that has the table body: the body
    afterwards, and [false] when a TypeError ended the call. *)
Definition renderTable (results : option value) : tableBody * bool :=
  match results with
  | None => (NoIndicators, true)
  | Some res =>
      if negb (truthy res) || ExportManager.lengthIsZero res then (NoIndicators, true)
      else
        match res with
        | VArr items => let '(rows, completed) := appendRows items in (Rows rows, completed)
        | _ => (Rows [], false)
        end
  end.

(** The text [showErrorState(message)] puts into the heading of the error
    state. *)
Definition errorHeading (message : value) : jsstring :=
  UIUtils.escapeHtml (Some message).

(** What a load of the page ends in: the full-page error state with its
    message, or a call of [Renderer.renderAll] on the stored results. *)
Inductive pageOutcome : Type :=
| ErrorState (message : value)
| Rendered (results : value).

Definition initialize (ls : store) : pageOutcome :=
  if negb (StorageManager.hasResults ls)
  then ErrorState (VStr (js "No analysis data found. Please run a new search."))
  else
    let results := DataManager.loadResults ls in
    if negb (truthy results)
    then ErrorState (VStr (js "Failed to load results. Please try again."))
    else
      match DataManager.validateResults results with
      | DataManager.Invalid error => ErrorState error
      | DataManager.Valid => Rendered results
      end.


(** [window.GodEyeResults.clearResults()] and [getState()]. *)
Definition clearResults (ls : store) : bool * store :=
  StorageManager.remove ls CONFIG.STORAGE.RESULTS_KEY.

Record state : Type := { hasResults : bool; results : value }.

Definition getState (ls : store) : state :=
  {| hasResults := StorageManager.hasResults ls;
     results := DataManager.loadResults ls |}.

End Results.

(** ** Writing test data

    [json "{'a': 1}"] is the text with every apostrophe turned into a
    double quote. *)
Definition json (s : string) : jsstring :=
  map (fun c => if c =? 39 then 34 else c) (js s).
Arguments json s%_string.

(** ** Notions the properties are stated with *)

(** A positive binary64 value with exponent [-53], as [0.5] and [0.8] are. *)
Definition sfPos (k : positive) : spec_float := S754_finite false k (-53).

(** The CSV export, in the words of its description: one line of column
    names, then one line per indicator in list order; a line is its cells,
    each between double quotes, separated by commas. *)
Definition quoted (s : jsstring) : jsstring := [34] ++ s ++ [34].

Definition csvLine (cells : list jsstring) : jsstring :=
  join (js ",") (map quoted cells).

(** A field as text, or [d] when the field is absent (or falsy). *)
Definition textOr (d : jsstring) (field : option value) : jsstring :=
  match field with
  | Some v => if truthy v then ToString v else d
  | None => d
  end.

(** A confidence as a rounded percentage, 0 when absent (or falsy). *)
Definition percentOf (field : option value) : jsstring :=
  NumberToString
    (Math_round ((match field with
                  | Some v => if truthy v then ToNumber v else zero
                  | None => zero
                  end) * 100)%float)
  ++ js "%".

Definition indicatorCells (item : value) : list jsstring :=
  [textOr (js "unknown") (getProp item (js "indicator"));
   textOr (js "unknown") (getProp item (js "type"));
   percentOf (getProp item (js "confidence"));
   textOr (js "0") (getProp item (js "connections"));
   textOr (js "unknown") (getProp item (js "source"))].

Definition indicatorsCsv (columns : list jsstring) (items : list value) : jsstring :=
  join [10] (csvLine columns :: map (fun item => csvLine (indicatorCells item)) items).

(** A browser that accepts every write, one that refuses every write, and
    a submission whose request fails. *)
Definition roomy : quota := fun _ _ _ => true.
Definition full : quota := fun _ _ _ => false.

Definition offlineSearch (accepts : quota) : App.SearchHandler.submission :=
  {| App.SearchHandler.searchInput := Some (js " example.com ");
     App.SearchHandler.typeSelector := Some (js "domain");
     App.SearchHandler.timestamp := js "2024-05-01T10:00:00.000Z";
     App.SearchHandler.response := App.SearchHandler.Rejected (js "Failed to fetch");
     App.SearchHandler.accepts := accepts |}.

(** Dotted-quad IPv4 syntax: exactly four octets separated by dots, an
    octet being one to three decimal digits that denote a number from 0
    to 255. *)
Fixpoint splitOn (sep : N) (s : jsstring) : list jsstring :=
  match s with
  | [] => [[]]
  | c :: r =>
      if c =? sep then [] :: splitOn sep r
      else match splitOn sep r with
           | p :: ps => (c :: p) :: ps
           | [] => [[c]]
           end
  end.

Definition isOctet (w : jsstring) : bool :=
  (1 <=? length w)%nat && (length w <=? 3)%nat && forallb isDigit w
  && (digitsValue w <=? 255)%Z.

Definition isDottedQuad (s : jsstring) : bool :=
  match splitOn 46 s with
  | [a; b; c; d] => isOctet a && isOctet b && isOctet c && isOctet d
  | _ => false
  end.

(** The language of a pattern without [\b]: the strings it matches as a
    whole. *)
Fixpoint Pow (L : jsstring -> Prop) (n : nat) (s : jsstring) : Prop :=
  match n with
  | O => s = []
  | S n' => exists s1 s2, s = s1 ++ s2 /\ L s1 /\ Pow L n' s2
  end.

Fixpoint Lang (icase : bool) (r : regex) (s : jsstring) : Prop :=
  match r with
  | RFail => False
  | REps => s = []
  | RSet negated items => exists c, s = [c] /\ setMatches icase negated items c = true
  | RCat a b => exists s1 s2, s = s1 ++ s2 /\ Lang icase a s1 /\ Lang icase b s2
  | RAlt a b => Lang icase a s \/ Lang icase b s
  | RStar a => exists n, Pow (Lang icase a) n s
  | RRep a lo hi => exists n, (lo <= n <= hi)%nat /\ Pow (Lang icase a) n s
  | RWordB => False
  end.

Fixpoint plain (r : regex) : bool :=
  match r with
  | RFail | REps | RSet _ _ => true
  | RCat a b | RAlt a b => plain a && plain b
  | RStar a | RRep a _ _ => plain a
  | RWordB => false
  end.

(** [[0-9]] *)
Definition digitSet : regex := RSet false [CRange 48 57].

(** JSON-serializable values: every Number in the value is finite and
    survives the two conversions [JSON.stringify] and [JSON.parse] apply
    to it (Number::toString writes a JSON number that StringToNumber
    reads back as the same Number), and no object has two properties of
    the same name. *)
Definition numberRoundTrips (x : float) : bool :=
  is_finite x
  && bool_decide (lexNumber (NumberToString x) = Some (NumberToString x, []))
  && Leibniz.eqb (StringToNumber (NumberToString x)) x.

Fixpoint serializable (v : value) : bool :=
  match v with
  | VNum x => numberRoundTrips x
  | VArr elems => forallb serializable elems
  | VObj props =>
      bool_decide (NoDup (map fst props))
      && forallb (fun p => serializable (snd p)) props
  | _ => true
  end.

(** What may follow a value inside a JSON text: nothing, a comma, or a
    closing bracket or brace. *)
Definition valueEnd (rest : jsstring) : bool :=
  match rest with
  | [] => true
  | c :: _ => (c =? 44) || (c =? 93) || (c =? 125)
  end.

(** Fuel that is enough to parse the text of a value. *)
Fixpoint need (v : value) : nat :=
  match v with
  | VArr elems => S (list_sum (map (fun e => S (need e)) elems))
  | VObj props => S (list_sum (map (fun p => S (need (snd p))) props))
  | _ => 1
  end.

(** An analysis result as the backend sends it. *)
Definition sampleResult : value :=
  VObj [(js "status", VStr (js "success"));
        (js "query_info", VObj [(js "query", VStr (js "example.com"));
                                (js "type", VStr (js "domain"))]);
        (js "timestamp", VStr (js "2024-05-01T10:00:00.000Z"));
        (js "summary", VStr (js "Two indicators; one says \n" ++ [34; 10; 233; 55357; 56832]));
        (js "analytics", VObj [(js "total_entities", VNum 2%float);
                               (js "avg_confidence", VNum 0.85%float);
                               (js "source_count", VNum 3%float)]);
        (js "results",
         VArr [VObj [(js "indicator", VStr (js "93.184.216.34"));
                     (js "type", VStr (js "ip"));
                     (js "confidence", VNum 0.9%float);
                     (js "connections", VNum 4%float);
                     (js "source", VStr (js "dns"))];
               VObj [(js "indicator", VStr (js "admin@example.com"));
                     (js "type", VStr (js "email"));
                     (js "confidence", VNum 0.285%float);
                     (js "connections", VNum 0%float);
                     (js "source", VNull)]])].

(** The first code unit of the text of a value. *)
Definition valueHead (c : N) : Prop :=
  c = 110 \/ c = 116 \/ c = 102 \/ c = 34 \/ c = 91 \/ c = 123 \/ c = 45 \/ 48 <= c <= 57.

(** Parsing the text of [v], followed by anything that may follow a
    value, gives [v] back and leaves what followed. *)
Definition roundTrips (v : value) : Prop :=
  serializable v = true ->
  forall fuel rest, (need v <= fuel)%nat -> valueEnd rest = true ->
                    parseValue fuel (JSON_stringify v ++ rest) = Some (v, rest).

(** An e-mail address as the EMAIL pattern reads it: a local part, an at
    sign, a domain part, a dot and a last part; the three parts are not
    empty and hold neither whitespace nor an at sign (the domain part and
    the last part may hold further dots). *)
Definition emailUnit (c : N) : bool := negb (isWhiteSpace c) && negb (c =? 64).

Definition emailShape (s : jsstring) : Prop :=
  exists loc dom last,
    s = loc ++ [64] ++ dom ++ [46] ++ last /\
    loc <> [] /\ dom <> [] /\ last <> [] /\
    forallb emailUnit loc = true /\ forallb emailUnit dom = true /\
    forallb emailUnit last = true.

(** A host name as the DOMAIN pattern reads it: labels separated by dots,
    at least two of them; a label is 1 to 63 ASCII letters, digits and
    hyphens and neither begins nor ends with a hyphen; the last label has
    at least two code units. *)
Definition isAlnum (c : N) : bool :=
  isDigit c || ((65 <=? c) && (c <=? 90)) || ((97 <=? c) && (c <=? 122)).

Definition isLabelUnit (c : N) : bool := isAlnum c || (c =? 45).

Definition isLabel (w : jsstring) : bool :=
  (1 <=? length w)%nat && (length w <=? 63)%nat && forallb isLabelUnit w
  && match w with c :: _ => isAlnum c | [] => false end
  && match rev w with c :: _ => isAlnum c | [] => false end.

Definition isHostName (s : jsstring) : bool :=
  match rev (splitOn 46 s) with
  | final :: ((_ :: _) as labels) =>
      (2 <=? length final)%nat && isLabel final && forallb isLabel labels
  | _ => false
  end.

(** The two parts of the DOMAIN pattern: a label with its dot, and the
    last label. *)
Definition dottedLabel : regex :=
  RCat App.CONFIG.PATTERNS.alnum
    (RCat (ROpt (RCat (RRep App.CONFIG.PATTERNS.alnumDash 0 61) App.CONFIG.PATTERNS.alnum))
       (RChr ".")).

Definition lastLabel : regex :=
  RCat App.CONFIG.PATTERNS.alnum
    (RCat (RRep App.CONFIG.PATTERNS.alnumDash 0 61) App.CONFIG.PATTERNS.alnum).

(** Word boundaries: whether the last code unit of [s] is a word
    character ([pw] tells it of what precedes an empty [s]), and whether
    the first one is. *)
Definition lastWord (pw : bool) (s : jsstring) : bool :=
  fold_left (fun _ c => isWordChar c) s pw.

Definition nextWord (s : jsstring) : bool :=
  match s with
  | c :: _ => isWordChar c
  | [] => false
  end.

(** A URL as the URL pattern reads it: http:// or https://, an optional
    www., 1 to 256 host characters, a dot, 1 to 6 letters, digits and
    parentheses, and then, after a word boundary, any number of path
    characters. *)
Definition isLetterOrDigit (c : N) : bool :=
  ((97 <=? c) && (c <=? 122)) || ((65 <=? c) && (c <=? 90)) || isDigit c.

Definition urlHostUnit (c : N) : bool :=
  isLetterOrDigit c || existsb (N.eqb c) (js "-@:%._+~#=").

Definition urlTopUnit (c : N) : bool :=
  isLetterOrDigit c || existsb (N.eqb c) (js "()").

Definition urlPathUnit (c : N) : bool :=
  isLetterOrDigit c || existsb (N.eqb c) (js "-()@:%_+.~#?&/=").

Definition urlShape (s : jsstring) : Prop :=
  exists scheme www host top path,
    s = scheme ++ www ++ host ++ [46] ++ top ++ path /\
    (scheme = js "http://" \/ scheme = js "https://") /\
    (www = [] \/ www = js "www.") /\
    (1 <= length host <= 256)%nat /\ forallb urlHostUnit host = true /\
    (1 <= length top <= 6)%nat /\ forallb urlTopUnit top = true /\
    forallb urlPathUnit path = true /\
    xorb (lastWord false top) (nextWord path) = true.

(** The parts of the URL pattern. *)
Definition urlHostClass : regex :=
  RSet false (CChar (ch "-") :: App.CONFIG.PATTERNS.letters ++
              map (fun a => CChar (ch a)) ["@"; ":"; "%"; "."; "_"; "+"; "~"; "#"; "="]%char).

Definition urlTopClass : regex :=
  RSet false (App.CONFIG.PATTERNS.letters ++ [CChar (ch "("); CChar (ch ")")]).

Definition urlPathClass : regex :=
  RSet false (CChar (ch "-") :: App.CONFIG.PATTERNS.letters ++
              map (fun a => CChar (ch a))
                ["("; ")"; "@"; ":"; "%"; "_"; "+"; "."; "~"; "#"; "?"; "&"; "/"; "/"; "="]%char).

(** The code units a Number is written with: digits, sign, point and
    exponent mark, and the letters of NaN and Infinity. *)
Definition numberUnit (c : N) : bool :=
  isDigit c || existsb (N.eqb c) (js "-+.eNaInfity").

(** An indicator the table can show: it is not [null], and its type is a
    string or is absent (or falsy). *)
Definition hasTextType (item : value) : bool :=
  negb (Results.ExportManager.isNull item)
  && match orElse (getProp item (js "type")) (VStr (js "unknown")) with
     | VStr _ => true
     | _ => false
     end.

(** A row shows what the CSV export writes for the same indicator: the
    same indicator, connections and source texts, the type with its
    markup characters escaped, and the percentage inside the markup of the
    confidence bar, whose class is one of three fixed names. *)
Definition rowShows (row : Results.tableRow) (item : value) : Prop :=
  exists indicator type number connections source confClass,
    indicatorCells item = [indicator; type; number ++ js "%"; connections; source] /\
    Results.indicatorCell row = indicator /\
    Results.typeBadge row = escapeString type /\
    Results.confidenceCell row = Results.confidenceHtml confClass number /\
    In confClass [js "high"; js "medium"; js "low"] /\
    forallb numberUnit number = true /\
    Results.connectionsCell row = connections /\
    Results.sourceCell row = source.

(** A file the upload accepts: at most [MAX_SIZE] bytes (a size that is
    not a number passes, too) and one of the allowed types. *)
Definition acceptable (file : App.Validator.File) : bool :=
  negb (App.CONFIG.UPLOAD.MAX_SIZE <? App.Validator.fileSize file)%float
  && existsb (jsstring_eqb (App.Validator.fileType file)) App.CONFIG.UPLOAD.ALLOWED_TYPES.




(** An indicator with an indicator text and a type. *)
Definition indicatorOf (indicator type : jsstring) : value :=
  VObj [(js "indicator", VStr indicator); (js "type", VStr type)].

(* ================================================================== *)
(** * Part II. Properties                                              *)
(* ================================================================== *)

(** ** Order of Numbers around the two thresholds *)

Section FloatOrder.

Ltac sf_order x :=
  destruct x as [sg | sg | | sg m e]; try destruct sg;
  unfold sfPos, SFleb, SFltb, SFeqb, SFcompare in *;
  rewrite ?Pos.compare_cont_spec in *; unfold Pos.switch_Eq in *;
  try discriminate; try reflexivity.

Lemma sf_above_truthy k x :
  SFleb (sfPos k) x = true ->
  negb (SFeqb x (S754_zero false) || negb (SFeqb x x)) = true.
Proof.
  intros H. sf_order x.
  rewrite Z.compare_refl, Pos.compare_refl. reflexivity.
Qed.

Lemma sf_below_not_above k1 k2 x :
  (k1 <= k2)%positive ->
  SFltb x (sfPos k1) = true -> SFleb (sfPos k2) x = false.
Proof.
  intros Hk H. sf_order x.
  rewrite (Z.compare_antisym e (-53)).
  destruct (Z.compare_spec e (-53)); simpl in *; try discriminate; try reflexivity.
  rewrite (Pos.compare_antisym m k2).
  destruct (Pos.compare_spec m k1); try discriminate.
  destruct (Pos.compare_spec m k2); try reflexivity; lia.
Qed.

Lemma sf_above_mono k1 k2 x :
  (k1 <= k2)%positive ->
  SFleb (sfPos k2) x = true -> SFleb (sfPos k1) x = true.
Proof.
  intros Hk H. sf_order x.
  destruct (Z.compare_spec (-53) e); simpl in *; try discriminate; try reflexivity.
  destruct (Pos.compare_spec k2 m); try discriminate;
    destruct (Pos.compare_spec k1 m); try reflexivity; lia.
Qed.

Local Open Scope float_scope.

Lemma Prim2SF_half : Prim2SF 0.5 = sfPos 4503599627370496.
Proof. vm_compute. reflexivity. Qed.

Lemma Prim2SF_eight_tenths : Prim2SF 0.8 = sfPos 7205759403792794.
Proof. vm_compute. reflexivity. Qed.

Lemma truthyNumber_spec v :
  truthyNumber v
  = negb (SFeqb (Prim2SF v) (S754_zero false) || negb (SFeqb (Prim2SF v) (Prim2SF v))).
Proof.
  unfold truthyNumber, is_zero, is_nan. rewrite !FloatAxioms.eqb_spec. reflexivity.
Qed.

Lemma ge08_truthy v : (0.8 <=? v) = true -> truthyNumber v = true.
Proof.
  rewrite leb_spec, Prim2SF_eight_tenths, truthyNumber_spec. apply sf_above_truthy.
Qed.

Lemma ge05_truthy v : (0.5 <=? v) = true -> truthyNumber v = true.
Proof.
  rewrite leb_spec, Prim2SF_half, truthyNumber_spec. apply sf_above_truthy.
Qed.

Lemma lt08_not_ge08 v : (v <? 0.8) = true -> (0.8 <=? v) = false.
Proof.
  rewrite leb_spec, ltb_spec, Prim2SF_eight_tenths. apply sf_below_not_above. lia.
Qed.

Lemma lt05_not_ge05 v : (v <? 0.5) = true -> (0.5 <=? v) = false.
Proof.
  rewrite leb_spec, ltb_spec, Prim2SF_half. apply sf_below_not_above. lia.
Qed.

Lemma lt05_not_ge08 v : (v <? 0.5) = true -> (0.8 <=? v) = false.
Proof.
  rewrite leb_spec, ltb_spec, Prim2SF_half, Prim2SF_eight_tenths.
  apply sf_below_not_above. lia.
Qed.

Lemma ge08_ge05 v : (0.8 <=? v) = true -> (0.5 <=? v) = true.
Proof.
  rewrite !leb_spec, Prim2SF_half, Prim2SF_eight_tenths. apply sf_above_mono. lia.
Qed.

End FloatOrder.

(** ** Risk level and confidence tier (results.js) *)

Section RiskLevel.
Import Results.
Local Open Scope float_scope.

Lemma riskLevel_number analytics v :
  getProp analytics (js "avg_confidence") = Some (VNum v) ->
  Renderer.riskLevel analytics
  = let confidence := if truthyNumber v then v else zero in
    if 0.8 <=? confidence then (js "High", js "risk-high")
    else if 0.5 <=? confidence then (js "Medium", js "risk-medium")
    else (js "Low", js "risk-low").
Proof.
  intros H. unfold Renderer.riskLevel. rewrite H. unfold orElse, truthy, ToNumber.
  destruct (truthyNumber v); reflexivity.
Qed.

(** C2. The risk level is High from 0.8 up, Medium from 0.5 up to 0.8 and
    Low below 0.5 (so 0.79 is Medium, 0.8 is High and 0.49 is Low), and
    the confidence tier of an indicator uses the same two thresholds. *)
Theorem risk_level_thresholds :
  (forall (analytics : value) (v : float),
      getProp analytics (js "avg_confidence") = Some (VNum v) ->
      ((0.8 <=? v) = true -> fst (Renderer.riskLevel analytics) = js "High") /\
      ((0.5 <=? v) = true -> (v <? 0.8) = true ->
       fst (Renderer.riskLevel analytics) = js "Medium") /\
      ((v <? 0.5) = true -> fst (Renderer.riskLevel analytics) = js "Low")) /\
  (forall v : float,
      ((0.8 <=? v) = true -> UIUtils.getConfidenceClass (VNum v) = js "high") /\
      ((0.5 <=? v) = true -> (v <? 0.8) = true ->
       UIUtils.getConfidenceClass (VNum v) = js "medium") /\
      ((v <? 0.5) = true -> UIUtils.getConfidenceClass (VNum v) = js "low")) /\
  fst (Renderer.riskLevel (VObj [(js "avg_confidence", VNum 0.79)])) = js "Medium" /\
  fst (Renderer.riskLevel (VObj [(js "avg_confidence", VNum 0.8)])) = js "High" /\
  fst (Renderer.riskLevel (VObj [(js "avg_confidence", VNum 0.49)])) = js "Low".
Proof.
  split; [ | split; [ | repeat split; vm_compute; reflexivity ] ].
  - intros analytics v Hv. rewrite (riskLevel_number _ _ Hv). cbv zeta.
    repeat split.
    + intros H. rewrite (ge08_truthy _ H), H. reflexivity.
    + intros H5 H8. rewrite (ge05_truthy _ H5), (lt08_not_ge08 _ H8), H5. reflexivity.
    + intros H. destruct (truthyNumber v).
      * rewrite (lt05_not_ge08 _ H), (lt05_not_ge05 _ H). reflexivity.
      * vm_compute. reflexivity.
  - intros v. unfold UIUtils.getConfidenceClass, UIUtils.confidenceValue.
    repeat split.
    + intros H. rewrite H. reflexivity.
    + intros H5 H8. rewrite (lt08_not_ge08 _ H8), H5. reflexivity.
    + intros H. rewrite (lt05_not_ge08 _ H), (lt05_not_ge05 _ H). reflexivity.
Qed.

Lemma risk_level_thresholds_witness :
  fst (Renderer.riskLevel (VObj [(js "avg_confidence", VNum 0.9)])) = js "High".
Proof.
  apply (proj1 (proj1 risk_level_thresholds
                  (VObj [(js "avg_confidence", VNum 0.9)]) 0.9 ltac:(vm_compute; reflexivity))).
  vm_compute. reflexivity.
Defined.

End RiskLevel.

(** ** Strings *)

Lemma jsstring_eqb_eq a b : jsstring_eqb a b = true <-> a = b.
Proof. unfold jsstring_eqb. apply bool_decide_eq_true. Qed.

Lemma jsstring_eqb_refl a : jsstring_eqb a a = true.
Proof. apply jsstring_eqb_eq. reflexivity. Qed.

Lemma jsstring_eqb_neq a b : a <> b -> jsstring_eqb a b = false.
Proof. unfold jsstring_eqb. apply bool_decide_eq_false. Qed.

(** ** Validator (app.js) *)

Section ValidatorFacts.
Import App.

(** C5. With type "auto" a query is accepted exactly when its trimmed form
    has between 1 and 500 code units, whatever its format; the trimmed
    query is returned. An empty trimmed form is refused with one of the
    two empty-query messages, a trimmed form longer than 500 with the
    too-long message. *)
Theorem validateQuery_auto (q : jsstring) :
  ((1 <= length (trim q) <= 500)%nat ->
   Validator.validateQuery q (js "auto") = Validator.Valid (trim q)) /\
  (length (trim q) = 0%nat ->
   Validator.validateQuery q (js "auto")
   = Validator.Invalid match q with
                       | [] => js "Query must be a non-empty string"
                       | _ => js "Query cannot be empty"
                       end) /\
  ((500 < length (trim q))%nat ->
   Validator.validateQuery q (js "auto")
   = Validator.Invalid (js "Query is too long (max 500 characters)")) /\
  (Validator.valid (Validator.validateQuery q (js "auto")) = true
   <-> (1 <= length (trim q) <= 500)%nat).
Proof.
  destruct q as [ | c r].
  - repeat split; simpl; intros; try lia; try reflexivity; discriminate.
  - unfold Validator.validateQuery. cbv zeta.
    rewrite (jsstring_eqb_refl (js "auto")).
    set (t := trim (c :: r)).
    destruct (Nat.eqb_spec (length t) 0) as [E0 | E0];
      destruct (Nat.ltb_spec 500 (length t)) as [E5 | E5];
      repeat split; simpl; intros; try lia; try reflexivity; try discriminate.
Qed.

Lemma validateQuery_auto_witness :
  Validator.validateQuery (js "  anything at all ") (js "auto")
  = Validator.Valid (js "anything at all").
Proof.
  apply (proj1 (validateQuery_auto (js "  anything at all "))).
  let n := eval vm_compute in (length (trim (js "  anything at all "))) in
  change (length (trim (js "  anything at all "))) with n.
  lia.
Defined.

(** C3. detectQueryType tries IP, then email, then domain, then URL; the
    first pattern that matches names the type, and "unknown" is the answer
    when none does. *)
Theorem detectQueryType_priority :
  (forall q, test CONFIG.PATTERNS.IP q = true ->
             Validator.detectQueryType q = js "ip") /\
  (forall q, test CONFIG.PATTERNS.IP q = false ->
             test CONFIG.PATTERNS.EMAIL q = true ->
             Validator.detectQueryType q = js "email") /\
  (forall q, test CONFIG.PATTERNS.IP q = false ->
             test CONFIG.PATTERNS.EMAIL q = false ->
             test CONFIG.PATTERNS.DOMAIN q = true ->
             Validator.detectQueryType q = js "domain") /\
  (forall q, test CONFIG.PATTERNS.IP q = false ->
             test CONFIG.PATTERNS.EMAIL q = false ->
             test CONFIG.PATTERNS.DOMAIN q = false ->
             test CONFIG.PATTERNS.URL q = true ->
             Validator.detectQueryType q = js "url") /\
  (forall q, test CONFIG.PATTERNS.IP q = false ->
             test CONFIG.PATTERNS.EMAIL q = false ->
             test CONFIG.PATTERNS.DOMAIN q = false ->
             test CONFIG.PATTERNS.URL q = false ->
             Validator.detectQueryType q = js "unknown") /\
  Validator.detectQueryType (js "8.8.8.8") = js "ip" /\
  Validator.detectQueryType (js "a@b.com") = js "email" /\
  Validator.detectQueryType (js "example.com") = js "domain" /\
  Validator.detectQueryType (js "not a query!!") = js "unknown".
Proof.
  unfold Validator.detectQueryType.
  split; [ intros q H; rewrite H; reflexivity | ].
  split; [ intros q H1 H2; rewrite H1, H2; reflexivity | ].
  split; [ intros q H1 H2 H3; rewrite H1, H2, H3; reflexivity | ].
  split; [ intros q H1 H2 H3 H4; rewrite H1, H2, H3, H4; reflexivity | ].
  split; [ intros q H1 H2 H3 H4; rewrite H1, H2, H3, H4; reflexivity | ].
  repeat split; vm_compute; reflexivity.
Qed.

(** "1.1.1.10" matches the IP pattern and the domain pattern; the order
    makes it an IP. *)
Lemma detectQueryType_priority_witness :
  test App.CONFIG.PATTERNS.DOMAIN (js "1.1.1.10") = true /\
  Validator.detectQueryType (js "1.1.1.10") = js "ip".
Proof.
  split; [ vm_compute; reflexivity | ].
  apply (proj1 detectQueryType_priority). vm_compute. reflexivity.
Defined.

End ValidatorFacts.

(** ** Loading and validating the stored results (results.js) *)

Section ResultsLoad.
Import Results.

Lemma strictEqString_eq o s : strictEqString o s = true -> o = Some (VStr s).
Proof.
  destruct o as [ [ | | | t | | ] | ]; simpl; try discriminate.
  intros H. apply jsstring_eqb_eq in H. subst. reflexivity.
Qed.

Lemma truthyOpt_some o : truthyOpt o = true -> exists v, o = Some v /\ truthy v = true.
Proof. destruct o as [v | ]; simpl; [ eauto | discriminate ]. Qed.

Lemma validateResults_valid r :
  DataManager.valid (DataManager.validateResults r) = true ->
  truthy r = true /\ typeofObject r = true /\
  getProp r (js "status") = Some (VStr (js "success")) /\
  truthyOpt (getProp r (js "analytics")) = true /\
  truthyOpt (getProp r (js "results")) = true.
Proof.
  unfold DataManager.validateResults.
  destruct (truthy r); [ | discriminate ].
  destruct (typeofObject r); [ | discriminate ]. simpl.
  destruct (strictEqString (getProp r (js "status")) (js "success")) eqn:Es;
    [ | discriminate ]. simpl.
  destruct (truthyOpt (getProp r (js "analytics"))); [ | discriminate ].
  destruct (truthyOpt (getProp r (js "results"))); [ | discriminate ].
  intros _. repeat split. apply strictEqString_eq. exact Es.
Qed.

Lemma get_absent ls key d : getItem ls key = None -> StorageManager.get ls key d = d.
Proof. unfold StorageManager.get. intros ->. reflexivity. Qed.

Lemma get_malformed ls key d item :
  getItem ls key = Some item -> JSON_parse item = None -> StorageManager.get ls key d = d.
Proof.
  unfold StorageManager.get. intros -> H. destruct item; [ reflexivity | ].
  rewrite H. reflexivity.
Qed.

Lemma get_parsed ls key d c item v :
  getItem ls key = Some (c :: item) -> JSON_parse (c :: item) = Some v ->
  StorageManager.get ls key d = v.
Proof. unfold StorageManager.get. intros -> ->. reflexivity. Qed.

Lemma JSON_parse_empty : JSON_parse [] = None.
Proof. reflexivity. Qed.

Lemma initialize_rendered ls r :
  initialize ls = Rendered r ->
  exists item, getItem ls CONFIG.STORAGE.RESULTS_KEY = Some item /\
               JSON_parse item = Some r /\
               DataManager.valid (DataManager.validateResults r) = true.
Proof.
  unfold initialize, StorageManager.hasResults, DataManager.loadResults,
    StorageManager.get.
  destruct (getItem ls CONFIG.STORAGE.RESULTS_KEY) as [ [ | c item ] | ];
    simpl; try discriminate.
  destruct (JSON_parse (c :: item)) as [ v | ] eqn:Ep; simpl; [ | discriminate ].
  destruct (truthy v) eqn:Ev; simpl; [ rewrite Ev; simpl | discriminate ].
  destruct (DataManager.validateResults v) eqn:Eval; [ | discriminate ].
  intros [= <-]. exists (c :: item). rewrite Eval. auto.
Qed.

(** C1. validateResults answers valid only for a payload whose status is
    the string "success" and that has an analytics and a results property;
    initialize renders only what validateResults found valid; a stored
    payload with another status, or without analytics or results, ends in
    the error state. *)
Theorem invalid_results_never_rendered :
  (forall r, DataManager.valid (DataManager.validateResults r) = true ->
             getProp r (js "status") = Some (VStr (js "success")) /\
             (exists a, getProp r (js "analytics") = Some a) /\
             (exists x, getProp r (js "results") = Some x)) /\
  (forall ls r, initialize ls = Rendered r ->
                DataManager.valid (DataManager.validateResults r) = true) /\
  (forall ls item r,
      getItem ls CONFIG.STORAGE.RESULTS_KEY = Some item ->
      JSON_parse item = Some r ->
      getProp r (js "status") <> Some (VStr (js "success")) \/
      getProp r (js "analytics") = None \/
      getProp r (js "results") = None ->
      exists message, initialize ls = ErrorState message).
Proof.
  assert (P1 : forall r, DataManager.valid (DataManager.validateResults r) = true ->
             getProp r (js "status") = Some (VStr (js "success")) /\
             (exists a, getProp r (js "analytics") = Some a) /\
             (exists x, getProp r (js "results") = Some x)).
  { intros r H. destruct (validateResults_valid r H) as (_ & _ & Hs & Ha & Hr).
    split; [ exact Hs | ].
    destruct (truthyOpt_some _ Ha) as (a & -> & _).
    destruct (truthyOpt_some _ Hr) as (x & -> & _). eauto. }
  split; [ exact P1 | split ].
  - intros ls r H. destruct (initialize_rendered ls r H) as (item & _ & _ & Hv).
    exact Hv.
  - intros ls item r Hitem Hparse Hbad.
    destruct (initialize ls) as [ message | r' ] eqn:E; [ eauto | exfalso ].
    destruct (initialize_rendered ls r' E) as (item' & Hitem' & Hparse' & Hv).
    rewrite Hitem in Hitem'. injection Hitem' as <-.
    rewrite Hparse in Hparse'. injection Hparse' as <-.
    destruct (P1 r Hv) as (Hs & (a & Ha) & (x & Hx)).
    destruct Hbad as [ Hb | [ Hb | Hb ] ]; congruence.
Qed.

Lemma invalid_results_never_rendered_witness :
  exists message,
    initialize {[ CONFIG.STORAGE.RESULTS_KEY := json "{'status':'error','message':'boom'}" ]}
    = ErrorState message.
Proof.
  apply (proj2 (proj2 invalid_results_never_rendered)
           {[ CONFIG.STORAGE.RESULTS_KEY := json "{'status':'error','message':'boom'}" ]}
           (json "{'status':'error','message':'boom'}")
           (VObj [(js "status", VStr (js "error")); (js "message", VStr (js "boom"))])).
  - vm_compute. reflexivity.
  - vm_compute. reflexivity.
  - left. vm_compute. intros H. discriminate H.
Defined.

(** C9. StorageManager.get never lets a parse error out: a key that is not
    stored gives the default, and so does a stored string that is not
    JSON; a page load over a stored payload that is not JSON therefore
    ends in the error state. *)
Theorem get_never_throws :
  (forall ls key d, getItem ls key = None -> StorageManager.get ls key d = d) /\
  (forall ls key d item,
      getItem ls key = Some item -> JSON_parse item = None ->
      StorageManager.get ls key d = d) /\
  (forall ls item,
      getItem ls CONFIG.STORAGE.RESULTS_KEY = Some item -> JSON_parse item = None ->
      initialize ls
      = ErrorState (VStr match item with
                         | [] => js "No analysis data found. Please run a new search."
                         | _ => js "Failed to load results. Please try again."
                         end)).
Proof.
  split; [ exact get_absent | split; [ exact get_malformed | ] ].
  intros ls item Hitem Hparse.
  unfold initialize, StorageManager.hasResults, DataManager.loadResults.
  rewrite (get_malformed _ _ VNull _ Hitem Hparse). rewrite Hitem.
  destruct item; reflexivity.
Qed.

Lemma get_never_throws_witness :
  initialize {[ CONFIG.STORAGE.RESULTS_KEY := json "{'status': 'success', " ]}
  = ErrorState (VStr (js "Failed to load results. Please try again.")).
Proof.
  apply (proj2 (proj2 get_never_throws)
           {[ CONFIG.STORAGE.RESULTS_KEY := json "{'status': 'success', " ]}
           (json "{'status': 'success', ")).
  - vm_compute. reflexivity.
  - vm_compute. reflexivity.
Defined.

End ResultsLoad.

(** ** CSV export (results.js) *)

Section CsvExport.
Import Results.

(** C6, as the source has it. An export of an empty or absent indicator
    list only shows the "No data to export" warning: nothing is handed to
    the browser, no CSV text is produced, not even the line of column
    names. *)
Theorem empty_export_only_warns (now : float) :
  ExportManager.downloadCSV now None
  = [Notification (js "No data to export") (js "warning")] /\
  ExportManager.downloadCSV now (Some VNull)
  = [Notification (js "No data to export") (js "warning")] /\
  ExportManager.downloadCSV now (Some (VArr []))
  = [Notification (js "No data to export") (js "warning")] /\
  ExportManager.exportedCSV (ExportManager.downloadCSV now (Some (VArr []))) = None.
Proof. repeat split. Qed.

(** C6 as claimed fails: the export of the empty list does not produce the
    header row (which is what the serialisation of no rows would be). *)
Lemma empty_export_header_counterexample :
  ExportManager.csvText []
  = json "'Indicator','Type','Confidence','Connections','Source'" /\
  ExportManager.exportedCSV (ExportManager.downloadCSV 0%float (Some (VArr [])))
  <> Some (ExportManager.csvText []).
Proof. split; [ vm_compute; reflexivity | intros H; discriminate H ]. Qed.

Lemma cell_textOr d o : ToString (orElse o (VStr d)) = textOr d o.
Proof. destruct o as [ v | ]; simpl; [ destruct (truthy v) | ]; reflexivity. Qed.

Lemma cell_count o : ToString (orElse o (VNum zero)) = textOr (js "0") o.
Proof.
  destruct o as [ v | ]; simpl; [ destruct (truthy v) | ];
    try reflexivity; vm_compute; reflexivity.
Qed.

Lemma cell_percent o :
  ToNumber (orElse o (VNum zero))
  = match o with
    | Some v => if truthy v then ToNumber v else zero
    | None => zero
    end.
Proof. destruct o as [ v | ]; simpl; [ destruct (truthy v) | ]; reflexivity. Qed.

Lemma row_line item :
  join (js ",") (map (fun cell => [34] ++ ToString cell ++ [34]) (ExportManager.row item))
  = csvLine (indicatorCells item).
Proof.
  unfold ExportManager.row, indicatorCells, csvLine, percentOf. cbn [map].
  rewrite !cell_textOr, cell_count, cell_percent. reflexivity.
Qed.

Lemma csvText_rows items :
  ExportManager.csvText (map ExportManager.row items)
  = indicatorsCsv [js "Indicator"; js "Type"; js "Confidence"; js "Connections";
                   js "Source"] items.
Proof.
  unfold ExportManager.csvText, indicatorsCsv. cbn [map]. f_equal. f_equal.
  rewrite map_map. apply map_ext. intros item. apply row_line.
Qed.

Lemma no_null_items items :
  Forall (fun item => item <> VNull) items -> existsb ExportManager.isNull items = false.
Proof.
  induction 1 as [ | item items Hi _ IH ]; [ reflexivity | ].
  simpl. rewrite IH. destruct item; try reflexivity. contradiction.
Qed.

(** C7, as the source has it. The export of a non-empty list of indicators
    is one download of the text whose first line names the columns
    Indicator, Type, Confidence, Connections, Source and whose next lines
    are the indicators in list order: text fields default to "unknown",
    connections to 0, the confidence is a rounded percentage, and every
    cell stands between double quotes. *)
Theorem csv_export_rows (now : float) (items : list value) :
  items <> [] ->
  Forall (fun item => item <> VNull) items ->
  ExportManager.downloadCSV now (Some (VArr items))
  = [Download (js "godeye-indicators-" ++ NumberToString now ++ js ".csv")
       (js "text/csv")
       (indicatorsCsv [js "Indicator"; js "Type"; js "Confidence"; js "Connections";
                       js "Source"] items);
     Notification (js "Table exported to CSV") (js "success")].
Proof.
  intros Hne Hnull. unfold ExportManager.downloadCSV.
  destruct items as [ | item items ]; [ contradiction | ].
  cbn [truthy negb orb ExportManager.lengthIsZero].
  rewrite (no_null_items _ Hnull), csvText_rows. reflexivity.
Qed.

Lemma csv_export_rows_witness :
  ExportManager.exportedCSV
    (ExportManager.downloadCSV 1700000000000%float
       (Some (VArr [VObj [(js "indicator", VStr (js "8.8.8.8"));
                          (js "confidence", VNum 0.285%float)]])))
  = Some (json "'Indicator','Type','Confidence','Connections','Source'" ++ [10] ++
          json "'8.8.8.8','unknown','28%','0','unknown'").
Proof.
  rewrite (csv_export_rows 1700000000000%float
             [VObj [(js "indicator", VStr (js "8.8.8.8"));
                    (js "confidence", VNum 0.285%float)]]).
  - vm_compute. reflexivity.
  - intros H. discriminate H.
  - repeat constructor; intros H; discriminate H.
Defined.

(** C7 as claimed fails on the name of the third column: the header cell
    is "Confidence", not "Confidence%". *)
Lemma csv_header_counterexample :
  ExportManager.exportedCSV
    (ExportManager.downloadCSV 0%float
       (Some (VArr [VObj [(js "indicator", VStr (js "8.8.8.8"))]])))
  <> Some (indicatorsCsv [js "Indicator"; js "Type"; js "Confidence%";
                          js "Connections"; js "Source"]
             [VObj [(js "indicator", VStr (js "8.8.8.8"))]]).
Proof. vm_compute. intros H. discriminate H. Qed.

End CsvExport.

(** ** The search handler and storage (app.js) *)

Section SearchStorage.
Import App.

Lemma set_lookup_other (accepts : quota) (ls : store) (key other : jsstring) (v : value) :
  other <> key ->
  snd (StorageManager.set accepts ls key v) !! other = ls !! other.
Proof.
  intros Hne. unfold StorageManager.set, setItem.
  destruct (accepts ls key (JSON_stringify v)); simpl; [ | reflexivity ].
  apply lookup_insert_ne. congruence.
Qed.

Lemma set_lookup_accepted (accepts : quota) (ls : store) key v :
  accepts ls key (JSON_stringify v) = true ->
  snd (StorageManager.set accepts ls key v) !! key = Some (JSON_stringify v).
Proof.
  intros H. unfold StorageManager.set, setItem. rewrite H. simpl.
  apply lookup_insert_eq.
Qed.

Lemma set_refused (accepts : quota) (ls : store) key v :
  accepts ls key (JSON_stringify v) = false ->
  StorageManager.set accepts ls key v = (false, ls).
Proof. intros H. unfold StorageManager.set, setItem. rewrite H. reflexivity. Qed.

Lemma trySearch_thrown sub ls message ls' :
  SearchHandler.trySearch sub ls = (inl message, ls') -> ls' = ls.
Proof.
  unfold SearchHandler.trySearch.
  destruct (SearchHandler.response sub) as [ m | results ]; [ congruence | ].
  destruct (negb (truthy results) || negb (typeofObject results)); [ congruence | ].
  destruct (negb (strictEqString (getProp results (js "status")) (js "success")));
    [ congruence | ].
  unfold StorageManager.set, setItem.
  destruct (SearchHandler.accepts sub ls CONFIG.STORAGE.RESULTS_KEY
              (JSON_stringify results)); simpl; congruence.
Qed.

Lemma storage_keys_distinct :
  CONFIG.STORAGE.RESULTS_KEY <> CONFIG.STORAGE.QUERY_KEY /\
  CONFIG.STORAGE.RESULTS_KEY <> CONFIG.STORAGE.TYPE_KEY /\
  CONFIG.STORAGE.RESULTS_KEY <> CONFIG.STORAGE.TIMESTAMP_KEY /\
  CONFIG.STORAGE.QUERY_KEY <> CONFIG.STORAGE.TYPE_KEY /\
  CONFIG.STORAGE.QUERY_KEY <> CONFIG.STORAGE.TIMESTAMP_KEY /\
  CONFIG.STORAGE.TYPE_KEY <> CONFIG.STORAGE.TIMESTAMP_KEY.
Proof. repeat split; intros H; vm_compute in H; discriminate H. Qed.

(** The storage a failed submission leaves behind is the storage after the
    three metadata writes. *)
Lemma failed_search_store sub ls input vquery :
  SearchHandler.searchInput sub = Some input ->
  Validator.validateQuery (trim input) (SearchHandler.selectedType sub)
  = Validator.Valid vquery ->
  SearchHandler.searchFailed sub ls = true ->
  fst (SearchHandler.handleSubmit sub ls)
  = snd (StorageManager.set (SearchHandler.accepts sub)
           (snd (StorageManager.set (SearchHandler.accepts sub)
                   (snd (StorageManager.set (SearchHandler.accepts sub) ls
                           CONFIG.STORAGE.QUERY_KEY (VStr vquery)))
                   CONFIG.STORAGE.TYPE_KEY (VStr (SearchHandler.selectedType sub))))
           CONFIG.STORAGE.TIMESTAMP_KEY (VStr (SearchHandler.timestamp sub))).
Proof.
  intros Hin Hval. unfold SearchHandler.searchFailed, SearchHandler.handleSubmit.
  rewrite Hin. cbv zeta. rewrite Hval.
  destruct (SearchHandler.trySearch sub _) as [ [ message | [] ] ls4 ] eqn:Etry.
  - intros _. simpl. apply (trySearch_thrown _ _ _ _ Etry).
  - simpl. discriminate.
Qed.

(** C10, as the source has it. After a submission that passed validation
    and then failed (the request threw, the response was not an object,
    its status was not "success", or the results could not be stored),
    the stored results are what they were before, and each of the three
    metadata keys whose write the browser accepted holds the new query's
    value. *)
Theorem failed_search_storage sub ls input vquery :
  SearchHandler.searchInput sub = Some input ->
  Validator.validateQuery (trim input) (SearchHandler.selectedType sub)
  = Validator.Valid vquery ->
  SearchHandler.searchFailed sub ls = true ->
  let accepts := SearchHandler.accepts sub in
  let type := SearchHandler.selectedType sub in
  let ls1 := snd (StorageManager.set accepts ls CONFIG.STORAGE.QUERY_KEY (VStr vquery)) in
  let ls2 := snd (StorageManager.set accepts ls1 CONFIG.STORAGE.TYPE_KEY (VStr type)) in
  let after := fst (SearchHandler.handleSubmit sub ls) in
  after !! CONFIG.STORAGE.RESULTS_KEY = ls !! CONFIG.STORAGE.RESULTS_KEY /\
  (accepts ls CONFIG.STORAGE.QUERY_KEY (JSON_stringify (VStr vquery)) = true ->
   after !! CONFIG.STORAGE.QUERY_KEY = Some (JSON_stringify (VStr vquery))) /\
  (accepts ls1 CONFIG.STORAGE.TYPE_KEY (JSON_stringify (VStr type)) = true ->
   after !! CONFIG.STORAGE.TYPE_KEY = Some (JSON_stringify (VStr type))) /\
  (accepts ls2 CONFIG.STORAGE.TIMESTAMP_KEY
     (JSON_stringify (VStr (SearchHandler.timestamp sub))) = true ->
   after !! CONFIG.STORAGE.TIMESTAMP_KEY
   = Some (JSON_stringify (VStr (SearchHandler.timestamp sub)))).
Proof.
  intros Hin Hval Hfail. cbv zeta.
  rewrite (failed_search_store sub ls input vquery Hin Hval Hfail).
  destruct storage_keys_distinct as (Drq & Drt & Drs & Dqt & Dqs & Dts).
  repeat split.
  - rewrite !set_lookup_other by congruence. reflexivity.
  - intros H. rewrite !set_lookup_other by congruence.
    apply set_lookup_accepted. exact H.
  - intros H. rewrite set_lookup_other by congruence.
    apply set_lookup_accepted. exact H.
  - intros H. apply set_lookup_accepted. exact H.
Qed.

Lemma failed_search_storage_witness :
  fst (SearchHandler.handleSubmit (offlineSearch roomy)
         {[ CONFIG.STORAGE.RESULTS_KEY := json "{'status':'success'}" ]})
  !! CONFIG.STORAGE.RESULTS_KEY
  = Some (json "{'status':'success'}").
Proof.
  rewrite (proj1 (failed_search_storage (offlineSearch roomy)
                    {[ CONFIG.STORAGE.RESULTS_KEY := json "{'status':'success'}" ]}
                    (js " example.com ") (js "example.com")
                    ltac:(reflexivity) ltac:(vm_compute; reflexivity)
                    ltac:(vm_compute; reflexivity))).
  vm_compute. reflexivity.
Defined.

(** C10 as claimed fails when the browser refuses the metadata writes, as
    it does when storage is full: the search fails, and the query key
    still holds the previous query. *)
Lemma failed_search_metadata_counterexample :
  let before : store := {[ CONFIG.STORAGE.QUERY_KEY := json "'old.example'" ]} in
  SearchHandler.searchFailed (offlineSearch full) before = true /\
  fst (SearchHandler.handleSubmit (offlineSearch full) before)
  !! CONFIG.STORAGE.QUERY_KEY
  = Some (json "'old.example'") /\
  fst (SearchHandler.handleSubmit (offlineSearch full) before)
  !! CONFIG.STORAGE.QUERY_KEY
  <> Some (JSON_stringify (VStr (js "example.com"))).
Proof.
  cbv zeta. split; [ vm_compute; reflexivity | ].
  split; [ vm_compute; reflexivity | ].
  vm_compute. intros H. discriminate H.
Qed.

End SearchStorage.

(** ** Patterns and the strings they match *)

Section RegexLanguage.
Variable icase : bool.

Lemma Pow_nil (L : jsstring -> Prop) n : L [] -> Pow L n [].
Proof.
  intros H. induction n as [ | n IH ]; [ reflexivity | ].
  exists [], []. auto.
Qed.

Lemma Pow_nil_inv (L : jsstring -> Prop) n : (0 < n)%nat -> Pow L n [] -> L [].
Proof.
  destruct n as [ | n ]; [ lia | ]. intros _ (s1 & s2 & E & H1 & _).
  symmetry in E. apply app_eq_nil in E as [-> _]. exact H1.
Qed.

Lemma Pow_pad (L : jsstring -> Prop) m n s :
  L [] -> (m <= n)%nat -> Pow L m s -> Pow L n s.
Proof.
  intros H0 Hmn. induction Hmn as [ | n _ IH ]; [ auto | ].
  intros H. exists [], s. auto.
Qed.

Lemma Pow_cons (L : jsstring -> Prop) n c s :
  Pow L n (c :: s) ->
  exists s1 s2 m, s = s1 ++ s2 /\ L (c :: s1) /\ Pow L m s2 /\
                  (S m <= n)%nat /\ (S m = n \/ L []).
Proof.
  induction n as [ | n IH ]; simpl; [ discriminate | ].
  intros (x & y & E & Hx & Hy). destruct x as [ | c' x ]; simpl in E.
  - subst y. destruct (IH Hy) as (s1 & s2 & m & -> & H1 & H2 & Hm & _).
    exists s1, s2, m. repeat split; auto.
  - injection E as <- ->. exists x, y, n. repeat split; auto.
Qed.

Lemma nullable_Lang pw nw r :
  plain r = true -> (nullable pw nw r = true <-> Lang icase r []).
Proof.
  induction r as [ | | neg items | a IHa b IHb | a IHa b IHb | a IHa | a IHa lo hi | ];
    simpl; intros Hp.
  - split; [ discriminate | tauto ].
  - tauto.
  - split; [ discriminate | intros (c & E & _); discriminate ].
  - apply andb_true_iff in Hp as [Ha Hb]. rewrite andb_true_iff, (IHa Ha), (IHb Hb).
    split.
    + intros [H1 H2]. exists [], []. auto.
    + intros (s1 & s2 & E & H1 & H2). symmetry in E.
      apply app_eq_nil in E as [-> ->]. auto.
  - apply andb_true_iff in Hp as [Ha Hb]. rewrite orb_true_iff, (IHa Ha), (IHb Hb).
    tauto.
  - split; [ intros _; exists 0%nat; reflexivity | reflexivity ].
  - rewrite andb_true_iff, orb_true_iff, Nat.leb_le, Nat.eqb_eq, (IHa Hp). split.
    + intros [Hle [-> | H0]].
      * exists 0%nat. split; [ lia | reflexivity ].
      * exists lo. split; [ lia | apply Pow_nil; exact H0 ].
    + intros (n & Hn & H). split; [ lia | ].
      destruct lo as [ | lo ]; [ auto | right ].
      apply (Pow_nil_inv _ n); [ lia | exact H ].
  - discriminate.
Qed.

Lemma deriv_Lang pw c r :
  plain r = true -> forall s, Lang icase (deriv icase pw c r) s <-> Lang icase r (c :: s).
Proof.
  induction r as [ | | neg items | a IHa b IHb | a IHa b IHb | a IHa | a IHa lo hi | ];
    simpl; intros Hp s.
  - tauto.
  - split; [ tauto | discriminate ].
  - destruct (setMatches icase neg items c) eqn:Em; simpl.
    + split; [ intros ->; eauto | intros (c' & E & _); injection E as _ Hs; exact Hs ].
    + split; [ tauto | intros (c' & E & H); injection E as Hc _; subst c'; congruence ].
  - apply andb_true_iff in Hp as [Ha Hb].
    assert (Hcat : (exists s1 s2, s = s1 ++ s2 /\ Lang icase (deriv icase pw c a) s1
                                  /\ Lang icase b s2)
                   <-> exists s1 s2, c :: s = s1 ++ s2 /\ s1 <> [] /\ Lang icase a s1
                                     /\ Lang icase b s2).
    { split.
      - intros (s1 & s2 & -> & H1 & H2). exists (c :: s1), s2.
        repeat split; [ discriminate | apply (IHa Ha); exact H1 | exact H2 ].
      - intros (s1 & s2 & E & Hne & H1 & H2). destruct s1 as [ | c' s1 ]; [ congruence | ].
        injection E as <- ->. exists s1, s2. repeat split; [ apply (IHa Ha); exact H1 | exact H2 ]. }
    destruct (nullable pw (isWordChar c) a) eqn:En; simpl.
    + rewrite Hcat, (IHb Hb). apply (nullable_Lang _ _ _ Ha) in En. split.
      * intros [ (s1 & s2 & E & _ & H1 & H2) | H ]; [ eauto | ].
        exists [], (c :: s). auto.
      * intros (s1 & s2 & E & H1 & H2). destruct s1 as [ | c' s1 ].
        -- right. simpl in E. subst s2. exact H2.
        -- left. exists (c' :: s1), s2. repeat split; auto.
    + rewrite Hcat. split.
      * intros (s1 & s2 & E & _ & H1 & H2). eauto.
      * intros (s1 & s2 & E & H1 & H2). exists s1, s2. repeat split; auto.
        intros ->. apply (nullable_Lang pw (isWordChar c) _ Ha) in H1. congruence.
  - apply andb_true_iff in Hp as [Ha Hb]. rewrite (IHa Ha), (IHb Hb). tauto.
  - split.
    + intros (s1 & s2 & -> & H1 & n & Hn). exists (S n), (c :: s1), s2.
      repeat split; [ apply (IHa Hp); exact H1 | exact Hn ].
    + intros (n & Hn). destruct (Pow_cons _ _ _ _ Hn) as (s1 & s2 & m & -> & H1 & H2 & _).
      exists s1, s2. repeat split; [ apply (IHa Hp); exact H1 | eauto ].
  - destruct hi as [ | hi ]; simpl.
    + split; [ tauto | ]. intros (n & Hn & H). assert (n = 0%nat) as -> by lia.
      discriminate H.
    + split.
      * intros (s1 & s2 & -> & H1 & n & Hn & H2). exists (S n). split; [ lia | ].
        exists (c :: s1), s2. repeat split; [ apply (IHa Hp); exact H1 | exact H2 ].
      * intros (n & Hn & H).
        destruct (Pow_cons _ _ _ _ H) as (s1 & s2 & m & -> & H1 & H2 & Hm & Hpad).
        exists s1, s2. repeat split; [ apply (IHa Hp); exact H1 | ].
        destruct Hpad as [ <- | H0 ].
        -- exists m. split; [ lia | exact H2 ].
        -- exists (Nat.max m (pred lo)). split; [ lia | ].
           apply (Pow_pad _ m); [ exact H0 | lia | exact H2 ].
  - discriminate.
Qed.

Lemma plain_deriv pw c r : plain r = true -> plain (deriv icase pw c r) = true.
Proof.
  induction r as [ | | neg items | a IHa b IHb | a IHa b IHb | a IHa | a IHa lo hi | ];
    simpl; intros Hp; try reflexivity; try discriminate.
  - destruct (setMatches icase neg items c); reflexivity.
  - apply andb_true_iff in Hp as [Ha Hb].
    destruct (nullable pw (isWordChar c) a); simpl;
      rewrite ?(IHa Ha), ?(IHb Hb), ?Hb; reflexivity.
  - apply andb_true_iff in Hp as [Ha Hb]. rewrite (IHa Ha), (IHb Hb). reflexivity.
  - rewrite (IHa Hp), Hp. reflexivity.
  - destruct hi; simpl; [ reflexivity | ]. rewrite (IHa Hp), Hp. reflexivity.
Qed.

Lemma matches_Lang s :
  forall pw r, plain r = true -> (matches icase pw r s = true <-> Lang icase r s).
Proof.
  induction s as [ | c s IH ]; intros pw r Hp; simpl.
  - apply nullable_Lang. exact Hp.
  - rewrite (IH _ _ (plain_deriv pw c r Hp)). apply deriv_Lang. exact Hp.
Qed.

End RegexLanguage.

(** ** The IP pattern and dotted quads *)

Section DottedQuad.
Import App.

Lemma Lang_set_intro ic neg items c :
  setMatches ic neg items c = true -> Lang ic (RSet neg items) [c].
Proof. intros H. exists c. auto. Qed.

Lemma Lang_cat_intro ic a b s1 s2 :
  Lang ic a s1 -> Lang ic b s2 -> Lang ic (RCat a b) (s1 ++ s2).
Proof. intros H1 H2. exists s1, s2. auto. Qed.

Lemma Lang_opt ic r s : Lang ic (ROpt r) s <-> s = [] \/ Lang ic r s.
Proof.
  unfold ROpt. simpl. split.
  - intros (n & Hn & H). destruct n as [ | [ | n ] ]; [ left; exact H | right | lia ].
    destruct H as (s1 & s2 & -> & H1 & ->). rewrite app_nil_r. exact H1.
  - intros [ -> | H ].
    + exists 0%nat. split; [ lia | reflexivity ].
    + exists 1%nat. split; [ lia | ]. exists s, []. rewrite app_nil_r.
      repeat split. exact H.
Qed.

Lemma range_match lo hi c :
  setMatches false false [CRange lo hi] c = true <-> lo <= c <= hi.
Proof.
  unfold setMatches. simpl. rewrite !orb_false_r, andb_true_iff, !N.leb_le. tauto.
Qed.

Lemma char_match x c : setMatches false false [CChar x] c = true <-> c = x.
Proof. unfold setMatches. simpl. rewrite !orb_false_r, N.eqb_eq. tauto. Qed.

Lemma zero_one_match c :
  setMatches false false [CChar 48; CChar 49] c = true <-> c = 48 \/ c = 49.
Proof.
  unfold setMatches. simpl. rewrite !orb_false_r, orb_true_iff, !N.eqb_eq. tauto.
Qed.

Lemma octet_eq :
  CONFIG.PATTERNS.octet
  = RAlt (RCat (RSet false [CChar 50])
            (RCat (RSet false [CChar 53]) (RSet false [CRange 48 53])))
      (RAlt (RCat (RSet false [CChar 50])
               (RCat (RSet false [CRange 48 52]) digitSet))
         (RCat (ROpt (RSet false [CChar 48; CChar 49]))
            (RCat digitSet (ROpt digitSet)))).
Proof. reflexivity. Qed.

Lemma isDigit_range c : isDigit c = true <-> 48 <= c <= 57.
Proof. unfold isDigit. rewrite andb_true_iff, !N.leb_le. tauto. Qed.

Lemma forallb_isDigit w :
  forallb isDigit w = true <-> Forall (fun c => 48 <= c <= 57) w.
Proof.
  induction w as [ | c w IH ]; simpl.
  - split; [ constructor | reflexivity ].
  - rewrite andb_true_iff, isDigit_range, IH, Forall_cons_iff. tauto.
Qed.

Lemma isOctet_spec w :
  isOctet w = true <->
  (1 <= length w <= 3)%nat /\ Forall (fun c => 48 <= c <= 57) w /\ (digitsValue w <= 255)%Z.
Proof.
  unfold isOctet. rewrite !andb_true_iff, !Nat.leb_le, Z.leb_le, forallb_isDigit. tauto.
Qed.

Ltac digits_bounds :=
  repeat match goal with
    | H : Forall _ (_ :: _) |- _ => apply Forall_cons_iff in H; destruct H
    | H : Forall _ [] |- _ => clear H
    | H : setMatches false false [CRange _ _] _ = true |- _ => apply range_match in H
    | H : setMatches false false [CChar _] _ = true |- _ => apply char_match in H
    | H : setMatches false false [CChar 48; CChar 49] _ = true |- _ =>
        apply zero_one_match in H
    end.

Lemma Lang_octet w : Lang false CONFIG.PATTERNS.octet w <-> isOctet w = true.
Proof.
  rewrite octet_eq, isOctet_spec. split.
  - intros [ H | [ H | H ] ].
    + destruct H as (s1 & s2 & -> & (a & -> & Ha) & t1 & t2 & -> & (b & -> & Hb)
                     & (c & -> & Hc)).
      digits_bounds. subst. simpl. unfold digitsValue. simpl.
      repeat split; try lia. repeat constructor; lia.
    + destruct H as (s1 & s2 & -> & (a & -> & Ha) & t1 & t2 & -> & (b & -> & Hb)
                     & (c & -> & Hc)).
      digits_bounds. subst. simpl. unfold digitsValue. simpl.
      repeat split; try lia. repeat constructor; lia.
    + destruct H as (s1 & s2 & -> & Hpre & t1 & t2 & -> & (d & -> & Hd) & Hpost).
      apply Lang_opt in Hpre. apply Lang_opt in Hpost.
      destruct Hpre as [ -> | (a & -> & Ha) ]; destruct Hpost as [ -> | (c & -> & Hc) ];
        digits_bounds; simpl; unfold digitsValue; simpl;
        repeat split; try lia; repeat constructor; lia.
  - intros (Hlen & Hd & Hv).
    destruct w as [ | a [ | b [ | c [ | d w ] ] ] ]; simpl in Hlen; try lia;
      digits_bounds; unfold digitsValue in Hv; simpl in Hv.
    + right. right. apply (Lang_cat_intro false _ _ [] [a]); [ apply Lang_opt; auto | ].
      apply (Lang_cat_intro false _ _ [a] []); [ | apply Lang_opt; auto ].
      apply Lang_set_intro, range_match. lia.
    + right. right. apply (Lang_cat_intro false _ _ [] [a; b]); [ apply Lang_opt; auto | ].
      apply (Lang_cat_intro false _ _ [a] [b]).
      * apply Lang_set_intro, range_match. lia.
      * apply Lang_opt. right. apply Lang_set_intro, range_match. lia.
    + destruct (N.eq_dec a 50) as [ -> | Ha ].
      * destruct (N.eq_dec b 53) as [ -> | Hb ].
        -- left. apply (Lang_cat_intro false _ _ [50] [53; c]);
             [ apply Lang_set_intro, char_match; reflexivity | ].
           apply (Lang_cat_intro false _ _ [53] [c]);
             [ apply Lang_set_intro, char_match; reflexivity | ].
           apply Lang_set_intro, range_match. lia.
        -- right. left. apply (Lang_cat_intro false _ _ [50] [b; c]);
             [ apply Lang_set_intro, char_match; reflexivity | ].
           apply (Lang_cat_intro false _ _ [b] [c]);
             apply Lang_set_intro, range_match; lia.
      * right. right. apply (Lang_cat_intro false _ _ [a] [b; c]).
        -- apply Lang_opt. right. apply Lang_set_intro, zero_one_match. lia.
        -- apply (Lang_cat_intro false _ _ [b] [c]).
           ++ apply Lang_set_intro, range_match. lia.
           ++ apply Lang_opt. right. apply Lang_set_intro, range_match. lia.
Qed.

Lemma Lang_octet_dot x :
  Lang false (RCat CONFIG.PATTERNS.octet (RChr ".")) x
  <-> exists o, x = o ++ [46] /\ isOctet o = true.
Proof.
  split.
  - intros (o & t & -> & Ho & c & -> & Hc). apply char_match in Hc. subst c.
    exists o. split; [ reflexivity | apply Lang_octet; exact Ho ].
  - intros (o & -> & Ho). apply Lang_cat_intro; [ apply Lang_octet; exact Ho | ].
    apply Lang_set_intro, char_match. reflexivity.
Qed.

Lemma Lang_IP s :
  Lang false (source CONFIG.PATTERNS.IP) s
  <-> exists a b c d, s = a ++ 46 :: b ++ 46 :: c ++ 46 :: d /\
                      isOctet a = true /\ isOctet b = true /\
                      isOctet c = true /\ isOctet d = true.
Proof.
  change (source CONFIG.PATTERNS.IP)
    with (RCat (RRep (RCat CONFIG.PATTERNS.octet (RChr ".")) 3 3) CONFIG.PATTERNS.octet).
  split.
  - intros (s1 & d & -> & (n & Hn & Hp) & Hd). assert (n = 3%nat) as -> by lia.
    destruct Hp as (x1 & r1 & -> & H1 & x2 & r2 & -> & H2 & x3 & r3 & -> & H3 & ->).
    apply Lang_octet_dot in H1 as (a & -> & Ha).
    apply Lang_octet_dot in H2 as (b & -> & Hb).
    apply Lang_octet_dot in H3 as (c & -> & Hc).
    apply Lang_octet in Hd. exists a, b, c, d.
    split; [ | auto ]. rewrite <- !app_assoc. reflexivity.
  - intros (a & b & c & d & -> & Ha & Hb & Hc & Hd).
    replace (a ++ 46 :: b ++ 46 :: c ++ 46 :: d)
      with (((a ++ [46]) ++ (b ++ [46]) ++ (c ++ [46]) ++ []) ++ d)
      by (rewrite <- !app_assoc; reflexivity).
    apply Lang_cat_intro; [ | apply Lang_octet; exact Hd ].
    exists 3%nat. split; [ lia | ].
    exists (a ++ [46]), ((b ++ [46]) ++ (c ++ [46]) ++ []).
    split; [ reflexivity | split; [ apply Lang_octet_dot; eauto | ] ].
    exists (b ++ [46]), ((c ++ [46]) ++ []).
    split; [ reflexivity | split; [ apply Lang_octet_dot; eauto | ] ].
    exists (c ++ [46]), [].
    split; [ reflexivity | split; [ apply Lang_octet_dot; eauto | reflexivity ] ].
Qed.

Lemma test_IP s :
  test CONFIG.PATTERNS.IP s = true
  <-> exists a b c d, s = a ++ 46 :: b ++ 46 :: c ++ 46 :: d /\
                      isOctet a = true /\ isOctet b = true /\
                      isOctet c = true /\ isOctet d = true.
Proof.
  unfold test. rewrite <- Lang_IP. apply matches_Lang. reflexivity.
Qed.

Lemma splitOn_cons sep s : exists p ps, splitOn sep s = p :: ps.
Proof.
  destruct s as [ | c r ]; simpl; [ eauto | ].
  destruct (c =? sep); [ eauto | ]. destruct (splitOn sep r); eauto.
Qed.

Lemma join_splitOn sep s : join [sep] (splitOn sep s) = s.
Proof.
  induction s as [ | c r IH ]; [ reflexivity | ]. simpl.
  destruct (splitOn_cons sep r) as (p & ps & E). rewrite E in *.
  destruct (N.eqb_spec c sep) as [ -> | Hne ].
  - change (join [sep] ([] :: p :: ps)) with ([] ++ [sep] ++ join [sep] (p :: ps)).
    rewrite IH. reflexivity.
  - destruct ps as [ | q ps ]; simpl in *; rewrite IH; reflexivity.
Qed.

Lemma splitOn_app sep o rest :
  Forall (fun c => c <> sep) o ->
  splitOn sep (o ++ sep :: rest) = o :: splitOn sep rest.
Proof.
  induction 1 as [ | c o Hc _ IH ]; simpl.
  - rewrite N.eqb_refl. reflexivity.
  - destruct (N.eqb_spec c sep); [ contradiction | ]. rewrite IH. reflexivity.
Qed.

Lemma splitOn_single sep o : Forall (fun c => c <> sep) o -> splitOn sep o = [o].
Proof.
  induction 1 as [ | c o Hc _ IH ]; simpl; [ reflexivity | ].
  destruct (N.eqb_spec c sep); [ contradiction | ]. rewrite IH. reflexivity.
Qed.

Lemma isOctet_no_dot o : isOctet o = true -> Forall (fun c => c <> 46) o.
Proof.
  intros H. apply isOctet_spec in H as (_ & H & _).
  induction H; constructor; [ lia | assumption ].
Qed.

Lemma isOctet_length o : isOctet o = true -> (1 <= length o <= 3)%nat.
Proof. intros H. apply isOctet_spec in H. tauto. Qed.

Lemma isDottedQuad_spec s :
  isDottedQuad s = true
  <-> exists a b c d, s = a ++ 46 :: b ++ 46 :: c ++ 46 :: d /\
                      isOctet a = true /\ isOctet b = true /\
                      isOctet c = true /\ isOctet d = true.
Proof.
  unfold isDottedQuad. split.
  - intros H. pose proof (join_splitOn 46 s) as Hj.
    destruct (splitOn 46 s) as [ | a [ | b [ | c [ | d [ | ] ] ] ] ]; try discriminate.
    apply andb_true_iff in H as [H Hd]. apply andb_true_iff in H as [H Hc].
    apply andb_true_iff in H as [Ha Hb].
    exists a, b, c, d. split; [ rewrite <- Hj; reflexivity | auto ].
  - intros (a & b & c & d & -> & Ha & Hb & Hc & Hd).
    rewrite (splitOn_app 46 a) by (apply isOctet_no_dot; exact Ha).
    rewrite (splitOn_app 46 b) by (apply isOctet_no_dot; exact Hb).
    rewrite (splitOn_app 46 c) by (apply isOctet_no_dot; exact Hc).
    rewrite (splitOn_single 46 d) by (apply isOctet_no_dot; exact Hd).
    rewrite Ha, Hb, Hc, Hd. reflexivity.
Qed.

Lemma isDottedQuad_length s : isDottedQuad s = true -> (7 <= length s <= 15)%nat.
Proof.
  intros H. apply isDottedQuad_spec in H as (a & b & c & d & -> & Ha & Hb & Hc & Hd).
  apply isOctet_length in Ha, Hb, Hc, Hd.
  repeat (rewrite length_app; simpl). lia.
Qed.

(** C4. With type "ip" a query is accepted exactly when its trimmed form
    is a dotted quad: four octets separated by dots, each one to three
    decimal digits denoting a number from 0 to 255. *)
Theorem validateQuery_ip_dotted_quad (q : jsstring) :
  Validator.valid (Validator.validateQuery q (js "ip")) = true
  <-> isDottedQuad (trim q) = true.
Proof.
  destruct q as [ | c r ]; [ split; discriminate | ].
  unfold Validator.validateQuery. cbv zeta.
  set (t := trim (c :: r)).
  change (jsstring_eqb (js "ip") (js "auto")) with false.
  change (CONFIG.PATTERNS.lookup (toUpperCase (js "ip"))) with (Some CONFIG.PATTERNS.IP).
  cbv iota.
  destruct (Nat.eqb_spec (length t) 0) as [ E0 | E0 ].
  - split; [ discriminate | ]. intros H. apply isDottedQuad_length in H. lia.
  - destruct (Nat.ltb_spec 500 (length t)) as [ E5 | E5 ].
    + split; [ discriminate | ]. intros H. apply isDottedQuad_length in H. lia.
    + rewrite isDottedQuad_spec, <- test_IP.
      destruct (test CONFIG.PATTERNS.IP t); simpl; split; auto; discriminate.
Qed.

End DottedQuad.

(** ** JSON: strings *)

Section JsonStrings.

Lemma hexVal_hexDigit d : d < 16 -> hexVal (hexDigit d) = Some d.
Proof.
  intros Hd. unfold hexVal, hexDigit, isDigit.
  destruct (N.ltb_spec d 10) as [ H | H ].
  - replace ((48 <=? 48 + d) && (48 + d <=? 57)) with true
      by (symmetry; apply andb_true_iff; rewrite !N.leb_le; lia).
    f_equal. lia.
  - replace ((48 <=? 87 + d) && (87 + d <=? 57)) with false
      by (symmetry; apply andb_false_iff; right; apply N.leb_gt; lia).
    replace ((97 <=? 87 + d) && (87 + d <=? 102)) with true
      by (symmetry; apply andb_true_iff; rewrite !N.leb_le; lia).
    f_equal. lia.
Qed.

Lemma hex_digits c :
  c < 65536 ->
  4096 * ((c / 4096) mod 16) + 256 * ((c / 256) mod 16) + 16 * ((c / 16) mod 16)
  + c mod 16 = c.
Proof.
  intros Hc.
  assert (E1 : c / 256 = c / 16 / 16) by (rewrite N.Div0.div_div; reflexivity).
  assert (E2 : c / 4096 = c / 256 / 16) by (rewrite N.Div0.div_div; reflexivity).
  assert (E3 : (c / 4096) mod 16 = c / 4096).
  { apply N.mod_small. apply N.Div0.div_lt_upper_bound. exact Hc. }
  pose proof (N.div_mod c 16 ltac:(discriminate)) as D1.
  pose proof (N.div_mod (c / 16) 16 ltac:(discriminate)) as D2.
  pose proof (N.div_mod (c / 256) 16 ltac:(discriminate)) as D3.
  rewrite E3. rewrite <- E1 in D2. rewrite <- E2 in D3.
  generalize dependent (c / 4096). generalize dependent (c / 256).
  generalize dependent (c / 16). intros. lia.
Qed.

Lemma parseChars_unicode c r :
  c < 65536 -> parseChars (unicodeEscape c ++ r) = consTo c (parseChars r).
Proof.
  intros Hc.
  change (unicodeEscape c ++ r)
    with (92 :: 117 :: hexDigit ((c / 4096) mod 16) :: hexDigit ((c / 256) mod 16)
             :: hexDigit ((c / 16) mod 16) :: hexDigit (c mod 16) :: r).
  cbn [parseChars]. change (92 =? 34) with false. change (92 =? 92) with true.
  change (117 =? ch "u") with true. cbv iota.
  unfold hex4Val. rewrite !hexVal_hexDigit by (apply N.mod_lt; discriminate).
  f_equal. f_equal. apply hex_digits. exact Hc.
Qed.

Lemma parseChars_escape e u r :
  unescape e = Some u -> e <> 117 ->
  parseChars (92 :: e :: r) = consTo u (parseChars r).
Proof.
  intros Hu He. cbn [parseChars]. change (92 =? 34) with false.
  change (92 =? 92) with true. cbv iota. change (ch "u") with 117.
  destruct (N.eqb_spec e 117); [ contradiction | ]. rewrite Hu. reflexivity.
Qed.

Lemma parseChars_plain c r :
  c <> 34 -> c <> 92 -> 32 <= c -> parseChars (c :: r) = consTo c (parseChars r).
Proof.
  intros H1 H2 H3. cbn [parseChars].
  destruct (N.eqb_spec c 34); [ contradiction | ].
  destruct (N.eqb_spec c 92); [ contradiction | ].
  destruct (N.ltb_spec c 32); [ lia | ]. reflexivity.
Qed.

Lemma quoteUnits_cons c r :
  quoteUnits (c :: r)
  = if c =? 8 then [92; 98] ++ quoteUnits r
    else if c =? 9 then [92; 116] ++ quoteUnits r
    else if c =? 10 then [92; 110] ++ quoteUnits r
    else if c =? 12 then [92; 102] ++ quoteUnits r
    else if c =? 13 then [92; 114] ++ quoteUnits r
    else if c =? 34 then [92; 34] ++ quoteUnits r
    else if c =? 92 then [92; 92] ++ quoteUnits r
    else if c <? 32 then unicodeEscape c ++ quoteUnits r
    else if isLeadingSurrogate c then
      match r with
      | l :: r' =>
          if isTrailingSurrogate l then c :: l :: quoteUnits r'
          else unicodeEscape c ++ quoteUnits r
      | [] => unicodeEscape c
      end
    else if isTrailingSurrogate c then unicodeEscape c ++ quoteUnits r
    else c :: quoteUnits r.
Proof. reflexivity. Qed.

Lemma parseChars_quoteUnits_bounded n :
  forall s rest, (length s <= n)%nat ->
                 parseChars (quoteUnits s ++ 34 :: rest) = Some (s, rest).
Proof.
  induction n as [ | n IH ]; intros s rest Hlen.
  - destruct s; [ reflexivity | simpl in Hlen; lia ].
  - destruct s as [ | c r ]; [ reflexivity | ]. simpl in Hlen.
    assert (IHr : parseChars (quoteUnits r ++ 34 :: rest) = Some (r, rest))
      by (apply IH; lia).
    rewrite quoteUnits_cons.
    destruct (N.eqb_spec c 8) as [ -> | ? ];
      [ cbn [app]; rewrite (parseChars_escape 98 8), IHr by (reflexivity || discriminate);
        reflexivity | ].
    destruct (N.eqb_spec c 9) as [ -> | ? ];
      [ cbn [app]; rewrite (parseChars_escape 116 9), IHr by (reflexivity || discriminate);
        reflexivity | ].
    destruct (N.eqb_spec c 10) as [ -> | ? ];
      [ cbn [app]; rewrite (parseChars_escape 110 10), IHr by (reflexivity || discriminate);
        reflexivity | ].
    destruct (N.eqb_spec c 12) as [ -> | ? ];
      [ cbn [app]; rewrite (parseChars_escape 102 12), IHr by (reflexivity || discriminate);
        reflexivity | ].
    destruct (N.eqb_spec c 13) as [ -> | ? ];
      [ cbn [app]; rewrite (parseChars_escape 114 13), IHr by (reflexivity || discriminate);
        reflexivity | ].
    destruct (N.eqb_spec c 34) as [ -> | ? ];
      [ cbn [app]; rewrite (parseChars_escape 34 34), IHr by (reflexivity || discriminate);
        reflexivity | ].
    destruct (N.eqb_spec c 92) as [ -> | ? ];
      [ cbn [app]; rewrite (parseChars_escape 92 92), IHr by (reflexivity || discriminate);
        reflexivity | ].
    destruct (N.ltb_spec c 32) as [ Hlow | Hlow ];
      [ rewrite <- app_assoc, parseChars_unicode, IHr by lia; reflexivity | ].
    unfold isLeadingSurrogate, isTrailingSurrogate.
    destruct (N.leb_spec 55296 c) as [ Hl1 | Hl1 ];
      destruct (N.leb_spec c 56319) as [ Hl2 | Hl2 ]; cbn [andb].
    + destruct r as [ | l r' ].
      * rewrite parseChars_unicode by lia. reflexivity.
      * destruct (N.leb_spec 56320 l) as [ Ht1 | Ht1 ];
          destruct (N.leb_spec l 57343) as [ Ht2 | Ht2 ]; cbn [andb].
        -- cbn [app]. rewrite parseChars_plain by lia. rewrite parseChars_plain by lia.
           rewrite (IH r' rest) by (simpl in Hlen; lia). reflexivity.
        -- rewrite <- app_assoc, parseChars_unicode, IHr by lia. reflexivity.
        -- rewrite <- app_assoc, parseChars_unicode, IHr by lia. reflexivity.
        -- rewrite <- app_assoc, parseChars_unicode, IHr by lia. reflexivity.
    + destruct (N.leb_spec 56320 c); destruct (N.leb_spec c 57343); cbn [andb].
      * rewrite <- app_assoc, parseChars_unicode, IHr by lia. reflexivity.
      * cbn [app]. rewrite parseChars_plain, IHr by lia. reflexivity.
      * lia.
      * lia.
    + destruct (N.leb_spec 56320 c); [ lia | ]. cbn [andb app].
      rewrite parseChars_plain, IHr by lia. reflexivity.
    + lia.
Qed.

Lemma parseChars_quoteUnits s rest :
  parseChars (quoteUnits s ++ 34 :: rest) = Some (s, rest).
Proof. apply (parseChars_quoteUnits_bounded (length s)). lia. Qed.

End JsonStrings.

(** ** JSON: numbers *)

Section JsonNumbers.

Lemma valueEnd_head c rest : valueEnd (c :: rest) = true -> c = 44 \/ c = 93 \/ c = 125.
Proof.
  unfold valueEnd. rewrite !orb_true_iff, !N.eqb_eq. tauto.
Qed.

Lemma takeDigits_app s ds r rest :
  takeDigits s = (ds, r) -> valueEnd rest = true ->
  takeDigits (s ++ rest) = (ds, r ++ rest).
Proof.
  revert ds r. induction s as [ | c s IH ]; intros ds r; simpl.
  - intros [= <- <-] Hend. destruct rest as [ | c rest ]; [ reflexivity | ].
    apply valueEnd_head in Hend. simpl. unfold isDigit.
    destruct (N.leb_spec 48 c); destruct (N.leb_spec c 57); simpl; try reflexivity; lia.
  - destruct (isDigit c).
    + destruct (takeDigits s) as [ ds' r' ]. intros [= <- <-] Hend.
      rewrite (IH ds' r' eq_refl Hend). reflexivity.
    + intros [= <- <-] _. reflexivity.
Qed.

Lemma lexInt_app s t r rest :
  lexInt s = Some (t, r) -> valueEnd rest = true ->
  lexInt (s ++ rest) = Some (t, r ++ rest).
Proof.
  unfold lexInt. destruct s as [ | c s ]; cbn [app]; [ discriminate | ].
  destruct (c =? 48); [ intros [= <- <-] _; reflexivity | ].
  destruct (isDigit c); [ | discriminate ].
  destruct (takeDigits s) as [ ds r' ] eqn:E. intros [= <- <-] Hend.
  rewrite (takeDigits_app _ _ _ _ E Hend). reflexivity.
Qed.

Lemma lexFrac_app s t r rest :
  lexFrac s = Some (t, r) -> valueEnd rest = true ->
  lexFrac (s ++ rest) = Some (t, r ++ rest).
Proof.
  unfold lexFrac. change (ch ".") with 46. destruct s as [ | c s ]; cbn [app].
  - intros [= <- <-] Hend. destruct rest as [ | c rest ]; [ reflexivity | ].
    apply valueEnd_head in Hend.
    destruct (N.eqb_spec c 46); [ lia | reflexivity ].
  - destruct (c =? 46); [ | intros [= <- <-] _; reflexivity ].
    destruct (takeDigits s) as [ ds r' ] eqn:E. intros H Hend.
    rewrite (takeDigits_app _ _ _ _ E Hend).
    destruct ds; [ discriminate | ]. injection H as <- <-. reflexivity.
Qed.

Lemma lexExpSign_app s sg r rest :
  lexExpSign s = (sg, r) -> valueEnd rest = true ->
  lexExpSign (s ++ rest) = (sg, r ++ rest).
Proof.
  unfold lexExpSign. change (ch "+") with 43. change (ch "-") with 45.
  destruct s as [ | d s ]; cbn [app].
  - intros [= <- <-] Hend. destruct rest as [ | c rest ]; [ reflexivity | ].
    apply valueEnd_head in Hend.
    destruct (N.eqb_spec c 43); [ lia | ]. destruct (N.eqb_spec c 45); [ lia | ].
    reflexivity.
  - destruct ((d =? 43) || (d =? 45)); intros [= <- <-] _; reflexivity.
Qed.

Lemma lexExp_app s t r rest :
  lexExp s = Some (t, r) -> valueEnd rest = true ->
  lexExp (s ++ rest) = Some (t, r ++ rest).
Proof.
  unfold lexExp. change (ch "e") with 101. change (ch "E") with 69.
  destruct s as [ | c s ]; cbn [app].
  - intros [= <- <-] Hend. destruct rest as [ | c rest ]; [ reflexivity | ].
    apply valueEnd_head in Hend.
    destruct (N.eqb_spec c 101); [ lia | ]. destruct (N.eqb_spec c 69); [ lia | ].
    reflexivity.
  - destruct ((c =? 101) || (c =? 69)); [ | intros [= <- <-] _; reflexivity ].
    destruct (lexExpSign s) as [ sg r1 ] eqn:Es.
    destruct (takeDigits r1) as [ ds r' ] eqn:E. intros H Hend.
    rewrite (lexExpSign_app _ _ _ _ Es Hend), (takeDigits_app _ _ _ _ E Hend).
    destruct ds; [ discriminate | ]. injection H as <- <-. reflexivity.
Qed.

Lemma lexMinus_app s sg r rest :
  lexMinus s = (sg, r) -> s <> [] -> lexMinus (s ++ rest) = (sg, r ++ rest).
Proof.
  unfold lexMinus. change (ch "-") with 45.
  destruct s as [ | c s ]; cbn [app]; [ congruence | ].
  destruct (c =? 45); intros [= <- <-] _; reflexivity.
Qed.

Lemma lexNumber_nonempty s t r : lexNumber s = Some (t, r) -> s <> [].
Proof. intros H ->. discriminate H. Qed.

Lemma lexNumber_app s t r rest :
  lexNumber s = Some (t, r) -> valueEnd rest = true ->
  lexNumber (s ++ rest) = Some (t, r ++ rest).
Proof.
  intros H Hend. pose proof (lexNumber_nonempty _ _ _ H) as Hne.
  unfold lexNumber in *.
  destruct (lexMinus s) as [ sg s1 ] eqn:Em.
  rewrite (lexMinus_app _ _ _ rest Em Hne).
  destruct (lexInt s1) as [ [ ip s2 ] | ] eqn:Ei; [ | discriminate ].
  rewrite (lexInt_app _ _ _ _ Ei Hend).
  destruct (lexFrac s2) as [ [ fp s3 ] | ] eqn:Ef; [ | discriminate ].
  rewrite (lexFrac_app _ _ _ _ Ef Hend).
  destruct (lexExp s3) as [ [ ep s4 ] | ] eqn:Ee; [ | discriminate ].
  rewrite (lexExp_app _ _ _ _ Ee Hend).
  injection H as <- <-. reflexivity.
Qed.

(** A number token starts with a minus sign or a digit. *)
Lemma lexNumber_head s t r :
  lexNumber s = Some (t, r) ->
  exists c s', s = c :: s' /\ (c = 45 \/ 48 <= c <= 57).
Proof.
  unfold lexNumber. destruct s as [ | c s ]; [ discriminate | ].
  intros H. exists c, s. split; [ reflexivity | ].
  unfold lexMinus in H. change (ch "-") with 45 in H.
  destruct (N.eqb_spec c 45) as [ | Hc ]; [ auto | right ].
  unfold lexInt in H.
  destruct (N.eqb_spec c 48); [ lia | ].
  unfold isDigit in H.
  destruct (N.leb_spec 48 c); destruct (N.leb_spec c 57); simpl in H;
    try lia; discriminate.
Qed.

Lemma numberRoundTrips_spec x :
  numberRoundTrips x = true ->
  is_finite x = true /\
  lexNumber (NumberToString x) = Some (NumberToString x, []) /\
  StringToNumber (NumberToString x) = x.
Proof.
  unfold numberRoundTrips. rewrite !andb_true_iff, bool_decide_eq_true.
  intros [[H1 H2] H3]. apply FloatAxioms.Leibniz.eqb_spec in H3. auto.
Qed.

End JsonNumbers.

(** ** JSON: parsing what stringify wrote *)

Section JsonRoundTrip.

Lemma value_ind' (P : value -> Prop) :
  P VNull -> (forall b, P (VBool b)) -> (forall x, P (VNum x)) -> (forall s, P (VStr s)) ->
  (forall elems, Forall P elems -> P (VArr elems)) ->
  (forall props, Forall (fun p => P (snd p)) props -> P (VObj props)) ->
  forall v, P v.
Proof.
  intros Hnull Hbool Hnum Hstr Harr Hobj.
  fix IH 1. intros [ | b | x | s | elems | props ].
  - exact Hnull.
  - apply Hbool.
  - apply Hnum.
  - apply Hstr.
  - apply Harr. induction elems as [ | e elems IHe ]; constructor; [ apply IH | exact IHe ].
  - apply Hobj. induction props as [ | [k e] props IHp ]; constructor;
      [ apply IH | exact IHp ].
Qed.

Lemma parseValue_S f s :
  parseValue (S f) s
  = match skipWs s with
    | [] => None
    | c :: r =>
        if c =? 123 then
          match skipWs r with
          | c' :: r' =>
              if c' =? 125 then Some (VObj [], r') else parseMembers f (c' :: r') []
          | [] => None
          end
        else if c =? 91 then
          match skipWs r with
          | c' :: r' =>
              if c' =? 93 then Some (VArr [], r') else parseElements f (c' :: r') []
          | [] => None
          end
        else if c =? 34 then
          match parseChars r with
          | Some (str, rest) => Some (VStr str, rest)
          | None => None
          end
        else if c =? 116 then literal [116; 114; 117; 101] (VBool true) (c :: r)
        else if c =? 102 then literal [102; 97; 108; 115; 101] (VBool false) (c :: r)
        else if c =? 110 then literal [110; 117; 108; 108] VNull (c :: r)
        else
          match lexNumber (c :: r) with
          | Some (tok, rest) => Some (VNum (StringToNumber tok), rest)
          | None => None
          end
    end.
Proof. reflexivity. Qed.

Lemma parseElements_S f s acc :
  parseElements (S f) s acc
  = match parseValue f s with
    | Some (v, r) =>
        match skipWs r with
        | c :: r' =>
            if c =? 44 then parseElements f r' (acc ++ [v])
            else if c =? 93 then Some (VArr (acc ++ [v]), r')
            else None
        | [] => None
        end
    | None => None
    end.
Proof. reflexivity. Qed.

Lemma parseMembers_S f s acc :
  parseMembers (S f) s acc
  = match skipWs s with
    | q :: r0 =>
        if q =? 34 then
          match parseChars r0 with
          | Some (k, r1) =>
              match skipWs r1 with
              | colon :: r2 =>
                  if colon =? 58 then
                    match parseValue f r2 with
                    | Some (v, r3) =>
                        match skipWs r3 with
                        | c :: r4 =>
                            if c =? 44 then parseMembers f r4 (setProp k v acc)
                            else if c =? 125 then Some (VObj (setProp k v acc), r4)
                            else None
                        | [] => None
                        end
                    | None => None
                    end
                  else None
              | [] => None
              end
          | None => None
          end
        else None
    | [] => None
    end.
Proof. reflexivity. Qed.

Lemma skipWs_head c r :
  c <> 32 -> c <> 9 -> c <> 10 -> c <> 13 -> skipWs (c :: r) = c :: r.
Proof.
  intros H1 H2 H3 H4. cbn [skipWs]. unfold isJsonWs.
  destruct (N.eqb_spec c 32); [ contradiction | ].
  destruct (N.eqb_spec c 9); [ contradiction | ].
  destruct (N.eqb_spec c 10); [ contradiction | ].
  destruct (N.eqb_spec c 13); [ contradiction | ]. reflexivity.
Qed.

Ltac pick_head :=
  repeat match goal with |- _ \/ _ => (left; reflexivity) || right end.

Lemma stringify_head v :
  serializable v = true -> exists c t, JSON_stringify v = c :: t /\ valueHead c.
Proof.
  unfold valueHead. destruct v as [ | [ | ] | x | s | elems | props ]; intros Hs.
  - exists 110, [117; 108; 108]. split; [ reflexivity | pick_head ].
  - exists 116, [114; 117; 101]. split; [ reflexivity | pick_head ].
  - exists 102, [97; 108; 115; 101]. split; [ reflexivity | pick_head ].
  - apply numberRoundTrips_spec in Hs as (Hf & Hl & _). cbn [JSON_stringify]. rewrite Hf.
    destruct (lexNumber_head _ _ _ Hl) as (c & t & E & Hc). exists c, t.
    split; [ exact E | ].
    destruct Hc as [ -> | Hc ]; [ do 6 right; left; reflexivity | do 7 right; exact Hc ].
  - exists 34, (quoteUnits s ++ [34]). split; [ reflexivity | pick_head ].
  - exists 91, (join [44] (map JSON_stringify elems) ++ [93]). split; [ reflexivity | pick_head ].
  - exists 123, (join [44] (map (fun p => QuoteJSONString (fst p) ++ [58]
                                            ++ JSON_stringify (snd p)) props) ++ [125]).
    split; [ reflexivity | pick_head ].
Qed.

Lemma parseValue_number f c s tok rest :
  c = 45 \/ 48 <= c <= 57 ->
  lexNumber (c :: s) = Some (tok, rest) ->
  parseValue (S f) (c :: s) = Some (VNum (StringToNumber tok), rest).
Proof.
  intros Hc Hl. rewrite parseValue_S, skipWs_head by lia.
  destruct (N.eqb_spec c 123); [ lia | ]. destruct (N.eqb_spec c 91); [ lia | ].
  destruct (N.eqb_spec c 34); [ lia | ]. destruct (N.eqb_spec c 116); [ lia | ].
  destruct (N.eqb_spec c 102); [ lia | ]. destruct (N.eqb_spec c 110); [ lia | ].
  rewrite Hl. reflexivity.
Qed.

Lemma setProp_fresh k v acc :
  ~ In k (map fst acc) -> setProp k v acc = acc ++ [(k, v)].
Proof.
  induction acc as [ | [k' v'] acc IH ]; simpl; intros Hk; [ reflexivity | ].
  rewrite jsstring_eqb_neq by (intros ->; apply Hk; left; reflexivity).
  rewrite IH by (intros H; apply Hk; right; exact H). reflexivity.
Qed.

Lemma parseElements_stringify elems :
  Forall roundTrips elems ->
  forall acc fuel rest,
    elems <> [] -> forallb serializable elems = true ->
    (list_sum (map (fun e => S (need e)) elems) <= fuel)%nat ->
    parseElements fuel (join [44] (map JSON_stringify elems) ++ 93 :: rest) acc
    = Some (VArr (acc ++ elems), rest).
Proof.
  induction 1 as [ | v elems Hv _ IH ]; intros acc fuel rest Hne Hs Hfuel;
    [ congruence | ].
  cbn [forallb] in Hs. apply andb_true_iff in Hs as [Hsv Hse].
  simpl in Hfuel. destruct fuel as [ | f ]; [ lia | ].
  rewrite parseElements_S. destruct elems as [ | v' elems ].
  - cbn [map join]. rewrite (Hv Hsv f (93 :: rest)) by (lia || reflexivity).
    reflexivity.
  - change (join [44] (map JSON_stringify (v :: v' :: elems)))
      with (JSON_stringify v ++ [44] ++ join [44] (map JSON_stringify (v' :: elems))).
    rewrite <- !app_assoc. cbn [app].
    rewrite (Hv Hsv f (44 :: _)) by (lia || reflexivity).
    cbn [skipWs isJsonWs N.eqb Pos.eqb orb]. 
    rewrite (IH (acc ++ [v]) f rest) by (congruence || assumption || lia).
    rewrite <- app_assoc. reflexivity.
Qed.

Lemma parseMembers_stringify props :
  Forall (fun p => roundTrips (snd p)) props ->
  forall acc fuel rest,
    props <> [] -> NoDup (map fst (acc ++ props)) ->
    forallb (fun p => serializable (snd p)) props = true ->
    (list_sum (map (fun p => S (need (snd p))) props) <= fuel)%nat ->
    parseMembers fuel
      (join [44] (map (fun p => QuoteJSONString (fst p) ++ [58] ++ JSON_stringify (snd p))
                    props) ++ 125 :: rest) acc
    = Some (VObj (acc ++ props), rest).
Proof.
  induction 1 as [ | [k v] props Hv _ IH ]; intros acc fuel rest Hne Hnd Hs Hfuel;
    [ congruence | ].
  cbn [forallb snd] in Hs. apply andb_true_iff in Hs as [Hsv Hse].
  simpl in Hfuel. cbn [snd] in Hv.
  destruct fuel as [ | f ]; [ lia | ].
  assert (Hfresh : ~ In k (map fst acc)).
  { rewrite map_app in Hnd. cbn [map fst] in Hnd.
    apply NoDup_ListNoDup in Hnd. apply List.NoDup_remove_2 in Hnd.
    intros Hin. apply Hnd. apply in_or_app. auto. }
  assert (Hnd' : NoDup (map fst ((acc ++ [(k, v)]) ++ props)))
    by (rewrite <- app_assoc; exact Hnd).
  rewrite parseMembers_S. destruct props as [ | p props ].
  - cbn [map join fst snd]. unfold QuoteJSONString. rewrite <- !app_assoc. cbn [app].
    cbn [skipWs isJsonWs N.eqb Pos.eqb orb].
    rewrite parseChars_quoteUnits. cbn [skipWs isJsonWs N.eqb Pos.eqb orb].
    rewrite (Hv Hsv f (125 :: rest)) by (lia || reflexivity).
    cbn [skipWs isJsonWs N.eqb Pos.eqb orb].
    rewrite setProp_fresh by exact Hfresh. reflexivity.
  - change (join [44] (map (fun p => QuoteJSONString (fst p) ++ [58]
                                       ++ JSON_stringify (snd p)) ((k, v) :: p :: props)))
      with ((QuoteJSONString k ++ [58] ++ JSON_stringify v) ++ [44]
            ++ join [44] (map (fun p => QuoteJSONString (fst p) ++ [58]
                                          ++ JSON_stringify (snd p)) (p :: props))).
    unfold QuoteJSONString at 1. rewrite <- !app_assoc. cbn [app].
    cbn [skipWs isJsonWs N.eqb Pos.eqb orb].
    rewrite parseChars_quoteUnits. cbn [skipWs isJsonWs N.eqb Pos.eqb orb].
    rewrite (Hv Hsv f (44 :: _)) by (lia || reflexivity).
    cbn [skipWs isJsonWs N.eqb Pos.eqb orb].
    rewrite setProp_fresh by exact Hfresh.
    pose proof (IH (acc ++ [(k, v)]) f rest ltac:(discriminate) Hnd' Hse ltac:(lia)) as Hp.
    cbn [app] in Hp. rewrite Hp, <- app_assoc. reflexivity.
Qed.

Lemma parse_stringify v : roundTrips v.
Proof.
  induction v as [ | b | x | s | elems IH | props IH ] using value_ind';
    intros Hs fuel rest Hfuel Hend; (destruct fuel as [ | f ]; [ simpl in Hfuel; lia | ]).
  - reflexivity.
  - destruct b; reflexivity.
  - apply numberRoundTrips_spec in Hs as (Hf & Hl & Hx). cbn [JSON_stringify]. rewrite Hf.
    destruct (lexNumber_head _ _ _ Hl) as (c & t & E & Hc).
    pose proof (lexNumber_app _ _ _ rest Hl Hend) as Hl'.
    rewrite E in *. cbn [app] in *.
    rewrite (parseValue_number f c _ _ _ Hc Hl'), Hx. reflexivity.
  - cbn [JSON_stringify]. unfold QuoteJSONString. rewrite <- !app_assoc. cbn [app].
    rewrite parseValue_S. cbn [skipWs isJsonWs N.eqb Pos.eqb orb].
    rewrite parseChars_quoteUnits. reflexivity.
  - cbn [serializable] in Hs. simpl in Hfuel. cbn [JSON_stringify].
    change (js "[") with [91]. change (js "]") with [93]. change (js ",") with [44].
    rewrite <- !app_assoc. cbn [app]. rewrite parseValue_S.
    cbn [skipWs isJsonWs N.eqb Pos.eqb orb].
    destruct elems as [ | v elems ]; [ reflexivity | ].
    assert (Hv : serializable v = true)
      by (cbn [forallb] in Hs; apply andb_true_iff in Hs; tauto).
    destruct (stringify_head v Hv) as (c & t & E & Hc). unfold valueHead in Hc.
    assert (Hj : exists t', join [44] (map JSON_stringify (v :: elems)) = c :: t').
    { destruct elems; cbn [map join]; rewrite E; eauto. }
    destruct Hj as (t' & Hj).
    pose proof (parseElements_stringify (v :: elems) IH [] f rest
                  ltac:(discriminate) Hs ltac:(lia)) as Hp.
    cbn [app] in *. rewrite Hj in Hp |- *. cbn [app] in *. rewrite skipWs_head by lia.
    destruct (N.eqb_spec c 93); [ lia | ]. exact Hp.
  - cbn [serializable] in Hs. apply andb_true_iff in Hs as [Hnd Hs].
    apply bool_decide_eq_true in Hnd. simpl in Hfuel. cbn [JSON_stringify].
    change (js "{") with [123]. change (js "}") with [125]. change (js ",") with [44].
    change (js ":") with [58].
    rewrite <- !app_assoc. cbn [app]. rewrite parseValue_S.
    cbn [skipWs isJsonWs N.eqb Pos.eqb orb].
    destruct props as [ | [k v] props ]; [ reflexivity | ].
    assert (Hj : exists t', join [44] (map (fun p => QuoteJSONString (fst p) ++ [58]
                                  ++ JSON_stringify (snd p)) ((k, v) :: props)) = 34 :: t').
    { destruct props; cbn [map join fst]; unfold QuoteJSONString; cbn [app]; eauto. }
    destruct Hj as (t' & Hj).
    pose proof (parseMembers_stringify ((k, v) :: props) IH [] f rest
                  ltac:(discriminate) Hnd Hs ltac:(lia)) as Hp.
    cbn [app] in *. rewrite Hj in Hp |- *. cbn [app] in *. cbn [skipWs isJsonWs N.eqb Pos.eqb orb].
    exact Hp.
Qed.

End JsonRoundTrip.

(** ** Persisting and loading (app.js, results.js) *)

Section StorageRoundTrip.

Lemma need_elements (f : value -> jsstring) elems :
  Forall (fun v => (need v <= length (f v))%nat) elems ->
  (list_sum (map (fun e => S (need e)) elems) <= S (length (join [44%N] (map f elems))))%nat.
Proof.
  induction 1 as [ | v elems Hv _ IH ]; [ simpl; lia | ].
  destruct elems as [ | v' elems ].
  - simpl. lia.
  - change (join [44] (map f (v :: v' :: elems)))
      with (f v ++ [44] ++ join [44] (map f (v' :: elems))).
    rewrite !length_app. simpl in *. lia.
Qed.

Lemma need_le_length v :
  serializable v = true -> (need v <= length (JSON_stringify v))%nat.
Proof.
  induction v as [ | b | x | s | elems IH | props IH ] using value_ind'; intros Hs.
  - simpl. lia.
  - destruct b; simpl; lia.
  - destruct (stringify_head _ Hs) as (c & t & -> & _). simpl. lia.
  - simpl. lia.
  - cbn [serializable] in Hs. cbn [JSON_stringify need].
    change (js "[") with [91]. change (js "]") with [93]. change (js ",") with [44].
    rewrite !length_app. simpl length.
    assert (H : Forall (fun v => (need v <= length (JSON_stringify v))%nat) elems).
    { clear -IH Hs. induction IH as [ | v elems Hv _ IHe ]; [ constructor | ].
      cbn [forallb] in Hs. apply andb_true_iff in Hs as [H1 H2].
      constructor; [ apply Hv; exact H1 | apply IHe; exact H2 ]. }
    pose proof (need_elements JSON_stringify elems H). lia.
  - cbn [serializable] in Hs. apply andb_true_iff in Hs as [_ Hs].
    cbn [JSON_stringify need].
    change (js "{") with [123]. change (js "}") with [125]. change (js ",") with [44].
    set (member := fun p : jsstring * value =>
                     QuoteJSONString (fst p) ++ js ":" ++ JSON_stringify (snd p)).
    rewrite !length_app. cbn [length].
    assert (H : (list_sum (map (fun p => S (need (snd p))) props)
                 <= S (length (join [44%N] (map member props))))%nat).
    { clear -IH Hs. induction IH as [ | p props Hp _ IHp ]; [ simpl; lia | ].
      cbn [forallb] in Hs. apply andb_true_iff in Hs as [H1 H2].
      specialize (Hp H1). specialize (IHp H2).
      assert (Hm : (need (snd p) <= length (member p))%nat)
        by (unfold member; rewrite !length_app; lia).
      destruct props as [ | p' props ].
      - cbn [map join list_sum fold_right]. lia.
      - change (join [44] (map member (p :: p' :: props)))
          with (member p ++ [44] ++ join [44] (map member (p' :: props))).
        rewrite !length_app. cbn [map list_sum fold_right length] in *. lia. }
    lia.
Qed.

Lemma JSON_parse_stringify v :
  serializable v = true -> JSON_parse (JSON_stringify v) = Some v.
Proof.
  intros Hs. unfold JSON_parse.
  pose proof (parse_stringify v Hs (S (length (JSON_stringify v))) []
                ltac:(pose proof (need_le_length v Hs); lia) eq_refl) as Hp.
  rewrite app_nil_r in Hp. rewrite Hp. reflexivity.
Qed.



End StorageRoundTrip.

(** ** What validation hands on (app.js) *)

Section QueryNormalForm.
Import App.

Lemma trimStart_fixed c r : isWhiteSpace c = false -> trimStart (c :: r) = c :: r.
Proof. intros H. simpl. rewrite H. reflexivity. Qed.

Lemma trimStart_head s :
  match trimStart s with [] => True | c :: _ => isWhiteSpace c = false end.
Proof.
  induction s as [ | c r IH ]; simpl; [ exact I | ].
  destruct (isWhiteSpace c) eqn:E; [ exact IH | exact E ].
Qed.

Lemma trimEnd_idem s : trimEnd (trimEnd s) = trimEnd s.
Proof.
  induction s as [ | c r IH ]; [ reflexivity | ].
  cbn [trimEnd]. destruct (trimEnd r) as [ | c' r' ] eqn:E.
  - destruct (isWhiteSpace c) eqn:Ec; [ reflexivity | ].
    cbn [trimEnd]. rewrite Ec. reflexivity.
  - cbn [trimEnd] in IH |- *. cbn [trimEnd]. 
    destruct (match trimEnd r' with
              | [] => if isWhiteSpace c' then [] else [c']
              | n :: l => c' :: n :: l
              end) eqn:E2; [ discriminate IH | ].
    rewrite IH. reflexivity.
Qed.

Lemma trimEnd_head c r :
  isWhiteSpace c = false -> exists r', trimEnd (c :: r) = c :: r'.
Proof.
  intros H. cbn [trimEnd]. destruct (trimEnd r) as [ | c' r' ].
  - rewrite H. eauto.
  - eauto.
Qed.

Lemma trim_idem s : trim (trim s) = trim s.
Proof.
  unfold trim. pose proof (trimStart_head s) as Hh.
  destruct (trimStart s) as [ | c r ]; [ reflexivity | ].
  destruct (trimEnd_head c r Hh) as (r' & E). rewrite E.
  rewrite (trimStart_fixed c r' Hh). rewrite <- E. apply trimEnd_idem.
Qed.

Lemma validateQuery_body q t :
  q <> [] ->
  Validator.validateQuery q t
  = if (length (trim q) =? 0)%nat then Validator.Invalid (js "Query cannot be empty")
    else if (500 <? length (trim q))%nat
    then Validator.Invalid (js "Query is too long (max 500 characters)")
    else if jsstring_eqb t (js "auto") then Validator.Valid (trim q)
    else match CONFIG.PATTERNS.lookup (toUpperCase t) with
         | Some pattern =>
             if negb (test pattern (trim q))
             then Validator.Invalid (js "Invalid " ++ t ++ js " format")
             else Validator.Valid (trim q)
         | None => Validator.Valid (trim q)
         end.
Proof. destruct q; [ congruence | reflexivity ]. Qed.

Lemma validateQuery_valid q t v :
  Validator.validateQuery q t = Validator.Valid v ->
  v = trim q /\ (1 <= length v <= 500)%nat.
Proof.
  destruct q as [ | c q ]; [ discriminate | ].
  rewrite validateQuery_body by discriminate.
  destruct (length (trim (c :: q)) =? 0)%nat eqn:E0; [ discriminate | ].
  destruct (500 <? length (trim (c :: q)))%nat eqn:E5; [ discriminate | ].
  apply Nat.eqb_neq in E0. apply Nat.ltb_ge in E5.
  assert (forall w, Validator.Valid (trim (c :: q)) = Validator.Valid w ->
                    w = trim (c :: q) /\ (1 <= length w <= 500)%nat).
  { intros w [= <-]. split; [ reflexivity | lia ]. }
  destruct (jsstring_eqb t (js "auto")); [ auto | ].
  destruct (CONFIG.PATTERNS.lookup (toUpperCase t)) as [ p | ]; [ | auto ].
  destruct (negb (test p (trim (c :: q)))); [ discriminate | auto ].
Qed.

(** X1. The query that validation hands on is the trimmed input, it has from
    1 to 500 code units, and it is a fixed point: validating it again for
    the same type accepts it unchanged. *)
Theorem validateQuery_normal_form q t v :
  Validator.validateQuery q t = Validator.Valid v ->
  v = trim q /\ (1 <= length v <= 500)%nat /\
  Validator.validateQuery v t = Validator.Valid v.
Proof.
  intros H. destruct (validateQuery_valid q t v H) as (Hv & Hlen).
  split; [ exact Hv | split; [ exact Hlen | ] ].
  assert (Hq : q <> []) by (intros ->; discriminate H).
  assert (Hne : v <> []) by (intros ->; simpl in Hlen; lia).
  rewrite validateQuery_body in H by exact Hq.
  rewrite validateQuery_body by exact Hne.
  assert (Et : trim v = trim q) by (rewrite Hv; apply trim_idem).
  rewrite Et. rewrite H. rewrite Hv. reflexivity.
Qed.

Lemma validateQuery_normal_form_witness :
  Validator.validateQuery (js "example.com") (js "domain")
  = Validator.Valid (js "example.com").
Proof.
  apply (validateQuery_normal_form (js "  example.com ") (js "domain") (js "example.com")).
  vm_compute. reflexivity.
Defined.

(** X2. What [detectQueryType] answers for a trimmed query of at most 500 code
    units, unless it is "unknown", is a type for which [validateQuery]
    accepts that query. *)
Theorem detected_type_validates q :
  trim q = q -> (length q <= 500)%nat ->
  Validator.detectQueryType q <> js "unknown" ->
  Validator.validateQuery q (Validator.detectQueryType q) = Validator.Valid q.
Proof.
  intros Ht Hlen Hd.
  assert (Hq : q <> []).
  { intros ->. apply Hd. vm_compute. reflexivity. }
  rewrite validateQuery_body by exact Hq. rewrite Ht.
  destruct (length q =? 0)%nat eqn:E0.
  { apply Nat.eqb_eq in E0. destruct q; [ congruence | discriminate E0 ]. }
  destruct (500 <? length q)%nat eqn:E5.
  { apply Nat.ltb_lt in E5. lia. }
  revert Hd. unfold Validator.detectQueryType.
  destruct (test CONFIG.PATTERNS.IP q) eqn:Eip.
  { intros _. change (CONFIG.PATTERNS.lookup (toUpperCase (js "ip")))
      with (Some CONFIG.PATTERNS.IP).
    change (jsstring_eqb (js "ip") (js "auto")) with false.
    cbv iota. rewrite Eip. reflexivity. }
  destruct (test CONFIG.PATTERNS.EMAIL q) eqn:Eem.
  { intros _. change (CONFIG.PATTERNS.lookup (toUpperCase (js "email")))
      with (Some CONFIG.PATTERNS.EMAIL).
    change (jsstring_eqb (js "email") (js "auto")) with false.
    cbv iota. rewrite Eem. reflexivity. }
  destruct (test CONFIG.PATTERNS.DOMAIN q) eqn:Edo.
  { intros _. change (CONFIG.PATTERNS.lookup (toUpperCase (js "domain")))
      with (Some CONFIG.PATTERNS.DOMAIN).
    change (jsstring_eqb (js "domain") (js "auto")) with false.
    cbv iota. rewrite Edo. reflexivity. }
  destruct (test CONFIG.PATTERNS.URL q) eqn:Eur.
  { intros _. change (CONFIG.PATTERNS.lookup (toUpperCase (js "url")))
      with (Some CONFIG.PATTERNS.URL).
    change (jsstring_eqb (js "url") (js "auto")) with false.
    cbv iota. rewrite Eur. reflexivity. }
  intros Hd. exfalso. apply Hd. reflexivity.
Qed.

Lemma detected_type_validates_witness :
  Validator.validateQuery (js "admin@example.com")
    (Validator.detectQueryType (js "admin@example.com"))
  = Validator.Valid (js "admin@example.com").
Proof.
  apply (detected_type_validates (js "admin@example.com")).
  - vm_compute. reflexivity.
  - vm_compute. lia.
  - vm_compute. intros H. discriminate H.
Defined.

End QueryNormalForm.

(** ** Blank input and type names (app.js) *)

Section BlankAndTypes.
Import App.

Lemma first_unit_differs (a b : jsstring) (x y : N) : x <> y -> x :: a <> y :: b.
Proof. intros H E. injection E as E _. contradiction. Qed.

(** X18. Blank input is reported as "Query must be a non-empty string": the
    handler trims the input before it validates it, so the validator
    sees the empty string, the storage stays as it is, and the message
    "Query cannot be empty" is never the validation error of a
    submission. *)
Theorem blank_input_message sub ls input :
  SearchHandler.searchInput sub = Some input ->
  (trim input = [] ->
   SearchHandler.handleSubmit sub ls
   = (ls, [Notification (js "Query must be a non-empty string") (js "error")])) /\
  (forall error,
      Validator.validateQuery (trim input) (SearchHandler.selectedType sub)
      = Validator.Invalid error ->
      SearchHandler.handleSubmit sub ls = (ls, [Notification error (js "error")]) /\
      error <> js "Query cannot be empty").
Proof.
  intros Hin. split.
  - intros Hb. unfold SearchHandler.handleSubmit. rewrite Hin. cbv zeta. rewrite Hb.
    reflexivity.
  - intros error Hval. split.
    { unfold SearchHandler.handleSubmit. rewrite Hin. cbv zeta. rewrite Hval. reflexivity. }
    destruct (trim input) as [ | c r ] eqn:Et.
    + injection Hval as <-. discriminate.
    + rewrite validateQuery_body in Hval by discriminate.
      rewrite <- Et, trim_idem, Et in Hval. cbn [length Nat.eqb] in Hval.
      destruct (500 <? S (length r))%nat; [ injection Hval as <-; discriminate | ].
      destruct (jsstring_eqb (SearchHandler.selectedType sub) (js "auto"));
        [ discriminate | ].
      destruct (CONFIG.PATTERNS.lookup (toUpperCase (SearchHandler.selectedType sub)))
        as [ pattern | ]; [ | discriminate ].
      destruct (negb (test pattern (c :: r))); [ | discriminate ].
      injection Hval as <-. apply first_unit_differs. discriminate.
Qed.

Lemma blank_input_message_witness :
  SearchHandler.handleSubmit
    {| SearchHandler.searchInput := Some (js "   ");
       SearchHandler.typeSelector := Some (js "ip");
       SearchHandler.timestamp := js "2024-05-01T10:00:00.000Z";
       SearchHandler.response := SearchHandler.Rejected (js "unused");
       SearchHandler.accepts := roomy |} ∅
  = (∅, [Notification (js "Query must be a non-empty string") (js "error")]).
Proof.
  apply (proj1 (blank_input_message
                  {| SearchHandler.searchInput := Some (js "   ");
                     SearchHandler.typeSelector := Some (js "ip");
                     SearchHandler.timestamp := js "2024-05-01T10:00:00.000Z";
                     SearchHandler.response := SearchHandler.Rejected (js "unused");
                     SearchHandler.accepts := roomy |} ∅ (js "   ") eq_refl)).
  reflexivity.
Defined.



End BlankAndTypes.

(** ** The EMAIL pattern (app.js) *)

Section AddressPatterns.
Import App.

Lemma Pow_set ic neg items n w :
  Pow (Lang ic (RSet neg items)) n w
  <-> length w = n /\ forallb (setMatches ic neg items) w = true.
Proof.
  revert w. induction n as [ | n IH ]; intros w; simpl.
  - split; [ intros ->; auto | intros [H _]; destruct w; [ reflexivity | discriminate H ] ].
  - split.
    + intros (s1 & s2 & -> & (c & -> & Hc) & H2). apply IH in H2 as [Hl Hf].
      simpl. rewrite Hc, Hf, Hl. auto.
    + intros [Hl Hf]. destruct w as [ | c w ]; [ discriminate Hl | ].
      simpl in Hl, Hf. apply andb_true_iff in Hf as [Hc Hf].
      exists [c], w. repeat split; [ exists c; auto | ].
      apply IH. split; [ lia | exact Hf ].
Qed.

Lemma Lang_plus_set ic neg items w :
  Lang ic (RPlus (RSet neg items)) w
  <-> w <> [] /\ forallb (setMatches ic neg items) w = true.
Proof.
  unfold RPlus. cbn [Lang]. split.
  - intros (s1 & s2 & -> & (c & -> & Hc) & n & Hn). apply Pow_set in Hn as [_ Hf].
    split; [ discriminate | ]. simpl. rewrite Hc, Hf. reflexivity.
  - intros [Hne Hf]. destruct w as [ | c w ]; [ congruence | ].
    simpl in Hf. apply andb_true_iff in Hf as [Hc Hf].
    exists [c], w. repeat split; [ exists c; auto | ].
    exists (length w). apply Pow_set. auto.
Qed.

Lemma notSpaceAt_match c :
  setMatches false true [CSpace; CChar (ch "@")] c = emailUnit c.
Proof.
  unfold setMatches, emailUnit. change (ch "@") with 64. simpl.
  destruct (isWhiteSpace c), (c =? 64); reflexivity.
Qed.

Lemma forallb_notSpaceAt w :
  forallb (setMatches false true [CSpace; CChar (ch "@")]) w = forallb emailUnit w.
Proof.
  induction w as [ | c w IH ]; [ reflexivity | ].
  cbn [forallb]. rewrite IH, notSpaceAt_match. reflexivity.
Qed.

Lemma test_EMAIL s : test CONFIG.PATTERNS.EMAIL s = true <-> emailShape s.
Proof.
  unfold test. rewrite matches_Lang by reflexivity.
  change (source CONFIG.PATTERNS.EMAIL)
    with (RCat (RPlus CONFIG.PATTERNS.notSpaceAt)
            (RCat (RSet false [CChar 64])
               (RCat (RPlus CONFIG.PATTERNS.notSpaceAt)
                  (RCat (RSet false [CChar 46]) (RPlus CONFIG.PATTERNS.notSpaceAt))))).
  change (ignoreCase CONFIG.PATTERNS.EMAIL) with false.
  unfold CONFIG.PATTERNS.notSpaceAt, emailShape. split.
  - intros (loc & r1 & -> & Hloc & a & r2 & -> & (ca & -> & Ha) & dom & r3 & -> & Hdom
            & d & last & -> & (cd & -> & Hd) & Hlast).
    apply char_match in Ha. apply char_match in Hd. subst ca cd.
    apply Lang_plus_set in Hloc as [N1 F1]. apply Lang_plus_set in Hdom as [N2 F2].
    apply Lang_plus_set in Hlast as [N3 F3].
    rewrite forallb_notSpaceAt in F1, F2, F3.
    exists loc, dom, last. repeat split; assumption.
  - intros (loc & dom & last & -> & N1 & N2 & N3 & F1 & F2 & F3).
    rewrite <- forallb_notSpaceAt in F1, F2, F3.
    exists loc, ([64] ++ dom ++ [46] ++ last). repeat split.
    { apply Lang_plus_set. auto. }
    exists [64], (dom ++ [46] ++ last). repeat split.
    { exists 64. split; [ reflexivity | apply char_match; reflexivity ]. }
    exists dom, ([46] ++ last). repeat split.
    { apply Lang_plus_set. auto. }
    exists [46], last. repeat split.
    { exists 46. split; [ reflexivity | apply char_match; reflexivity ]. }
    apply Lang_plus_set. auto.
Qed.

Lemma emailUnit_spec c : emailUnit c = true -> isWhiteSpace c = false /\ c <> 64.
Proof.
  unfold emailUnit. rewrite andb_true_iff, !negb_true_iff, N.eqb_neq. tauto.
Qed.

Lemma count_at_none w : forallb emailUnit w = true -> count_occ N.eq_dec w 64 = 0%nat.
Proof.
  induction w as [ | c w IH ]; [ reflexivity | ].
  simpl forallb. rewrite andb_true_iff. intros [Hc Hw].
  apply emailUnit_spec in Hc as [_ Hc].
  rewrite count_occ_cons_neq by exact Hc. apply IH. exact Hw.
Qed.

(** X3. A query is accepted as an email exactly when its trimmed text has at
    most 500 code units and the shape local@domain.last, the three parts
    not empty and free of whitespace and at signs. An accepted address has
    therefore exactly one at sign and no whitespace anywhere. *)
Theorem validateQuery_email_shape (q : jsstring) :
  (Validator.validateQuery q (js "email") = Validator.Valid (trim q)
   <-> emailShape (trim q) /\ (length (trim q) <= 500)%nat) /\
  (forall v, Validator.validateQuery q (js "email") = Validator.Valid v ->
             count_occ N.eq_dec v 64 = 1%nat /\ existsb isWhiteSpace v = false).
Proof.
  assert (Hbody : q <> [] ->
            Validator.validateQuery q (js "email")
            = if (length (trim q) =? 0)%nat
              then Validator.Invalid (js "Query cannot be empty")
              else if (500 <? length (trim q))%nat
                   then Validator.Invalid (js "Query is too long (max 500 characters)")
                   else if negb (test CONFIG.PATTERNS.EMAIL (trim q))
                        then Validator.Invalid (js "Invalid email format")
                        else Validator.Valid (trim q)).
  { intros Hq. rewrite validateQuery_body by exact Hq. reflexivity. }
  assert (Hiff : Validator.validateQuery q (js "email") = Validator.Valid (trim q)
                 <-> emailShape (trim q) /\ (length (trim q) <= 500)%nat).
  { split.
    - intros H. assert (Hq : q <> []) by (intros ->; discriminate H).
      rewrite (Hbody Hq) in H.
      destruct (length (trim q) =? 0)%nat; [ discriminate | ].
      destruct (500 <? length (trim q))%nat eqn:E5; [ discriminate | ].
      apply Nat.ltb_ge in E5.
      destruct (test CONFIG.PATTERNS.EMAIL (trim q)) eqn:Et; [ | discriminate ].
      split; [ apply test_EMAIL; exact Et | exact E5 ].
    - intros [Hs Hlen].
      assert (Hne : trim q <> []).
      { destruct Hs as (loc & dom & last & E & N1 & _). rewrite E.
        destruct loc; [ congruence | discriminate ]. }
      assert (Hq : q <> []) by (intros ->; apply Hne; reflexivity).
      rewrite (Hbody Hq).
      destruct (length (trim q) =? 0)%nat eqn:E0.
      { apply Nat.eqb_eq in E0. destruct (trim q); [ congruence | discriminate E0 ]. }
      destruct (500 <? length (trim q))%nat eqn:E5; [ apply Nat.ltb_lt in E5; lia | ].
      apply test_EMAIL in Hs. rewrite Hs. reflexivity. }
  split; [ exact Hiff | ].
  intros v Hv. destruct (validateQuery_valid _ _ _ Hv) as (-> & _).
  apply Hiff in Hv as [(loc & dom & last & -> & _ & _ & _ & F1 & F2 & F3) _].
  split.
  - rewrite !count_occ_app. rewrite (count_at_none _ F1), (count_at_none _ F2),
      (count_at_none _ F3). reflexivity.
  - rewrite !existsb_app. 
    assert (Hno : forall w, forallb emailUnit w = true -> existsb isWhiteSpace w = false).
    { induction w as [ | c w IH ]; [ reflexivity | ]. simpl.
      rewrite andb_true_iff. intros [Hc Hw]. apply emailUnit_spec in Hc as [-> _].
      simpl. apply IH. exact Hw. }
    rewrite (Hno _ F1), (Hno _ F2), (Hno _ F3). reflexivity.
Qed.

End AddressPatterns.

(** ** The DOMAIN pattern and host names (app.js) *)

Section HostNames.
Import App.

Lemma swapCase_spec c :
  (97 <= c <= 122 /\ swapCase c = c - 32) \/ (65 <= c <= 90 /\ swapCase c = c + 32)
  \/ (~ 97 <= c <= 122 /\ ~ 65 <= c <= 90 /\ swapCase c = c).
Proof.
  unfold swapCase.
  destruct (N.leb_spec 97 c); destruct (N.leb_spec c 122); cbn [andb];
    destruct (N.leb_spec 65 c); destruct (N.leb_spec c 90); cbn [andb];
    first [ left; split; [ lia | reflexivity ]
          | right; left; split; [ lia | reflexivity ]
          | right; right; repeat split; lia ].
Qed.

Lemma alnum_isAlnum c :
  setMatches true false [CRange 97 122; CRange 48 57] c = isAlnum c.
Proof.
  unfold setMatches, isAlnum, isDigit. cbn [existsb itemMatches xorb andb orb].
  rewrite !orb_false_r. apply eq_true_iff_eq.
  rewrite !orb_true_iff, !andb_true_iff, !N.leb_le.
  destruct (swapCase_spec c) as [ [Hc ->] | [ [Hc ->] | (H1 & H2 & ->) ] ]; lia.
Qed.

Lemma alnumDash_isLabelUnit c :
  setMatches true false [CRange 97 122; CRange 48 57; CChar 45] c = isLabelUnit c.
Proof.
  unfold setMatches, isLabelUnit, isAlnum, isDigit. cbn [existsb itemMatches xorb andb orb].
  rewrite !orb_false_r. apply eq_true_iff_eq.
  rewrite !orb_true_iff, !andb_true_iff, !N.leb_le, !N.eqb_eq.
  destruct (swapCase_spec c) as [ [Hc ->] | [ [Hc ->] | (H1 & H2 & ->) ] ]; lia.
Qed.

Lemma forallb_alnumDash w :
  forallb (setMatches true false [CRange 97 122; CRange 48 57; CChar 45]) w
  = forallb isLabelUnit w.
Proof.
  induction w as [ | c w IH ]; [ reflexivity | ].
  cbn [forallb]. rewrite IH, alnumDash_isLabelUnit. reflexivity.
Qed.

Lemma isAlnum_unit c : isAlnum c = true -> isLabelUnit c = true.
Proof. unfold isLabelUnit. intros ->. reflexivity. Qed.

Lemma rev_last_unit (w : jsstring) (e : N) : rev (w ++ [e]) = e :: rev w.
Proof. rewrite rev_app_distr. reflexivity. Qed.

Lemma rev_last_unit' (labels : list jsstring) (final : jsstring) :
  rev (labels ++ [final]) = final :: rev labels.
Proof. rewrite rev_app_distr. reflexivity. Qed.

(** A label of at least two code units. *)
Lemma isLabel_long w :
  (isLabel w = true /\ (2 <= length w)%nat)
  <-> exists c mid e, w = c :: mid ++ [e] /\ isAlnum c = true /\ isAlnum e = true /\
                      (length mid <= 61)%nat /\ forallb isLabelUnit mid = true.
Proof.
  unfold isLabel. split.
  - intros [H Hlen]. rewrite !andb_true_iff in H.
    destruct H as ((((_ & H63) & Hall) & Hfirst) & Hlast).
    apply Nat.leb_le in H63.
    destruct w as [ | c w ]; [ discriminate | ].
    destruct (exists_last (l := w)) as (mid & e & ->).
    { intros ->. simpl in Hlen. lia. }
    exists c, mid, e.
    change (c :: mid ++ [e]) with ((c :: mid) ++ [e]) in Hlast.
    rewrite rev_last_unit in Hlast.
    cbn [forallb] in Hall. rewrite forallb_app in Hall.
    rewrite !andb_true_iff in Hall. cbn [length] in H63. rewrite length_app in H63.
    simpl in H63. repeat split; try tauto. lia.
  - intros (c & mid & e & -> & Hc & He & Hlen & Hall).
    assert (Hrev : rev (c :: mid ++ [e]) = e :: rev (c :: mid))
      by (change (c :: mid ++ [e]) with ((c :: mid) ++ [e]); apply rev_last_unit).
    assert (Hfa : forallb isLabelUnit (c :: mid ++ [e]) = true).
    { cbn [forallb]. rewrite forallb_app, Hall. cbn [forallb].
      rewrite (isAlnum_unit _ Hc), (isAlnum_unit _ He). reflexivity. }
    assert (Hl : length (c :: mid ++ [e]) = S (S (length mid))).
    { cbn [length]. rewrite length_app. simpl. lia. }
    split; [ | lia ].
    rewrite Hrev, Hfa, Hl, Hc, He. rewrite !andb_true_r.
    apply Nat.leb_le. lia.
Qed.

Lemma isLabel_cases w :
  isLabel w = true
  <-> (exists c, w = [c] /\ isAlnum c = true) \/ (isLabel w = true /\ (2 <= length w)%nat).
Proof.
  split.
  - intros H. destruct w as [ | c [ | d w ] ].
    + discriminate H.
    + left. exists c. split; [ reflexivity | ].
      unfold isLabel in H. rewrite !andb_true_iff in H. tauto.
    + right. split; [ exact H | simpl; lia ].
  - intros [ (c & -> & Hc) | [H _] ]; [ | exact H ].
    unfold isLabel. cbn [length rev app forallb]. rewrite Hc, (isAlnum_unit _ Hc).
    reflexivity.
Qed.

Lemma Lang_alnum c : Lang true CONFIG.PATTERNS.alnum [c] <-> isAlnum c = true.
Proof.
  unfold CONFIG.PATTERNS.alnum. cbn [Lang]. change (ch "a") with 97.
  change (ch "z") with 122. change (ch "0") with 48. change (ch "9") with 57. split.
  - intros (c' & [= <-] & H). rewrite alnum_isAlnum in H. exact H.
  - intros H. exists c. rewrite alnum_isAlnum. auto.
Qed.

Lemma Lang_alnum_inv s :
  Lang true CONFIG.PATTERNS.alnum s -> exists c, s = [c] /\ isAlnum c = true.
Proof.
  intros H. assert (H' := H). unfold CONFIG.PATTERNS.alnum in H'. cbn [Lang] in H'.
  destruct H' as (c & -> & _). exists c. split; [ reflexivity | ].
  apply Lang_alnum. exact H.
Qed.

Lemma Lang_dashes s :
  Lang true (RRep CONFIG.PATTERNS.alnumDash 0 61) s
  <-> (length s <= 61)%nat /\ forallb isLabelUnit s = true.
Proof.
  unfold CONFIG.PATTERNS.alnumDash. cbn [Lang]. change (ch "a") with 97.
  change (ch "z") with 122. change (ch "0") with 48. change (ch "9") with 57.
  change (ch "-") with 45. split.
  - intros (n & Hn & H). apply Pow_set in H as [Hl Hf].
    rewrite forallb_alnumDash in Hf. split; [ lia | exact Hf ].
  - intros [Hl Hf]. exists (length s). split; [ lia | ].
    apply Pow_set. rewrite forallb_alnumDash. auto.
Qed.

Lemma Lang_lastLabel w :
  Lang true lastLabel w <-> isLabel w = true /\ (2 <= length w)%nat.
Proof.
  rewrite isLabel_long. unfold lastLabel. cbn [Lang]. fold (Lang true). split.
  - intros (s1 & s2 & -> & H1 & mid & s4 & -> & Hm & H4).
    apply Lang_alnum_inv in H1 as (c & -> & Hc).
    apply Lang_alnum_inv in H4 as (e & -> & He).
    apply Lang_dashes in Hm as [Hl Hf].
    exists c, mid, e. repeat split; auto.
  - intros (c & mid & e & -> & Hc & He & Hl & Hf).
    exists [c], (mid ++ [e]). repeat split; [ apply Lang_alnum; exact Hc | ].
    exists mid, [e]. repeat split; [ apply Lang_dashes; auto | apply Lang_alnum; exact He ].
Qed.

Lemma dot_match_iff c : setMatches true false [CChar 46] c = true <-> c = 46.
Proof.
  split; [ | intros ->; reflexivity ].
  unfold setMatches. simpl. rewrite !orb_true_iff, !N.eqb_eq.
  destruct (swapCase_spec c) as [ [Hc ->] | [ [Hc ->] | (H1 & H2 & ->) ] ]; lia.
Qed.

Lemma Lang_dottedLabel x :
  Lang true dottedLabel x <-> exists l, isLabel l = true /\ x = l ++ [46].
Proof.
  unfold dottedLabel. split.
  - intros (s1 & s2 & -> & H1 & o & d & -> & Ho & Hd).
    apply Lang_alnum_inv in H1 as (c & -> & Hc).
    unfold RChr in Hd. cbn [Lang] in Hd. change (ch ".") with 46 in Hd.
    destruct Hd as (c' & -> & Hd). apply dot_match_iff in Hd. subst c'.
    apply Lang_opt in Ho as [ -> | Ho ].
    + exists [c]. split; [ | reflexivity ]. apply isLabel_cases. left. eauto.
    + assert (Hl : Lang true lastLabel ([c] ++ o)).
      { exists [c], o. repeat split; [ apply Lang_alnum; exact Hc | exact Ho ]. }
      apply Lang_lastLabel in Hl as [Hl _].
      exists ([c] ++ o). split; [ exact Hl | rewrite <- app_assoc; reflexivity ].
  - intros (l & Hl & ->). apply isLabel_cases in Hl as [ (c & -> & Hc) | Hl ].
    + exists [c], ([] ++ [46]). repeat split; [ apply Lang_alnum; exact Hc | ].
      exists [], [46]. repeat split; [ apply Lang_opt; left; reflexivity | ].
      exists 46. split; reflexivity.
    + apply Lang_lastLabel in Hl as (s1 & s2 & -> & H1 & H2).
      exists s1, (s2 ++ [46]). rewrite <- app_assoc. repeat split; [ exact H1 | ].
      exists s2, [46]. repeat split; [ apply Lang_opt; right; exact H2 | ].
      exists 46. split; reflexivity.
Qed.

Lemma Pow_dotted n s :
  Pow (Lang true dottedLabel) n s
  <-> exists labels, length labels = n /\ forallb isLabel labels = true /\
                     s = concat (map (fun l => l ++ [46]) labels).
Proof.
  revert s. induction n as [ | n IH ]; intros s; cbn [Pow].
  - split.
    + intros ->. exists []. auto.
    + intros (labels & Hl & _ & ->). destruct labels; [ reflexivity | discriminate Hl ].
  - split.
    + intros (s1 & s2 & -> & H1 & H2). apply Lang_dottedLabel in H1 as (l & Hl & ->).
      apply IH in H2 as (labels & Hn & Hf & ->).
      exists (l :: labels). cbn [length forallb map concat]. rewrite Hl, Hf, Hn. auto.
    + intros (labels & Hn & Hf & ->). destruct labels as [ | l labels ]; [ discriminate Hn | ].
      cbn [forallb] in Hf. apply andb_true_iff in Hf as [Hl Hf].
      exists (l ++ [46]), (concat (map (fun l => l ++ [46]) labels)).
      repeat split; [ apply Lang_dottedLabel; eauto | ].
      apply IH. exists labels. repeat split; [ | exact Hf ].
      simpl in Hn. lia.
Qed.

Lemma isLabel_no_dot l : isLabel l = true -> Forall (fun c => c <> 46) l.
Proof.
  unfold isLabel. rewrite !andb_true_iff. intros ((((_ & _) & H) & _) & _).
  induction l as [ | c l IH ]; [ constructor | ].
  cbn [forallb] in H. apply andb_true_iff in H as [Hc H].
  constructor; [ | apply IH; exact H ].
  intros ->. discriminate Hc.
Qed.

Lemma splitOn_labels labels final :
  forallb isLabel labels = true -> isLabel final = true ->
  splitOn 46 (concat (map (fun l => l ++ [46]) labels) ++ final) = labels ++ [final].
Proof.
  intros Hf Hl. induction labels as [ | l labels IH ].
  - apply splitOn_single. apply isLabel_no_dot. exact Hl.
  - cbn [forallb] in Hf. apply andb_true_iff in Hf as [H1 H2].
    cbn [map concat]. rewrite <- !app_assoc. cbn [app].
    rewrite splitOn_app by (apply isLabel_no_dot; exact H1).
    rewrite (IH H2). reflexivity.
Qed.

Lemma join_labels (labels : list jsstring) final :
  join [46] (labels ++ [final]) = concat (map (fun l => l ++ [46]) labels) ++ final.
Proof.
  induction labels as [ | l labels IH ]; [ reflexivity | ].
  cbn [map concat app].
  change (join [46] (l :: labels ++ [final]))
    with (match labels ++ [final] with
          | [] => l
          | _ => l ++ [46] ++ join [46] (labels ++ [final])
          end).
  destruct (labels ++ [final]) eqn:E.
  - destruct labels; discriminate E.
  - rewrite IH, <- !app_assoc. reflexivity.
Qed.

Lemma forallb_rev_labels (labels : list jsstring) :
  forallb isLabel (rev labels) = forallb isLabel labels.
Proof.
  induction labels as [ | l labels IH ]; [ reflexivity | ].
  cbn [rev forallb]. rewrite forallb_app, IH. cbn [forallb].
  rewrite andb_true_r. apply andb_comm.
Qed.

Lemma test_DOMAIN s : test CONFIG.PATTERNS.DOMAIN s = true <-> isHostName s = true.
Proof.
  unfold test. rewrite matches_Lang by reflexivity.
  change (source CONFIG.PATTERNS.DOMAIN)
    with (RCat (RCat dottedLabel (RStar dottedLabel)) lastLabel).
  change (ignoreCase CONFIG.PATTERNS.DOMAIN) with true.
  unfold isHostName. split.
  - intros (s1 & final & -> & (x & y & -> & Hx & n & Hy) & Hfin).
    assert (Hp : Pow (Lang true dottedLabel) (S n) (x ++ y)) by (exists x, y; auto).
    apply Pow_dotted in Hp as (labels & Hn & Hf & ->).
    apply Lang_lastLabel in Hfin as [Hl Hlen].
    rewrite (splitOn_labels labels final Hf Hl), (rev_last_unit' labels final).
    destruct (rev labels) as [ | l ls ] eqn:E.
    + apply (f_equal (@length _)) in E. rewrite length_rev, Hn in E. discriminate E.
    + rewrite <- E, forallb_rev_labels, Hf, Hl.
      apply Nat.leb_le in Hlen. rewrite Hlen. reflexivity.
  - intros H. pose proof (join_splitOn 46 s) as Hj.
    destruct (rev (splitOn 46 s)) as [ | final [ | l ls ] ] eqn:E; try discriminate H.
    apply (f_equal (@rev _)) in E. rewrite rev_involutive in E. rewrite E in Hj.
    cbn [rev] in Hj. rewrite !andb_true_iff in H. destruct H as [[Hlen Hl] Hf].
    apply Nat.leb_le in Hlen.
    rewrite <- forallb_rev_labels in Hf. cbn [rev] in Hf.
    rewrite join_labels in Hj. subst s.
    destruct (rev ls ++ [l]) as [ | a rest ] eqn:Er.
    { destruct (rev ls); discriminate Er. }
    cbn [forallb] in Hf. apply andb_true_iff in Hf as [Ha Hrest].
    exists (concat (map (fun l => l ++ [46]) (a :: rest))), final.
    repeat split; [ | apply Lang_lastLabel; auto ].
    exists (a ++ [46]), (concat (map (fun l => l ++ [46]) rest)).
    repeat split; [ apply Lang_dottedLabel; eauto | ].
    exists (length rest). apply Pow_dotted. exists rest. auto.
Qed.

(** X4. A query is accepted as a domain exactly when its trimmed text has at
    most 500 code units and is a host name: at least two labels
    separated by dots, each of 1 to 63 ASCII letters, digits and hyphens
    with no hyphen at either end, the last label of at least two code
    units. Upper and lower case are the same to the pattern. *)
Theorem validateQuery_domain_host_name (q : jsstring) :
  Validator.validateQuery q (js "domain") = Validator.Valid (trim q)
  <-> isHostName (trim q) = true /\ (length (trim q) <= 500)%nat.
Proof.
  assert (Hbody : q <> [] ->
            Validator.validateQuery q (js "domain")
            = if (length (trim q) =? 0)%nat
              then Validator.Invalid (js "Query cannot be empty")
              else if (500 <? length (trim q))%nat
                   then Validator.Invalid (js "Query is too long (max 500 characters)")
                   else if negb (test CONFIG.PATTERNS.DOMAIN (trim q))
                        then Validator.Invalid (js "Invalid domain format")
                        else Validator.Valid (trim q)).
  { intros Hq. rewrite validateQuery_body by exact Hq. reflexivity. }
  split.
  - intros H. assert (Hq : q <> []) by (intros ->; discriminate H).
    rewrite (Hbody Hq) in H.
    destruct (length (trim q) =? 0)%nat; [ discriminate | ].
    destruct (500 <? length (trim q))%nat eqn:E5; [ discriminate | ].
    apply Nat.ltb_ge in E5.
    destruct (test CONFIG.PATTERNS.DOMAIN (trim q)) eqn:Et; [ | discriminate ].
    split; [ apply test_DOMAIN; exact Et | exact E5 ].
  - intros [Hs Hlen].
    assert (Hne : trim q <> []) by (intros E; rewrite E in Hs; discriminate Hs).
    assert (Hq : q <> []) by (intros ->; apply Hne; reflexivity).
    rewrite (Hbody Hq).
    destruct (length (trim q) =? 0)%nat eqn:E0.
    { apply Nat.eqb_eq in E0. destruct (trim q); [ congruence | discriminate E0 ]. }
    destruct (500 <? length (trim q))%nat eqn:E5; [ apply Nat.ltb_lt in E5; lia | ].
    apply test_DOMAIN in Hs. rewrite Hs. reflexivity.
Qed.

End HostNames.

(** ** The URL pattern (app.js) *)

Section UrlPattern.
Import App.
Variable icase : bool.

Lemma matches_alt pw a b s :
  matches icase pw (RAlt a b) s = matches icase pw a s || matches icase pw b s.
Proof.
  revert pw a b. induction s as [ | c s IH ]; intros pw a b; [ reflexivity | ].
  cbn [matches deriv]. apply IH.
Qed.

Lemma matches_fail_cat pw b s : matches icase pw (RCat RFail b) s = false.
Proof.
  revert pw. induction s as [ | c s IH ]; intros pw; [ reflexivity | ].
  cbn [matches deriv nullable]. apply IH.
Qed.

(** A concatenation whose left part has no word boundary in it. *)
Lemma matches_cat_plain s :
  forall pw a b,
    plain a = true ->
    (matches icase pw (RCat a b) s = true
     <-> exists s1 s2, s = s1 ++ s2 /\ Lang icase a s1 /\
                       matches icase (lastWord pw s1) b s2 = true).
Proof.
  induction s as [ | c s IH ]; intros pw a b Hp.
  - cbn [matches nullable]. rewrite andb_true_iff, (nullable_Lang icase pw false a Hp).
    split.
    + intros [H1 H2]. exists [], []. auto.
    + intros (s1 & s2 & E & H1 & H2). symmetry in E. apply app_eq_nil in E as [-> ->].
      auto.
  - cbn [matches deriv].
    destruct (nullable pw (isWordChar c) a) eqn:En.
    + rewrite matches_alt, orb_true_iff, (IH _ _ _ (plain_deriv icase pw c a Hp)). split.
      * intros [ (s1 & s2 & -> & H1 & H2) | H ].
        -- exists (c :: s1), s2. repeat split; [ apply (deriv_Lang icase pw c a Hp); exact H1 | exact H2 ].
        -- exists [], (c :: s). repeat split;
             [ apply (nullable_Lang icase pw (isWordChar c) a Hp); exact En | exact H ].
      * intros (s1 & s2 & E & H1 & H2). destruct s1 as [ | c' s1 ].
        -- right. cbn [app] in E. subst s2. exact H2.
        -- left. injection E as <- ->. exists s1, s2.
           repeat split; [ apply (deriv_Lang icase pw c a Hp); exact H1 | exact H2 ].
    + rewrite (IH _ _ _ (plain_deriv icase pw c a Hp)). split.
      * intros (s1 & s2 & -> & H1 & H2). exists (c :: s1), s2.
        repeat split; [ apply (deriv_Lang icase pw c a Hp); exact H1 | exact H2 ].
      * intros (s1 & s2 & E & H1 & H2). destruct s1 as [ | c' s1 ].
        -- apply (nullable_Lang icase pw (isWordChar c) a Hp) in H1. congruence.
        -- injection E as <- ->. exists s1, s2.
           repeat split; [ apply (deriv_Lang icase pw c a Hp); exact H1 | exact H2 ].
Qed.

(** A word boundary in front of a part that has none in it. *)
Lemma matches_boundary pw x s :
  plain x = true ->
  matches icase pw (RCat RWordB x) s = xorb pw (nextWord s) && matches icase pw x s.
Proof.
  intros Hp. destruct s as [ | c s ]; [ reflexivity | ].
  cbn [matches deriv nullable nextWord].
  destruct (xorb pw (isWordChar c)); cbn [andb].
  - rewrite matches_alt, matches_fail_cat. reflexivity.
  - apply matches_fail_cat.
Qed.

End UrlPattern.

Section UrlShape.
Import App.

Lemma Lang_chars w s :
  Lang false (RSeq (map (fun c => RSet false [CChar c]) w)) s <-> s = w.
Proof.
  revert s. induction w as [ | c w IH ]; intros s; [ reflexivity | ].
  destruct w as [ | c' w ].
  - cbn [map RSeq Lang]. split.
    + intros (x & -> & H). apply char_match in H. subst x. reflexivity.
    + intros ->. exists c. split; [ reflexivity | apply char_match; reflexivity ].
  - change (RSeq (map (fun c => RSet false [CChar c]) (c :: c' :: w)))
      with (RCat (RSet false [CChar c])
              (RSeq (map (fun c => RSet false [CChar c]) (c' :: w)))).
    cbn [Lang]. fold (Lang false). split.
    + intros (s1 & s2 & -> & (x & -> & H) & H2). apply char_match in H. subst x.
      apply IH in H2. subst s2. reflexivity.
    + intros ->. exists [c], (c' :: w). repeat split.
      * exists c. split; [ reflexivity | apply char_match; reflexivity ].
      * apply IH. reflexivity.
Qed.

Lemma Lang_RLit w s : Lang false (RLit w) s <-> s = js w.
Proof. unfold RLit. apply Lang_chars. Qed.

Lemma Lang_RChr a s : Lang false (RChr a) s <-> s = [ch a].
Proof. unfold RChr. apply (Lang_chars [ch a]). Qed.

Lemma Lang_class items lo hi s :
  Lang false (RRep (RSet false items) lo hi) s
  <-> (lo <= length s <= hi)%nat /\ forallb (setMatches false false items) s = true.
Proof.
  cbn [Lang]. split.
  - intros (n & Hn & H). apply Pow_set in H as [<- Hf]. auto.
  - intros [Hl Hf]. exists (length s). split; [ exact Hl | ]. apply Pow_set. auto.
Qed.

Lemma Lang_class_star items s :
  Lang false (RStar (RSet false items)) s
  <-> forallb (setMatches false false items) s = true.
Proof.
  cbn [Lang]. split.
  - intros (n & H). apply Pow_set in H as [_ Hf]. exact Hf.
  - intros Hf. exists (length s). apply Pow_set. auto.
Qed.

Ltac class_units :=
  intros c; unfold setMatches, urlHostUnit, urlTopUnit, urlPathUnit, isLetterOrDigit, isDigit;
  cbn [existsb itemMatches xorb andb orb app map js list_ascii_of_string
       CONFIG.PATTERNS.letters];
  rewrite ?orb_false_r; apply eq_true_iff_eq;
  rewrite ?orb_true_iff, ?andb_true_iff, ?N.leb_le, ?N.eqb_eq;
  cbv [ch N_of_ascii N_of_digits N.add N.mul Pos.add Pos.mul Pos.succ]; lia.

Lemma hostClass_units :
  forall c,
    setMatches false false
      (CChar (ch "-") :: CONFIG.PATTERNS.letters ++
       map (fun a => CChar (ch a)) ["@"; ":"; "%"; "."; "_"; "+"; "~"; "#"; "="]%char) c
    = urlHostUnit c.
Proof. class_units. Qed.

Lemma topClass_units :
  forall c,
    setMatches false false
      (CONFIG.PATTERNS.letters ++ [CChar (ch "("); CChar (ch ")")]) c
    = urlTopUnit c.
Proof. class_units. Qed.

Lemma pathClass_units :
  forall c,
    setMatches false false
      (CChar (ch "-") :: CONFIG.PATTERNS.letters ++
       map (fun a => CChar (ch a))
         ["("; ")"; "@"; ":"; "%"; "_"; "+"; "."; "~"; "#"; "?"; "&"; "/"; "/"; "="]%char) c
    = urlPathUnit c.
Proof. class_units. Qed.

Lemma forallb_same (f g : N -> bool) w :
  (forall c, f c = g c) -> forallb f w = forallb g w.
Proof.
  intros H. induction w as [ | c w IH ]; [ reflexivity | ].
  cbn [forallb]. rewrite H, IH. reflexivity.
Qed.

Lemma lastWord_nonempty pw pw' s : s <> [] -> lastWord pw s = lastWord pw' s.
Proof. destruct s as [ | c s ]; [ congruence | reflexivity ]. Qed.

Lemma test_URL s : test CONFIG.PATTERNS.URL s = true <-> urlShape s.
Proof.
  unfold test.
  change (source CONFIG.PATTERNS.URL)
    with (RCat (RLit "http")
            (RCat (ROpt (RChr "s"))
               (RCat (RLit "://")
                  (RCat (ROpt (RLit "www."))
                     (RCat (RRep urlHostClass 1 256)
                        (RCat (RChr ".")
                           (RCat (RRep urlTopClass 1 6)
                              (RCat RWordB (RStar urlPathClass))))))))).
  change (ignoreCase CONFIG.PATTERNS.URL) with false.
  unfold urlShape. split.
  - intros H.
    apply matches_cat_plain in H as (s1 & r1 & -> & H1 & H); [ | reflexivity ].
    apply matches_cat_plain in H as (s2 & r2 & -> & H2 & H); [ | reflexivity ].
    apply matches_cat_plain in H as (s3 & r3 & -> & H3 & H); [ | reflexivity ].
    apply matches_cat_plain in H as (s4 & r4 & -> & H4 & H); [ | reflexivity ].
    apply matches_cat_plain in H as (host & r5 & -> & H5 & H); [ | reflexivity ].
    apply matches_cat_plain in H as (s6 & r6 & -> & H6 & H); [ | reflexivity ].
    apply matches_cat_plain in H as (top & path & -> & H7 & H); [ | reflexivity ].
    rewrite matches_boundary in H by reflexivity.
    apply andb_true_iff in H as [Hb Hpath].
    apply matches_Lang in Hpath; [ | reflexivity ].
    apply Lang_RLit in H1. apply Lang_opt in H2. apply Lang_RLit in H3.
    apply Lang_opt in H4. apply Lang_RChr in H6.
    unfold urlHostClass in H5. apply Lang_class in H5 as [Hl5 Hf5].
    unfold urlTopClass in H7. apply Lang_class in H7 as [Hl7 Hf7].
    unfold urlPathClass in Hpath. apply Lang_class_star in Hpath.
    rewrite (forallb_same _ _ host hostClass_units) in Hf5.
    rewrite (forallb_same _ _ top topClass_units) in Hf7.
    rewrite (forallb_same _ _ path pathClass_units) in Hpath.
    assert (Htop : top <> []) by (intros ->; simpl in Hl7; lia).
    rewrite (lastWord_nonempty _ false top Htop) in Hb.
    subst s1 s3 s6.
    exists (js "http" ++ s2 ++ js "://"), s4, host, top, path.
    repeat split; try assumption; try lia.
    + rewrite <- !app_assoc. reflexivity.
    + destruct H2 as [ -> | H2 ]; [ left; reflexivity | right ].
      apply Lang_RChr in H2. subst s2. reflexivity.
    + destruct H4 as [ -> | H4 ]; [ left; reflexivity | right ].
      apply Lang_RLit in H4. exact H4.
  - intros (scheme & www & host & top & path & -> & Hs & Hw & Hl5 & Hf5 & Hl7 & Hf7
            & Hpath & Hb).
    assert (Htop : top <> []) by (intros ->; simpl in Hl7; lia).
    assert (Hsch : exists s2, scheme = js "http" ++ s2 ++ js "://"
                              /\ Lang false (ROpt (RChr "s")) s2).
    { destruct Hs as [ -> | -> ].
      - exists []. split; [ reflexivity | apply Lang_opt; left; reflexivity ].
      - exists (js "s"). split; [ reflexivity | ].
        apply Lang_opt. right. apply Lang_RChr. reflexivity. }
    destruct Hsch as (s2 & -> & H2).
    rewrite <- !app_assoc.
    apply matches_cat_plain; [ reflexivity | ].
    exists (js "http"), (s2 ++ js "://" ++ www ++ host ++ [46] ++ top ++ path).
    repeat split; [ apply Lang_RLit; reflexivity | ].
    apply matches_cat_plain; [ reflexivity | ].
    exists s2, (js "://" ++ www ++ host ++ [46] ++ top ++ path).
    repeat split; [ exact H2 | ].
    apply matches_cat_plain; [ reflexivity | ].
    exists (js "://"), (www ++ host ++ [46] ++ top ++ path).
    repeat split; [ apply Lang_RLit; reflexivity | ].
    apply matches_cat_plain; [ reflexivity | ].
    exists www, (host ++ [46] ++ top ++ path).
    repeat split.
    { apply Lang_opt. destruct Hw as [ -> | -> ]; [ left; reflexivity | right ].
      apply Lang_RLit. reflexivity. }
    apply matches_cat_plain; [ reflexivity | ].
    exists host, ([46] ++ top ++ path).
    repeat split.
    { unfold urlHostClass. apply Lang_class.
      rewrite (forallb_same _ _ host hostClass_units). auto. }
    apply matches_cat_plain; [ reflexivity | ].
    exists [46], (top ++ path).
    repeat split; [ apply Lang_RChr; reflexivity | ].
    apply matches_cat_plain; [ reflexivity | ].
    exists top, path.
    repeat split.
    { unfold urlTopClass. apply Lang_class.
      rewrite (forallb_same _ _ top topClass_units). auto. }
    rewrite matches_boundary by reflexivity.
    rewrite (lastWord_nonempty _ false top Htop), Hb. cbn [andb].
    apply matches_Lang; [ reflexivity | ].
    unfold urlPathClass. apply Lang_class_star.
    rewrite (forallb_same _ _ path pathClass_units). exact Hpath.
Qed.

Lemma urlTopUnit_path c : urlTopUnit c = true -> urlPathUnit c = true.
Proof.
  unfold urlTopUnit, urlPathUnit, isLetterOrDigit, isDigit.
  cbn [existsb js map list_ascii_of_string].
  rewrite ?orb_false_r, ?orb_true_iff, ?andb_true_iff, ?N.leb_le, ?N.eqb_eq.
  cbv [ch N_of_ascii N_of_digits N.add N.mul Pos.add Pos.mul Pos.succ]. lia.
Qed.

Lemma forallb_weaken (f g : N -> bool) w :
  (forall c, f c = true -> g c = true) -> forallb f w = true -> forallb g w = true.
Proof.
  intros H. induction w as [ | c w IH ]; [ reflexivity | ].
  cbn [forallb]. rewrite !andb_true_iff. intros [Hc Hw]. auto.
Qed.

(** X5. A query is accepted as a URL exactly when its trimmed text has at
    most 500 code units and the shape the pattern asks for: http:// or
    https://, an optional www., 1 to 256 host characters, a dot, 1 to 6
    letters, digits or parentheses, and after a word boundary any
    number of path characters. An accepted URL therefore begins with
    http:// or https://, and it is written with ASCII letters, digits
    and the punctuation of the two character sets only: it holds no
    whitespace, quote, angle bracket or backslash. *)
Theorem validateQuery_url_shape (q : jsstring) :
  (Validator.validateQuery q (js "url") = Validator.Valid (trim q)
   <-> urlShape (trim q) /\ (length (trim q) <= 500)%nat) /\
  (forall v,
      Validator.validateQuery q (js "url") = Validator.Valid v ->
      (exists rest, v = js "http://" ++ rest \/ v = js "https://" ++ rest) /\
      forallb (fun c => urlHostUnit c || urlPathUnit c) v = true).
Proof.
  assert (Hbody : q <> [] ->
            Validator.validateQuery q (js "url")
            = if (length (trim q) =? 0)%nat
              then Validator.Invalid (js "Query cannot be empty")
              else if (500 <? length (trim q))%nat
                   then Validator.Invalid (js "Query is too long (max 500 characters)")
                   else if negb (test CONFIG.PATTERNS.URL (trim q))
                        then Validator.Invalid (js "Invalid url format")
                        else Validator.Valid (trim q)).
  { intros Hq. rewrite validateQuery_body by exact Hq. reflexivity. }
  assert (Hiff : Validator.validateQuery q (js "url") = Validator.Valid (trim q)
                 <-> urlShape (trim q) /\ (length (trim q) <= 500)%nat).
  { split.
    - intros H. assert (Hq : q <> []) by (intros ->; discriminate H).
      rewrite (Hbody Hq) in H.
      destruct (length (trim q) =? 0)%nat; [ discriminate | ].
      destruct (500 <? length (trim q))%nat eqn:E5; [ discriminate | ].
      apply Nat.ltb_ge in E5.
      destruct (test CONFIG.PATTERNS.URL (trim q)) eqn:Et; [ | discriminate ].
      split; [ apply test_URL; exact Et | exact E5 ].
    - intros [Hs Hlen].
      assert (Hne : trim q <> []).
      { destruct Hs as (scheme & www & host & top & path & E & [ -> | -> ] & _);
          rewrite E; discriminate. }
      assert (Hq : q <> []) by (intros ->; apply Hne; reflexivity).
      rewrite (Hbody Hq).
      destruct (length (trim q) =? 0)%nat eqn:E0.
      { apply Nat.eqb_eq in E0. destruct (trim q); [ congruence | discriminate E0 ]. }
      destruct (500 <? length (trim q))%nat eqn:E5; [ apply Nat.ltb_lt in E5; lia | ].
      apply test_URL in Hs. rewrite Hs. reflexivity. }
  split; [ exact Hiff | ].
  intros v Hv. destruct (validateQuery_valid _ _ _ Hv) as (-> & _).
  apply Hiff in Hv as [(scheme & www & host & top & path & -> & Hs & Hw & _ & Hf5 & _ & Hf7
                        & Hpath & _) _].
  split.
  - destruct Hs as [ -> | -> ]; eexists; [ left | right ]; reflexivity.
  - rewrite !forallb_app, !andb_true_iff. repeat split.
    + destruct Hs as [ -> | -> ]; reflexivity.
    + destruct Hw as [ -> | -> ]; reflexivity.
    + revert Hf5. apply forallb_weaken. intros c ->. reflexivity.
    + revert Hf7. apply forallb_weaken. intros c Hc.
      rewrite (urlTopUnit_path c Hc). apply orb_true_r.
    + revert Hpath. apply forallb_weaken. intros c ->. apply orb_true_r.
Qed.

End UrlShape.

(** ** Clearing the storage (app.js, results.js) *)

Section ClearingStorage.

(** X6. Clearing removes what it names and nothing else. After [clearAll],
    whatever was stored, none of the four keys of the application is
    stored, every other key holds what it held, [getState] reports no
    query, no type and no results, and a load of the results page ends
    in the error state for missing data. After [clearResults] the same
    holds of the results key alone: the query, type and timestamp of the
    last search stay stored. *)
Theorem clearing_removes_own_keys (ls : store) :
  let own := [App.CONFIG.STORAGE.RESULTS_KEY; App.CONFIG.STORAGE.QUERY_KEY;
              App.CONFIG.STORAGE.TYPE_KEY; App.CONFIG.STORAGE.TIMESTAMP_KEY] in
  let after := snd (App.StorageManager.clearAll ls) in
  let cleared := snd (Results.clearResults ls) in
  (fst (App.StorageManager.clearAll ls) = true /\
   (forall key, In key own -> after !! key = None) /\
   (forall key, ~ In key own -> after !! key = ls !! key) /\
   App.getState after
   = {| App.lastQuery := VNull; App.lastType := VNull; App.hasResults := false |} /\
   Results.initialize after
   = Results.ErrorState (VStr (js "No analysis data found. Please run a new search."))) /\
  (fst (Results.clearResults ls) = true /\
   (forall key, key <> Results.CONFIG.STORAGE.RESULTS_KEY -> cleared !! key = ls !! key) /\
   Results.getState cleared = {| Results.hasResults := false; Results.results := VNull |} /\
   Results.initialize cleared
   = Results.ErrorState (VStr (js "No analysis data found. Please run a new search."))).
Proof.
  cbv zeta. split.
  - unfold App.StorageManager.clearAll. cbn [fst snd fold_left].
    assert (Hown : forall key,
              In key [App.CONFIG.STORAGE.RESULTS_KEY; App.CONFIG.STORAGE.QUERY_KEY;
                      App.CONFIG.STORAGE.TYPE_KEY; App.CONFIG.STORAGE.TIMESTAMP_KEY] ->
              delete App.CONFIG.STORAGE.TIMESTAMP_KEY
                (delete App.CONFIG.STORAGE.TYPE_KEY
                   (delete App.CONFIG.STORAGE.QUERY_KEY
                      (delete App.CONFIG.STORAGE.RESULTS_KEY ls))) !! key = None).
    { intros key Hin. rewrite !lookup_delete_None.
      simpl in Hin. destruct Hin as [ <- | [ <- | [ <- | [ <- | [] ] ] ] ]; auto. }
    split; [ reflexivity | ]. split; [ exact Hown | ]. split; [ | split ].
    + intros key Hn. simpl in Hn.
      rewrite !lookup_delete_ne by (intros E; apply Hn; rewrite E; auto).
      reflexivity.
    + unfold App.getState, App.StorageManager.get, getItem.
      rewrite !Hown by (simpl; auto). reflexivity.
    + unfold Results.initialize, Results.StorageManager.hasResults, getItem.
      change Results.CONFIG.STORAGE.RESULTS_KEY with App.CONFIG.STORAGE.RESULTS_KEY.
      rewrite Hown by (simpl; auto). reflexivity.
  - unfold Results.clearResults, Results.StorageManager.remove. cbn [fst snd].
    split; [ reflexivity | ]. split; [ | split ].
    + intros key Hne. apply lookup_delete_ne. congruence.
    + unfold Results.getState, Results.StorageManager.hasResults,
        Results.DataManager.loadResults, Results.StorageManager.get, getItem.
      rewrite lookup_delete_eq. reflexivity.
    + unfold Results.initialize, Results.StorageManager.hasResults, getItem.
      rewrite lookup_delete_eq. reflexivity.
Qed.

End ClearingStorage.

(** ** From the search page to the results page *)

Section SearchToResults.
Import App.

(** The storage after the three metadata writes of a submission. *)
Lemma handleSubmit_valid sub ls input vquery :
  SearchHandler.searchInput sub = Some input ->
  Validator.validateQuery (trim input) (SearchHandler.selectedType sub)
  = Validator.Valid vquery ->
  exists ls3,
    ls3 !! CONFIG.STORAGE.RESULTS_KEY = ls !! CONFIG.STORAGE.RESULTS_KEY /\
    (SearchHandler.accepts sub ls CONFIG.STORAGE.QUERY_KEY (JSON_stringify (VStr vquery))
     = true ->
     ls3 !! CONFIG.STORAGE.QUERY_KEY = Some (JSON_stringify (VStr vquery))) /\
    SearchHandler.handleSubmit sub ls
    = match SearchHandler.trySearch sub ls3 with
      | (inr _, ls4) =>
          (ls4, [DisableForm; ShowLoading;
                 Notification (js "Analysis complete! Redirecting...") (js "success");
                 Redirect (js "results.html")])
      | (inl message, ls4) =>
          (ls4, [DisableForm; ShowLoading; HideLoading; EnableForm;
                 Notification match message with
                              | [] => js "Analysis failed. Please try again."
                              | _ => message
                              end (js "error")])
      end.
Proof.
  intros Hin Hval.
  destruct storage_keys_distinct as (Drq & Drt & Drs & Dqt & Dqs & Dts).
  eexists. split; [ | split ]; [ | | unfold SearchHandler.handleSubmit; rewrite Hin;
                                      cbv zeta; rewrite Hval; reflexivity ].
  - rewrite !set_lookup_other by congruence. reflexivity.
  - intros H. rewrite !set_lookup_other by congruence.
    apply set_lookup_accepted. exact H.
Qed.

Lemma trySearch_cases sub ls :
  (exists message, SearchHandler.trySearch sub ls = (inl message, ls)) \/
  (exists body,
      SearchHandler.response sub = SearchHandler.Resolved body /\
      truthy body = true /\ typeofObject body = true /\
      getProp body (js "status") = Some (VStr (js "success")) /\
      SearchHandler.accepts sub ls CONFIG.STORAGE.RESULTS_KEY (JSON_stringify body) = true /\
      SearchHandler.trySearch sub ls
      = (inr tt, <[CONFIG.STORAGE.RESULTS_KEY := JSON_stringify body]> ls)).
Proof.
  unfold SearchHandler.trySearch.
  destruct (SearchHandler.response sub) as [ m | body ]; [ left; eauto | ].
  destruct (truthy body) eqn:Et; [ | left; eauto ].
  destruct (typeofObject body) eqn:Eo; [ | left; eauto ]. simpl.
  destruct (strictEqString (getProp body (js "status")) (js "success")) eqn:Es;
    [ | left; eauto ]. simpl.
  apply strictEqString_eq in Es.
  unfold StorageManager.set, setItem.
  destruct (SearchHandler.accepts sub ls CONFIG.STORAGE.RESULTS_KEY (JSON_stringify body))
    eqn:Ea; simpl; [ | left; eauto ].
  right. exists body. repeat split; auto.
Qed.

Lemma trySearch_lookup_other sub ls key :
  key <> CONFIG.STORAGE.RESULTS_KEY ->
  snd (SearchHandler.trySearch sub ls) !! key = ls !! key.
Proof.
  intros Hne. destruct (trySearch_cases sub ls) as [ (m & ->) | (body & _ & _ & _ & _ & _ & ->) ];
    simpl; [ reflexivity | ].
  apply lookup_insert_ne. congruence.
Qed.

(** A load of the results page over a stored text that parses. *)
Lemma initialize_stored ls c item r :
  getItem ls Results.CONFIG.STORAGE.RESULTS_KEY = Some (c :: item) ->
  JSON_parse (c :: item) = Some r ->
  Results.initialize ls
  = if negb (truthy r)
    then Results.ErrorState (VStr (js "Failed to load results. Please try again."))
    else match Results.DataManager.validateResults r with
         | Results.DataManager.Invalid error => Results.ErrorState error
         | Results.DataManager.Valid => Results.Rendered r
         end.
Proof.
  intros Hitem Hparse.
  unfold Results.initialize, Results.StorageManager.hasResults, Results.DataManager.loadResults.
  rewrite (get_parsed _ _ VNull _ _ _ Hitem Hparse). rewrite Hitem. simpl.
  destruct (truthy r) eqn:Et; simpl; [ rewrite Et | ]; reflexivity.
Qed.

Lemma initialize_same_results ls ls' :
  ls' !! Results.CONFIG.STORAGE.RESULTS_KEY = ls !! Results.CONFIG.STORAGE.RESULTS_KEY ->
  Results.initialize ls' = Results.initialize ls.
Proof.
  intros H.
  unfold Results.initialize, Results.StorageManager.hasResults, Results.DataManager.loadResults,
    Results.StorageManager.get, getItem.
  rewrite H. reflexivity.
Qed.





Lemma get_string (ls : store) key s d :
  ls !! key = Some (JSON_stringify (VStr s)) ->
  Results.StorageManager.get ls key d = VStr s.
Proof.
  intros H. apply (get_parsed _ _ _ 34 (quoteUnits s ++ [34])).
  - exact H.
  - apply (JSON_parse_stringify (VStr s)). reflexivity.
Qed.

(** X8. After a submission that passed validation, the write of the query
    being accepted, the header of the results page shows the submitted
    query (the trimmed input), whatever results it is shown with. When the search failed,
    these are the results of the previous search: they are still stored,
    and the page loads as it did before. *)
Theorem header_shows_submitted_query sub ls input vquery :
  SearchHandler.searchInput sub = Some input ->
  Validator.validateQuery (trim input) (SearchHandler.selectedType sub)
  = Validator.Valid vquery ->
  SearchHandler.accepts sub ls CONFIG.STORAGE.QUERY_KEY (JSON_stringify (VStr vquery))
  = true ->
  let after := fst (SearchHandler.handleSubmit sub ls) in
  vquery = trim input /\
  (forall now results,
      results <> VNull ->
      Results.Renderer.queryText now after results = Some (js "Query: " ++ vquery)) /\
  (SearchHandler.searchFailed sub ls = true ->
   Results.initialize after = Results.initialize ls).
Proof.
  intros Hin Hval Hacc. cbv zeta.
  split; [ rewrite <- (trim_idem input); apply (validateQuery_valid _ _ _ Hval) | ].
  destruct (handleSubmit_valid sub ls input vquery Hin Hval) as (ls3 & Hres & Hq & Hsub).
  specialize (Hq Hacc).
  destruct storage_keys_distinct as (Drq & _).
  assert (Hafter : fst (SearchHandler.handleSubmit sub ls) !! CONFIG.STORAGE.QUERY_KEY
                   = Some (JSON_stringify (VStr vquery))).
  { rewrite Hsub. rewrite <- Hq.
    rewrite <- (trySearch_lookup_other sub ls3 CONFIG.STORAGE.QUERY_KEY) by congruence.
    destruct (SearchHandler.trySearch sub ls3) as [ [ m | u ] ls4 ]; reflexivity. }
  split.
  - intros now results Hnn.
    destruct (validateQuery_valid _ _ _ Hval) as (_ & Hlen).
    unfold Results.Renderer.queryText, Results.DataManager.getQueryInfo.
    change Results.CONFIG.STORAGE.QUERY_KEY with CONFIG.STORAGE.QUERY_KEY.
    rewrite (get_string _ _ vquery VNull Hafter).
    assert (Ht : truthy (VStr vquery) = true).
    { destruct vquery; [ simpl in Hlen; lia | reflexivity ]. }
    destruct results; try congruence; cbn [option_map Results.DataManager.query];
      unfold Results.DataManager.orUndefined; rewrite Ht; unfold orElse; rewrite Ht;
      reflexivity.
  - intros Hfail. apply initialize_same_results.
    change Results.CONFIG.STORAGE.RESULTS_KEY with CONFIG.STORAGE.RESULTS_KEY.
    rewrite (failed_search_store sub ls input vquery Hin Hval Hfail).
    rewrite !set_lookup_other by (destruct storage_keys_distinct as (? & ? & ? & _); congruence).
    reflexivity.
Qed.

Lemma header_shows_submitted_query_witness :
  Results.Renderer.queryText (js "2024-05-02T00:00:00.000Z")
    (fst (SearchHandler.handleSubmit (offlineSearch roomy)
            {[ CONFIG.STORAGE.RESULTS_KEY := JSON_stringify sampleResult ]}))
    sampleResult
  = Some (js "Query: example.com").
Proof.
  apply (proj1 (proj2 (header_shows_submitted_query (offlineSearch roomy)
                  {[ CONFIG.STORAGE.RESULTS_KEY := JSON_stringify sampleResult ]}
                  (js " example.com ") (js "example.com")
                  ltac:(reflexivity) ltac:(vm_compute; reflexivity) ltac:(reflexivity)))).
  discriminate.
Defined.

Lemma validateQuery_error q t error :
  Validator.validateQuery q t = Validator.Invalid error -> error <> [].
Proof.
  destruct q as [ | c q ]; [ intros [= <-]; discriminate | ].
  rewrite validateQuery_body by discriminate.
  destruct (length (trim (c :: q)) =? 0)%nat; [ intros [= <-]; discriminate | ].
  destruct (500 <? length (trim (c :: q)))%nat; [ intros [= <-]; discriminate | ].
  destruct (jsstring_eqb t (js "auto")); [ discriminate | ].
  destruct (CONFIG.PATTERNS.lookup (toUpperCase t)) as [ p | ]; [ | discriminate ].
  destruct (negb (test p (trim (c :: q)))); [ intros [= <-]; discriminate | discriminate ].
Qed.

(** X9. What a submission shows, in every case: one notification, never an
    empty one. Input that fails validation gives the validation error and
    leaves the storage and the form as they are; otherwise the form is
    disabled and the loading indicator shown, and then either the search
    fails, the indicator is hidden, the form enabled again and the error
    shown, or the success is announced and the page redirects to
    results.html. *)
Theorem submission_outcomes sub ls :
  let after := fst (SearchHandler.handleSubmit sub ls) in
  let effects := snd (SearchHandler.handleSubmit sub ls) in
  (exists message, message <> [] /\ after = ls /\
                   effects = [Notification message (js "error")]) \/
  (exists message, message <> [] /\
                   after !! CONFIG.STORAGE.RESULTS_KEY = ls !! CONFIG.STORAGE.RESULTS_KEY /\
                   effects = [DisableForm; ShowLoading; HideLoading; EnableForm;
                              Notification message (js "error")]) \/
  effects = [DisableForm; ShowLoading;
             Notification (js "Analysis complete! Redirecting...") (js "success");
             Redirect (js "results.html")].
Proof.
  cbv zeta.
  destruct (SearchHandler.searchInput sub) as [ input | ] eqn:Hin.
  2:{ left. unfold SearchHandler.handleSubmit. rewrite Hin. simpl.
      eexists. repeat split. discriminate. }
  destruct (Validator.validateQuery (trim input) (SearchHandler.selectedType sub))
    as [ vquery | error ] eqn:Hval.
  2:{ left. unfold SearchHandler.handleSubmit. rewrite Hin. cbv zeta. rewrite Hval. simpl.
      exists error. repeat split. apply (validateQuery_error _ _ _ Hval). }
  right.
  destruct (handleSubmit_valid sub ls input vquery Hin Hval) as (ls3 & Hres & _ & ->).
  destruct (trySearch_cases sub ls3) as [ (m & ->) | (body & _ & _ & _ & _ & _ & ->) ].
  - left. simpl. eexists. repeat split; [ | exact Hres ].
    destruct m; discriminate.
  - right. reflexivity.
Qed.

Lemma awaitSearch_failure eng f :
  match f with
  | APIClient.FetchRejected _ _ => True
  | APIClient.FetchResponse ok _ _ _ => ok = false
  end ->
  exists message,
    SearchHandler.awaitSearch eng f = SearchHandler.Rejected message /\
    APIClient.healthCheck eng f = VObj [(js "status", VStr (js "unhealthy"))] /\
    (forall text, f = APIClient.FetchRejected (js "AbortError") text ->
                  message = js "Request timeout. Please try again.").
Proof.
  unfold SearchHandler.awaitSearch, APIClient.healthCheck.
  destruct f as [ name text | ok status statusText body ]; intros Hf.
  - unfold APIClient.request.
    destruct (jsstring_eqb name (js "AbortError")) eqn:En.
    + eexists. repeat split.
    + eexists. repeat split. intros text' [= -> _]. discriminate En.
  - subst ok. unfold APIClient.request.
    destruct (match JSON_parse body with
              | Some v => v
              | None => VObj [(js "message",
                               VStr match body with [] => statusText | _ => body end)]
              end); eexists; repeat split; intros text H; discriminate H.
Qed.

(** X10. A request that does not complete (it timed out, the network failed,
    or the server answered with a status outside 200 to 299, whatever the
    body) never reaches the results page: the stored results stay as they
    were, the loading indicator is hidden, the form is enabled again and
    an error is shown, which for a timeout is the timeout message; the
    health check answers "unhealthy" for the same outcome. *)
Theorem failed_request_is_reported eng sub ls input vquery f :
  SearchHandler.searchInput sub = Some input ->
  Validator.validateQuery (trim input) (SearchHandler.selectedType sub)
  = Validator.Valid vquery ->
  SearchHandler.response sub = SearchHandler.awaitSearch eng f ->
  match f with
  | APIClient.FetchRejected _ _ => True
  | APIClient.FetchResponse ok _ _ _ => ok = false
  end ->
  exists message,
    message <> [] /\
    snd (SearchHandler.handleSubmit sub ls)
    = [DisableForm; ShowLoading; HideLoading; EnableForm;
       Notification message (js "error")] /\
    (forall text, f = APIClient.FetchRejected (js "AbortError") text ->
                  message = js "Request timeout. Please try again.") /\
    fst (SearchHandler.handleSubmit sub ls) !! CONFIG.STORAGE.RESULTS_KEY
    = ls !! CONFIG.STORAGE.RESULTS_KEY /\
    APIClient.healthCheck eng f = VObj [(js "status", VStr (js "unhealthy"))].
Proof.
  intros Hin Hval Hresp Hf.
  destruct (awaitSearch_failure eng f Hf) as (m & Hm & Hh & Habort).
  rewrite Hm in Hresp.
  destruct (handleSubmit_valid sub ls input vquery Hin Hval) as (ls3 & Hres & _ & ->).
  unfold SearchHandler.trySearch. rewrite Hresp. simpl.
  exists (match m with [] => js "Analysis failed. Please try again." | _ => m end).
  repeat split; auto.
  - destruct m; discriminate.
  - intros text Ht. rewrite (Habort text Ht). reflexivity.
Qed.

Lemma failed_request_is_reported_witness :
  exists message,
    message <> [] /\
    snd (SearchHandler.handleSubmit
           {| SearchHandler.searchInput := Some (js "8.8.8.8");
              SearchHandler.typeSelector := None;
              SearchHandler.timestamp := js "2024-05-01T10:00:00.000Z";
              SearchHandler.response :=
                SearchHandler.awaitSearch
                  {| APIClient.nullPropertyError := js "Cannot read properties of null";
                     APIClient.jsonSyntaxError := js "Unexpected end of JSON input" |}
                  (APIClient.FetchRejected (js "AbortError")
                     (js "The user aborted a request."));
              SearchHandler.accepts := roomy |} ∅)
    = [DisableForm; ShowLoading; HideLoading; EnableForm;
       Notification message (js "error")] /\
    (forall text,
        APIClient.FetchRejected (js "AbortError") (js "The user aborted a request.")
        = APIClient.FetchRejected (js "AbortError") text ->
        message = js "Request timeout. Please try again.") /\
    fst (SearchHandler.handleSubmit
           {| SearchHandler.searchInput := Some (js "8.8.8.8");
              SearchHandler.typeSelector := None;
              SearchHandler.timestamp := js "2024-05-01T10:00:00.000Z";
              SearchHandler.response :=
                SearchHandler.awaitSearch
                  {| APIClient.nullPropertyError := js "Cannot read properties of null";
                     APIClient.jsonSyntaxError := js "Unexpected end of JSON input" |}
                  (APIClient.FetchRejected (js "AbortError")
                     (js "The user aborted a request."));
              SearchHandler.accepts := roomy |} ∅) !! CONFIG.STORAGE.RESULTS_KEY
    = (∅ : store) !! CONFIG.STORAGE.RESULTS_KEY /\
    APIClient.healthCheck
      {| APIClient.nullPropertyError := js "Cannot read properties of null";
         APIClient.jsonSyntaxError := js "Unexpected end of JSON input" |}
      (APIClient.FetchRejected (js "AbortError") (js "The user aborted a request."))
    = VObj [(js "status", VStr (js "unhealthy"))].
Proof.
  apply (failed_request_is_reported
           {| APIClient.nullPropertyError := js "Cannot read properties of null";
              APIClient.jsonSyntaxError := js "Unexpected end of JSON input" |}
           _ ∅ (js "8.8.8.8") (js "8.8.8.8")).
  - reflexivity.
  - vm_compute. reflexivity.
  - reflexivity.
  - exact I.
Defined.

End SearchToResults.

(** ** Which stored payloads the results page renders *)

Section RenderedPayloads.
Import Results.

(** X11. The page renders a payload exactly when the results key holds a text
    that parses to it and [validateResults] finds it valid: every valid
    stored payload is rendered, and nothing else is. *)
Theorem valid_results_are_rendered ls r :
  initialize ls = Rendered r
  <-> exists item,
        getItem ls CONFIG.STORAGE.RESULTS_KEY = Some item /\
        JSON_parse item = Some r /\
        DataManager.validateResults r = DataManager.Valid.
Proof.
  split.
  - intros H. destruct (initialize_rendered ls r H) as (item & Hitem & Hparse & Hv).
    exists item. repeat split; [ exact Hitem | exact Hparse | ].
    destruct (DataManager.validateResults r); [ reflexivity | discriminate Hv ].
  - intros (item & Hitem & Hparse & Hv).
    destruct item as [ | c item ]; [ discriminate Hparse | ].
    rewrite (initialize_stored ls c item r Hitem Hparse).
    assert (Ht : truthy r = true).
    { apply (validateResults_valid r). rewrite Hv. reflexivity. }
    rewrite Ht, Hv. reflexivity.
Qed.

End RenderedPayloads.

(** ** The counters of the statistics (results.js) *)

Section Counters.
Import Results.

Lemma SFsub_self x :
  SFsub prec emax x x = S754_zero false \/ SFsub prec emax x x = S754_nan.
Proof.
  destruct x as [ [ | ] | [ | ] | | [ | ] m e ]; simpl; auto;
    rewrite Z.sub_diag; left; reflexivity.
Qed.

Lemma SFdiv_zero_nan x y :
  (exists s, x = S754_zero s) \/ x = S754_nan ->
  (exists s, SFdiv prec emax x y = S754_zero s) \/ SFdiv prec emax x y = S754_nan.
Proof.
  intros [ (s & ->) | -> ]; destruct y; simpl; eauto.
Qed.

Lemma no_range_no_increment (x duration : float) :
  let increment := ((x - x) / (duration / 16))%float in
  (0 <? increment)%float = false /\ (increment <? 0)%float = false.
Proof.
  cbv zeta. rewrite !ltb_spec, div_spec, sub_spec.
  unfold SF64div, SF64sub.
  destruct (SFdiv_zero_nan (SFsub prec emax (Prim2SF x) (Prim2SF x))
              (Prim2SF (duration / 16)%float)) as [ (s & ->) | -> ].
  - destruct (SFsub_self (Prim2SF x)) as [ -> | -> ]; eauto.
  - split; reflexivity.
  - split; reflexivity.
Qed.

Lemma tick_uncleared start end_ duration suffix st :
  ToNumber end_ = start -> UIUtils.cleared st = false ->
  UIUtils.cleared (UIUtils.tick start end_ duration suffix st) = false.
Proof.
  intros He Hc. unfold UIUtils.tick. rewrite Hc, He.
  destruct (no_range_no_increment start duration) as [-> ->]. reflexivity.
Qed.

Lemma ticks_S start end_ duration suffix n :
  UIUtils.ticks start end_ duration suffix (S n)
  = UIUtils.tick start end_ duration suffix (UIUtils.ticks start end_ duration suffix n).
Proof. reflexivity. Qed.

Lemma ticks_uncleared start end_ duration suffix n :
  ToNumber end_ = start ->
  UIUtils.cleared (UIUtils.ticks start end_ duration suffix n) = false.
Proof.
  intros He. induction n as [ | n IH ]; [ reflexivity | ].
  rewrite ticks_S. apply tick_uncleared; assumption.
Qed.

Lemma tick_cleared_text start end_ duration suffix st :
  (UIUtils.cleared st = true ->
   UIUtils.textContent st = Some (NumberToString (Math_round (ToNumber end_)) ++ suffix)) ->
  UIUtils.cleared (UIUtils.tick start end_ duration suffix st) = true ->
  UIUtils.textContent (UIUtils.tick start end_ duration suffix st)
  = Some (NumberToString (Math_round (ToNumber end_)) ++ suffix).
Proof.
  unfold UIUtils.tick. destruct (UIUtils.cleared st) eqn:Ec; [ auto | ].
  intros _.
  match goal with
  | |- context [ if ?b then _ else _ ] => destruct b
  end; [ reflexivity | discriminate ].
Qed.

Lemma ticks_cleared start end_ duration suffix n :
  UIUtils.cleared (UIUtils.ticks start end_ duration suffix n) = true ->
  UIUtils.textContent (UIUtils.ticks start end_ duration suffix n)
  = Some (NumberToString (Math_round (ToNumber end_)) ++ suffix) /\
  UIUtils.ticks start end_ duration suffix (S n) = UIUtils.ticks start end_ duration suffix n.
Proof.
  intros Hc. split.
  - revert Hc. induction n as [ | n IH ]; [ discriminate | ].
    rewrite ticks_S. apply tick_cleared_text. exact IH.
  - rewrite ticks_S. unfold UIUtils.tick. rewrite Hc. reflexivity.
Qed.

(** X12. A counter whose target equals its start never stops: its increment is
    zero (or NaN), neither comparison ever holds, and the interval is
    never cleared. This is the case of the two counters of a payload that
    reports no entities or no sources, and of the confidence counter when
    the average confidence is missing or zero. A counter that has stopped
    shows the rounded target with its suffix, and stays as it is. *)
Theorem counter_without_range_never_stops :
  (forall start end_ duration suffix n,
      ToNumber end_ = start ->
      UIUtils.cleared (UIUtils.ticks start end_ duration suffix n) = false) /\
  (forall analytics n,
      (truthyOpt (getProp analytics (js "total_entities")) = false ->
       UIUtils.cleared (Renderer.totalEntities analytics n) = false) /\
      (truthyOpt (getProp analytics (js "source_count")) = false ->
       UIUtils.cleared (Renderer.sourceCount analytics n) = false) /\
      (truthyOpt (getProp analytics (js "avg_confidence")) = false ->
       UIUtils.cleared (Renderer.avgConfidence analytics n) = false)) /\
  (forall start end_ duration suffix n,
      UIUtils.cleared (UIUtils.ticks start end_ duration suffix n) = true ->
      UIUtils.textContent (UIUtils.ticks start end_ duration suffix n)
      = Some (NumberToString (Math_round (ToNumber end_)) ++ suffix) /\
      UIUtils.ticks start end_ duration suffix (S n)
      = UIUtils.ticks start end_ duration suffix n).
Proof.
  assert (Hor : forall o, truthyOpt o = false -> orElse o (VNum zero) = VNum zero).
  { intros [ v | ]; simpl; [ intros -> | ]; reflexivity. }
  split; [ exact ticks_uncleared | split; [ | exact ticks_cleared ] ].
  intros analytics n. repeat split; intros H.
  - unfold Renderer.totalEntities. rewrite (Hor _ H). apply ticks_uncleared. reflexivity.
  - unfold Renderer.sourceCount. rewrite (Hor _ H). apply ticks_uncleared. reflexivity.
  - unfold Renderer.avgConfidence. rewrite (Hor _ H). apply ticks_uncleared.
    vm_compute. reflexivity.
Qed.

Lemma counter_without_range_never_stops_witness :
  UIUtils.cleared
    (Renderer.totalEntities (VObj [(js "total_entities", VNum 0%float)]) 1000)
  = false.
Proof.
  apply (proj1 (proj1 (proj2 counter_without_range_never_stops)
                  (VObj [(js "total_entities", VNum 0%float)]) 1000%nat)).
  vm_compute. reflexivity.
Defined.

End Counters.

(** ** Text that becomes markup (results.js) *)

Section Markup.
Import Results.

Lemma escapeString_no_angle s :
  count_occ N.eq_dec (escapeString s) 60 = 0%nat /\
  count_occ N.eq_dec (escapeString s) 62 = 0%nat.
Proof.
  unfold escapeString.
  induction s as [ | c s [IH1 IH2] ]; [ split; reflexivity | ].
  cbn [flat_map]. rewrite !count_occ_app, IH1, IH2. unfold escapeUnit.
  destruct (c =? 38) eqn:E1; [ split; reflexivity | ].
  destruct (c =? 160) eqn:E2; [ split; reflexivity | ].
  destruct (c =? 60) eqn:E3; [ split; reflexivity | ].
  destruct (c =? 62) eqn:E4; [ split; reflexivity | ].
  apply N.eqb_neq in E3, E4.
  split; rewrite count_occ_cons_neq by congruence; reflexivity.
Qed.

Lemma escapeHtml_no_angle text :
  count_occ N.eq_dec (UIUtils.escapeHtml text) 60 = 0%nat /\
  count_occ N.eq_dec (UIUtils.escapeHtml text) 62 = 0%nat.
Proof.
  unfold UIUtils.escapeHtml. destruct text as [ v | ]; [ | split; reflexivity ].
  destruct (negb (truthy v)); [ split; reflexivity | apply escapeString_no_angle ].
Qed.

(** X13. Text that goes through [escapeHtml] brings no tag with it: the result
    holds no less-than and no greater-than sign, whatever the text. So
    the toast of a notification has the four tags of its template,
    whatever message the server sent; the markup of the summary has the
    four tags of its template; and the heading of the error state holds
    no tag, whatever message the stored payload carried. *)
Theorem escaped_text_adds_no_markup :
  (forall text,
      count_occ N.eq_dec (UIUtils.escapeHtml text) 60 = 0%nat /\
      count_occ N.eq_dec (UIUtils.escapeHtml text) 62 = 0%nat) /\
  (forall message type markup,
      App.UIManager.showNotification message type = Some markup ->
      count_occ N.eq_dec markup 60 = 4%nat /\ count_occ N.eq_dec markup 62 = 4%nat) /\
  (forall summary,
      count_occ N.eq_dec (Renderer.summaryHtml summary) 60 = 4%nat /\
      count_occ N.eq_dec (Renderer.summaryHtml summary) 62 = 4%nat) /\
  (forall ls message,
      initialize ls = ErrorState message ->
      count_occ N.eq_dec (errorHeading message) 60 = 0%nat /\
      count_occ N.eq_dec (errorHeading message) 62 = 0%nat).
Proof.
  split; [ exact escapeHtml_no_angle | split; [ | split ] ].
  - intros message type markup. unfold App.UIManager.showNotification.
    assert (He : count_occ N.eq_dec (App.UIManager.escapeHtml message) 60 = 0%nat /\
                 count_occ N.eq_dec (App.UIManager.escapeHtml message) 62 = 0%nat).
    { unfold App.UIManager.escapeHtml.
      destruct message; try apply escapeString_no_angle. split; reflexivity. }
    destruct He as [He1 He2].
    destruct (App.UIManager.icons type) as [ icon | ] eqn:Ei; [ | discriminate ].
    assert (Hi : count_occ N.eq_dec icon 60 = 0%nat /\ count_occ N.eq_dec icon 62 = 0%nat).
    { unfold App.UIManager.icons in Ei.
      repeat match type of Ei with
             | context [ jsstring_eqb type ?k ] => destruct (jsstring_eqb type k)
             end;
        try discriminate Ei; injection Ei as <-; split; reflexivity. }
    destruct Hi as [Hi1 Hi2].
    intros H. assert (E : forall x y : jsstring, Some x = Some y -> y = x) by congruence.
    apply E in H. subst markup.
    rewrite !count_occ_app, He1, He2, Hi1, Hi2. split; vm_compute; reflexivity.
  - intros summary. unfold Renderer.summaryHtml. cbv zeta.
    rewrite !count_occ_app.
    destruct (escapeHtml_no_angle
                (Some (orElse summary
                         (VStr (js "No summary available for this analysis.")))))
      as [-> ->].
    split; vm_compute; reflexivity.
  - intros ls message _. apply escapeHtml_no_angle.
Qed.

Lemma escaped_text_adds_no_markup_witness :
  count_occ N.eq_dec
    (html "
                <span class='toast-icon'>" ++ [10005] ++ html "</span>
                <span class='toast-message'>"
     ++ App.UIManager.escapeHtml (VStr (js "<img src=x onerror=alert(1)>")) ++ html "</span>
            ") 60 = 4%nat /\
  count_occ N.eq_dec
    (html "
                <span class='toast-icon'>" ++ [10005] ++ html "</span>
                <span class='toast-message'>"
     ++ App.UIManager.escapeHtml (VStr (js "<img src=x onerror=alert(1)>")) ++ html "</span>
            ") 62 = 4%nat.
Proof.
  apply (proj1 (proj2 escaped_text_adds_no_markup)
           (VStr (js "<img src=x onerror=alert(1)>")) (js "error")).
  reflexivity.
Defined.

End Markup.

(** ** The indicator table and the CSV export (results.js) *)

Section TableRows.
Import Results.

Lemma uintUnits_digits u : Forall (fun c => numberUnit c = true) (uintUnits u).
Proof. induction u; simpl; constructor; auto. Qed.

Lemma decimalDigits_units z : Forall (fun c => numberUnit c = true) (decimalDigits z).
Proof. apply uintUnits_digits. Qed.

Lemma zeros_units n : Forall (fun c => numberUnit c = true) (zeros n).
Proof.
  unfold zeros. induction (Z.to_nat n) as [ | k IH ]; simpl; constructor; auto.
Qed.

Ltac units :=
  repeat first
    [ assumption
    | apply Forall_app; split
    | apply decimalDigits_units
    | apply zeros_units
    | apply Forall_take; apply decimalDigits_units
    | apply Forall_drop; apply decimalDigits_units
    | solve [ apply Forall_forall; intros c Hc; simpl in Hc;
              repeat (destruct Hc as [ <- | Hc ]; [ reflexivity | ]); destruct Hc ]
    | constructor ].

Lemma NumberToString_units x : Forall (fun c => numberUnit c = true) (NumberToString x).
Proof.
  unfold NumberToString.
  destruct (Prim2SF x) as [ s | s | | sg m e ].
  - units.
  - destruct s; units.
  - units.
  - destruct (exactFraction m e) as [num den].
    destruct (shortestDigits 17 (abs x) num den _ 1) as [ [s n] k ].
    cbv zeta.
    apply Forall_app; split; [ destruct sg; units | ].
    destruct ((Z.of_nat (length (decimalDigits s)) <=? n)%Z && (n <=? 21)%Z); [ units | ].
    destruct ((0 <? n)%Z && (n <=? 21)%Z); [ units | ].
    destruct ((-6 <? n)%Z && (n <=? 0)%Z); [ units | ].
    pose proof (decimalDigits_units s) as Hds.
    destruct (decimalDigits s) as [ | d more ]; [ constructor | ].
    inversion Hds as [ | ? ? Hd Hmore ]; subst.
    destruct more as [ | d' more ]; destruct (n - 1 <? 0)%Z; units.
Qed.

Lemma forallb_units l :
  Forall (fun c => numberUnit c = true) l -> forallb numberUnit l = true.
Proof. induction 1 as [ | c l Hc _ IH ]; simpl; [ | rewrite Hc, IH ]; reflexivity. Qed.

Lemma getConfidenceClass_names confidence :
  In (UIUtils.getConfidenceClass confidence) [js "high"; js "medium"; js "low"].
Proof.
  unfold UIUtils.getConfidenceClass. cbv zeta.
  destruct (0.8 <=? UIUtils.confidenceValue confidence)%float; [ simpl; auto | ].
  destruct (0.5 <=? UIUtils.confidenceValue confidence)%float; simpl; auto.
Qed.

Lemma createTableRow_some item :
  hasTextType item = true -> exists row, createTableRow item = Some row /\ rowShows row item.
Proof.
  unfold hasTextType, createTableRow. intros H. apply andb_true_iff in H as [Hn Ht].
  destruct (orElse (getProp item (js "type")) (VStr (js "unknown"))) as [ | | | type | | ]
    eqn:Etype; try discriminate Ht.
  assert (Hne : truthy (VStr type) = true).
  { unfold orElse in Etype. destruct (getProp item (js "type")) as [ v | ].
    - destruct (truthy v) eqn:Ev; [ subst v; exact Ev | injection Etype as <-; reflexivity ].
    - injection Etype as <-. reflexivity. }
  eexists. split.
  - destruct item; [ discriminate Hn | reflexivity .. ].
  - unfold rowShows. cbn [indicatorCell typeBadge confidenceCell connectionsCell sourceCell].
    exists (textOr (js "unknown") (getProp item (js "indicator"))), type,
      (NumberToString
         (Math_round (ToNumber (orElse (getProp item (js "confidence")) (VNum zero)) * 100)%float)),
      (textOr (js "0") (getProp item (js "connections"))),
      (textOr (js "unknown") (getProp item (js "source"))),
      (UIUtils.getConfidenceClass (orElse (getProp item (js "confidence")) (VNum zero))).
    repeat split.
    + unfold indicatorCells, percentOf. rewrite <- cell_percent.
      rewrite <- (cell_textOr (js "unknown") (getProp item (js "type"))).
      rewrite Etype. reflexivity.
    + apply cell_textOr.
    + unfold UIUtils.escapeHtml. rewrite Hne. reflexivity.
    + apply getConfidenceClass_names.
    + apply forallb_units. apply NumberToString_units.
    + apply cell_count.
    + apply cell_textOr.
Qed.

Lemma createTableRow_none item : hasTextType item = false -> createTableRow item = None.
Proof.
  unfold hasTextType, createTableRow.
  destruct item; cbn [ExportManager.isNull negb andb]; try reflexivity;
    destruct (orElse _ _); try discriminate; reflexivity.
Qed.

Lemma appendRows_completed items :
  snd (appendRows items) = forallb hasTextType items.
Proof.
  induction items as [ | item items IH ]; [ reflexivity | ].
  cbn [appendRows forallb]. destruct (hasTextType item) eqn:E.
  - destruct (createTableRow_some item E) as (row & -> & _).
    destruct (appendRows items) as [rows completed]. exact IH.
  - rewrite (createTableRow_none item E). reflexivity.
Qed.

Lemma appendRows_rows items :
  forallb hasTextType items = true -> Forall2 rowShows (fst (appendRows items)) items.
Proof.
  induction items as [ | item items IH ]; [ constructor | ].
  cbn [appendRows forallb]. intros H. apply andb_true_iff in H as [H1 H2].
  destruct (createTableRow_some item H1) as (row & -> & Hrow).
  specialize (IH H2). destruct (appendRows items) as [rows completed].
  constructor; assumption.
Qed.

(** X14. The table and the export agree. For a list of indicators, the table
    is rendered to its end exactly when every indicator is not null and
    has a text (or no) type; it then has one row per indicator, in list
    order, and each row shows what the CSV export writes for that
    indicator, the type with its markup characters escaped. The markup of
    a confidence cell is the fixed template around a class name out of
    three and the text of a number, whatever the payload holds. An empty
    list gives the placeholder. *)
Theorem table_shows_exported_cells (items : list value) :
  snd (renderTable (Some (VArr items))) = forallb hasTextType items /\
  (items = [] -> renderTable (Some (VArr items)) = (NoIndicators, true)) /\
  (items <> [] -> forallb hasTextType items = true ->
   exists rows, renderTable (Some (VArr items)) = (Rows rows, true) /\
                Forall2 rowShows rows items).
Proof.
  split; [ | split ].
  - destruct items as [ | item items ]; [ reflexivity | ].
    unfold renderTable. cbn [truthy negb orb ExportManager.lengthIsZero].
    rewrite <- appendRows_completed.
    destruct (appendRows (item :: items)) as [rows completed]. reflexivity.
  - intros ->. reflexivity.
  - intros Hne Hall. destruct items as [ | item items ]; [ congruence | ].
    unfold renderTable. cbn [truthy negb orb ExportManager.lengthIsZero].
    pose proof (appendRows_completed (item :: items)) as Hc.
    pose proof (appendRows_rows (item :: items) Hall) as Hr.
    rewrite Hall in Hc.
    destruct (appendRows (item :: items)) as [rows completed].
    cbn [fst snd] in Hc, Hr. subst completed. eauto.
Qed.

Lemma table_shows_exported_cells_witness :
  exists rows,
    renderTable (getProp sampleResult (js "results")) = (Rows rows, true) /\
    Forall2 rowShows rows
      match getProp sampleResult (js "results") with
      | Some (VArr items) => items
      | _ => []
      end.
Proof.
  apply (proj2 (proj2 (table_shows_exported_cells _))).
  - discriminate.
  - vm_compute. reflexivity.
Defined.

End TableRows.

(** ** The selected image (app.js) *)

Section ImageUpload.
Import App.

Lemma validateFile_acceptable file :
  Validator.validateFile (Some file) = Validator.FileValid <-> acceptable file = true.
Proof.
  unfold Validator.validateFile, acceptable.
  destruct (CONFIG.UPLOAD.MAX_SIZE <? Validator.fileSize file)%float;
    [ | destruct (existsb (jsstring_eqb (Validator.fileType file))
                    CONFIG.UPLOAD.ALLOWED_TYPES) ];
    cbn [negb andb]; split; intros H; try discriminate H; reflexivity.
Qed.

Lemma selectAll_app files more sel :
  ImageUploadHandler.selectAll (files ++ more) sel
  = ImageUploadHandler.selectAll more (ImageUploadHandler.selectAll files sel).
Proof. unfold ImageUploadHandler.selectAll. apply fold_left_app. Qed.

Lemma handleFileSelect_selected file hasPreview sel :
  fst (fst (ImageUploadHandler.handleFileSelect file hasPreview sel))
  = if acceptable file then Some file else sel.
Proof.
  unfold ImageUploadHandler.handleFileSelect.
  destruct (acceptable file) eqn:E.
  - apply validateFile_acceptable in E. rewrite E. reflexivity.
  - destruct (Validator.validateFile (Some file)) eqn:Ev; [ | reflexivity ].
    apply validateFile_acceptable in Ev. congruence.
Qed.

(** X15. The handler only ever holds a file that passed validation. After any
    series of selections, starting with none selected, the selected file
    is the last acceptable file of the series: it has an allowed type and
    is not larger than the limit; and nothing is selected exactly when no
    file of the series was acceptable. A refused file leaves the earlier
    selection in place. *)
Theorem selected_file_is_acceptable (files : list Validator.File) :
  ImageUploadHandler.selectAll files None = last (List.filter acceptable files) /\
  (forall file, ImageUploadHandler.selectAll files None = Some file ->
                In file files /\
                Validator.validateFile (Some file) = Validator.FileValid /\
                (CONFIG.UPLOAD.MAX_SIZE <? Validator.fileSize file)%float = false /\
                In (Validator.fileType file) CONFIG.UPLOAD.ALLOWED_TYPES).
Proof.
  assert (Hlast : ImageUploadHandler.selectAll files None = last (List.filter acceptable files)).
  { induction files as [ | file files IH ] using rev_ind; [ reflexivity | ].
    rewrite selectAll_app, List.filter_app. cbn [List.filter].
    unfold ImageUploadHandler.selectAll at 1. cbn [fold_left].
    rewrite handleFileSelect_selected.
    destruct (acceptable file) eqn:E.
    - rewrite last_snoc. reflexivity.
    - rewrite app_nil_r. exact IH. }
  split; [ exact Hlast | ].
  intros file Hsel. rewrite Hlast in Hsel.
  assert (Hin : In file (List.filter acceptable files)).
  { clear Hlast. induction (List.filter acceptable files) as [ | f l IH ]; [ discriminate | ].
    destruct l as [ | f' l ].
    - injection Hsel as ->. left. reflexivity.
    - right. apply IH. exact Hsel. }
  apply filter_In in Hin as [Hin Hacc].
  split; [ exact Hin | ]. split; [ apply validateFile_acceptable; exact Hacc | ].
  unfold acceptable in Hacc. apply andb_true_iff in Hacc as [Hs Ht].
  split; [ apply negb_true_iff; exact Hs | ].
  apply existsb_exists in Ht as (t & Hin' & Ht). apply jsstring_eqb_eq in Ht.
  rewrite Ht. exact Hin'.
Qed.

Lemma selected_file_is_acceptable_witness :
  ImageUploadHandler.selectAll
    [ {| Validator.fileName := js "photo.png"; Validator.fileSize := 2048%float;
         Validator.fileType := js "image/png" |};
      {| Validator.fileName := js "notes.pdf"; Validator.fileSize := 512%float;
         Validator.fileType := js "application/pdf" |} ] None
  = Some {| Validator.fileName := js "photo.png"; Validator.fileSize := 2048%float;
            Validator.fileType := js "image/png" |}.
Proof.
  rewrite (proj1 (selected_file_is_acceptable _)). vm_compute. reflexivity.
Defined.

End ImageUpload.

(** ** The JSON report (results.js) *)

Section JsonReport.
Import Results.





























End JsonReport.

(** ** What the CSV export does not do (results.js) *)

Section CsvCells.
Import Results.

Lemma quoted_cells a b c rest :
  csvLine ((a ++ html "','" ++ b) :: c :: rest) = csvLine (a :: (b ++ html "','" ++ c) :: rest).
Proof.
  unfold csvLine. cbn [map]. unfold quoted. change (html "','") with [34; 44; 34].
  change (js ",") with [44].
  destruct rest as [ | d rest ]; cbn [join map]; rewrite <- ?app_assoc; cbn [app];
    rewrite <- ?app_assoc; reflexivity.
Qed.

Lemma indicatorCells_indicatorOf indicator type :
  indicator <> [] -> type <> [] ->
  indicatorCells (indicatorOf indicator type)
  = [indicator; type; js "0%"; js "0"; js "unknown"].
Proof.
  intros Hi Ht. destruct indicator; [ congruence | ]. destruct type; [ congruence | ].
  vm_compute. reflexivity.
Qed.

(** X17. The export writes a cell between double quotes as it is, and escapes
    nothing in it: a double quote inside a cell ends the cell for whoever
    reads the file. Two different indicators, one whose indicator text
    holds the three characters quote, comma, quote, and one whose type
    holds them, are exported as the same text. *)
Theorem csv_cells_are_not_escaped (now : float) (a b c : jsstring) :
  a <> [] -> c <> [] ->
  let one := indicatorOf (a ++ html "','" ++ b) c in
  let other := indicatorOf a (b ++ html "','" ++ c) in
  one <> other /\
  exists text,
    ExportManager.exportedCSV (ExportManager.downloadCSV now (Some (VArr [one])))
    = Some text /\
    ExportManager.exportedCSV (ExportManager.downloadCSV now (Some (VArr [other])))
    = Some text.
Proof.
  intros Ha Hc. cbv zeta. split.
  - unfold indicatorOf. intros H. injection H as H _.
    apply (f_equal (@length N)) in H. rewrite !length_app in H. simpl in H. lia.
  - eexists. unfold ExportManager.downloadCSV.
    cbn [truthy negb orb ExportManager.lengthIsZero existsb ExportManager.isNull indicatorOf].
    fold (indicatorOf (a ++ html "','" ++ b) c). fold (indicatorOf a (b ++ html "','" ++ c)).
    cbn [ExportManager.exportedCSV]. rewrite !csvText_rows. unfold indicatorsCsv.
    cbn [map].
    rewrite !indicatorCells_indicatorOf
      by (try assumption; intros E; apply app_eq_nil in E as [_ E]; discriminate E
                          || (apply app_eq_nil in E as [E _]; contradiction)).
    rewrite quoted_cells. split; reflexivity.
Qed.

Lemma csv_cells_are_not_escaped_witness :
  indicatorOf (js "evil" ++ html "','" ++ js "x") (js "ip")
  <> indicatorOf (js "evil") (js "x" ++ html "','" ++ js "ip").
Proof.
  apply (csv_cells_are_not_escaped zero (js "evil") (js "x") (js "ip")); discriminate.
Defined.

End CsvCells.
